(** * iio-fifo-viewer: record layout and decoding

    A shallow embedding of [iio-fifo-viewer.py] (a Python 2 script) and the
    properties of its record decoder: the scan-element type parser
    [type_to_unpack], the rounding helper [align], the ordering of channels
    ([IioChannel.__lt__] under [sorted]), the chunk size
    ([IioInfo.get_chunk_size]) and the per-record decoder
    ([IioInfo.decorate]).

    Python values are modelled as follows.  [int]/[long] are [Z]; [str] used
    as text is [string]; [str] used as a byte buffer (a chunk read from the
    device file) is [list byte]; [float] is the binary64 type [float] of the
    kernel, which is what CPython uses; an exception is the [Raise] branch
    of [result]. *)

From Stdlib Require Import ZArith List String Ascii Strings.Byte Floats Lia Bool.
From Stdlib Require Import Permutation Sorted.
Import ListNotations.

Open Scope string_scope.
Open Scope list_scope.
Open Scope Z_scope.

(** ** Exceptions *)

Inductive exn : Set :=
| TypeError
| ZeroDivisionError
| StructError      (* struct.error *)
| IndexError
| ValueError.

Inductive result (A : Type) : Type :=
| Ok (a : A)
| Raise (e : exn).

Arguments Ok {A} a.
Arguments Raise {A} e.

Definition bind {A B : Type} (m : result A) (k : A -> result B) : result B :=
  match m with
  | Ok a => k a
  | Raise e => Raise e
  end.

Declare Scope py_scope.
Delimit Scope py_scope with py.
Notation "x <- m ;; k" := (bind m (fun x => k))
  (at level 61, m at next level, right associativity) : py_scope.
Notation "' p <- m ;; k" := (bind m (fun x => let p := x in k))
  (at level 61, p pattern, m at next level, right associativity) : py_scope.
Open Scope py_scope.

(** ** The Python built-ins the script uses *)

Module Py.

(** [s.find(sub)] for a one-character [sub]: the lowest index of [sub] in
    [s], or [-1]. *)
Fixpoint find_at (sub : ascii) (s : string) (i : Z) : Z :=
  match s with
  | EmptyString => -1
  | String c s' => if Ascii.eqb c sub then i else find_at sub s' (i + 1)
  end.

Definition find (s : string) (sub : ascii) : Z := find_at sub s 0.

(** A slice bound as CPython adjusts it for a sequence of length [n]: a
    negative bound counts from the end, and the result is clipped to
    [0 .. n]. *)
Definition adjust (n i : Z) : Z :=
  let i := if i <? 0 then i + n else i in
  if i <? 0 then 0 else if n <? i then n else i.

(** [l[start:stop]] on a sequence. *)
Definition slice {A : Type} (l : list A) (start stop : Z) : list A :=
  let n := Z.of_nat (List.length l) in
  let a := adjust n start in
  let b := adjust n stop in
  firstn (Z.to_nat (b - a)) (skipn (Z.to_nat a) l).

(** [s[start:stop]] on a [str]. *)
Definition substr (s : string) (start stop : Z) : string :=
  string_of_list_ascii (slice (list_ascii_of_string s) start stop).

(** [d.get(key, default)] on a dict written as a literal with distinct
    keys. *)
Fixpoint dict_get {V : Type} (d : list (string * V)) (key : string) (default : V) : V :=
  match d with
  | [] => default
  | (k, v) :: d' => if String.eqb k key then v else dict_get d' key default
  end.

(** [divmod(a, b)] on ints: floor division, the remainder has the sign of
    [b]; these are [Z.div] and [Z.modulo]. *)
Definition divmod (a b : Z) : result (Z * Z) :=
  if b =? 0 then Raise ZeroDivisionError else Ok (a / b, a mod b).

(** [t[i]] on a tuple, for [0 <= i]. *)
Definition getitem {A : Type} (t : list A) (i : nat) : result A :=
  match nth_error t i with
  | Some a => Ok a
  | None => Raise IndexError
  end.

(** [sum(l)] on a list of ints. *)
Definition sum (l : list Z) : Z := fold_left Z.add l 0.

End Py.

(** ** Module constants *)

(** [TIMESTAMP_ALIGNMENT=64/8]: integer division in Python 2. *)
Definition TIMESTAMP_ALIGNMENT : Z := 64 / 8.

(** ** [type_to_unpack] *)

Definition inttypes : list (string * (string * Z)) :=
  [ ("0",   ("x", 0));
    ("s8",  ("b", 1));
    ("u8",  ("B", 1));
    ("s16", ("h", 2));
    ("u16", ("H", 2));
    ("s32", ("i", 4));
    ("u32", ("I", 4));
    ("s64", ("q", 8));
    ("u64", ("Q", 8)) ].

(** The token between the first [":"] and the first ["/"] of a type
    string, as line 34 slices it. *)
Definition valtyp_of (typ : string) : string :=
  Py.substr typ (Py.find typ ":" + 1) (Py.find typ "/").

(** [type_to_unpack(typ)].  The argument is what [read_info] returned: a
    line of text, or [None] when no file matched, on which [typ[:2]]
    raises [TypeError]. *)
Definition type_to_unpack (typ : option string) : result (string * Z) :=
  match typ with
  | None => Raise TypeError
  | Some typ =>
      let ret := if String.eqb (Py.substr typ 0 2) "be" then ">" else "<" in
      let valtyp := valtyp_of typ in
      let '(char, leng) := Py.dict_get inttypes valtyp ("x", 0) in
      let ret := (ret ++ char)%string in
      Ok (ret, leng)
  end.

(** ** [align] *)

Definition align (value alignment : Z) : result Z :=
  '(floor, remainder) <- Py.divmod value alignment ;;
  Ok ((floor + (if 0 <? remainder then 1 else 0)) * alignment).

(** ** Numbers and values *)

(** The conversion of an [int] or [long] to [float] that [int + float]
    performs: the nearest binary64 value, ties to even. *)
Definition float_of_Z (z : Z) : float :=
  SF2Prim (binary_normalize prec emax z 0 false).

(** The values the script stores in [offset] and [scale] and puts in the
    tuples [decorate] returns: an [int], a [str] or a [float]. *)
Inductive pyval : Set :=
| PyInt (z : Z)
| PyStr (s : string)
| PyFloat (f : float).

(** [float(s)] for a [str] is a built-in of the interpreter, not code of the
    script: the development is parametric in it.  It returns a float or
    raises (a [ValueError] in CPython). *)
Class FloatOfStr : Type := float_of_str : string -> result float.

(** [float(v)]. *)
Definition py_float `{FloatOfStr} (v : pyval) : result float :=
  match v with
  | PyInt z => Ok (float_of_Z z)
  | PyStr s => float_of_str s
  | PyFloat f => Ok f
  end.

(** ** [struct.unpack]

    The formats [type_to_unpack] builds: a byte-order character (["<"] or
    [">"], both with standard sizes and no padding) followed by one format
    character.  Any other format string is outside this model and reported
    as [struct.error]. *)

Module Struct.

Inductive code : Set :=
| Pad                                  (* "x": one pad byte, no value *)
| Int (size : Z) (signed : bool).

Definition code_of (c : ascii) : option code :=
  match c with
  | "x"%char => Some Pad
  | "b"%char => Some (Int 1 true)
  | "B"%char => Some (Int 1 false)
  | "h"%char => Some (Int 2 true)
  | "H"%char => Some (Int 2 false)
  | "i"%char => Some (Int 4 true)
  | "I"%char => Some (Int 4 false)
  | "q"%char => Some (Int 8 true)
  | "Q"%char => Some (Int 8 false)
  | _ => None
  end.

Definition byte_order (c : ascii) : option bool :=   (* true: big-endian *)
  match c with
  | ">"%char => Some true
  | "<"%char => Some false
  | _ => None
  end.

Definition calcsize (k : code) : Z :=
  match k with
  | Pad => 1
  | Int size _ => size
  end.

Definition le_uint (buf : list byte) : Z :=
  fold_right (fun b acc => Z.of_N (Byte.to_N b) + 256 * acc) 0 buf.

Definition be_uint (buf : list byte) : Z := le_uint (rev buf).

(** Two's complement on [size] bytes. *)
Definition to_signed (size u : Z) : Z :=
  if u <? 2 ^ (8 * size - 1) then u else u - 2 ^ (8 * size).

(** [struct.unpack(fmt, buf)]: the tuple of unpacked values; the buffer
    must have exactly the size the format calls for. *)
Definition unpack (fmt : string) (buf : list byte) : result (list Z) :=
  match fmt with
  | String o (String c EmptyString) =>
      match byte_order o, code_of c with
      | Some big, Some k =>
          if Z.of_nat (List.length buf) =? calcsize k then
            match k with
            | Pad => Ok []
            | Int size signed =>
                let u := if big then be_uint buf else le_uint buf in
                Ok [if signed then to_signed size u else u]
            end
          else Raise StructError
      | _, _ => Raise StructError
      end
  | _ => Raise StructError
  end.

End Struct.

(** ** [sorted]

    [sorted(l)] returns the elements of [l] in ascending order for [<],
    elements that do not compare as smaller one way or the other staying in
    their original order (the sort is stable).  The list is computed here
    by insertion; for the channels it is the only list that is ascending
    and stable ([sorted_channels_unique] below), so the algorithm of the
    interpreter does not matter. *)

Section Sorting.

Variable A : Type.
Variable lt : A -> A -> bool.

Fixpoint insert (x : A) (l : list A) : list A :=
  match l with
  | [] => [x]
  | y :: l' => if lt y x then y :: insert x l' else x :: y :: l'
  end.

Definition sorted (l : list A) : list A := fold_right insert [] l.

(** [a] may stand before [b] in a sorted list. *)
Definition not_after (a b : A) : Prop := lt b a = false.

End Sorting.

Arguments insert {A} lt x l.
Arguments sorted {A} lt l.
Arguments not_after {A} lt a b.

(** ** [IioChannel] *)

Record IioChannel : Set := {
  name : string;
  direction : string;
  enabled : option string;
  index : string;
  typ : option string;
  typ_str : string;
  typ_len : Z;
  offset : pyval;
  scale : pyval
}.

(** [IioChannel.__init__], with the five [read_info] results as arguments
    ([None] when no sysfs file matched).  The index line is taken as
    present: every scan element with an [_en] file has its [_index] file,
    and a [None] index would leave the comparison of two channels to
    CPython's fallback order on object addresses. *)
Definition IioChannel_init (direction name : string)
    (en : option string) (index : string) (typ offset scale : option string)
  : result IioChannel :=
  '(typ_str, typ_len) <- type_to_unpack typ ;;
  let offset := match offset with None => PyInt 0 | Some s => PyStr s end in
  let scale := match scale with None => PyInt 1 | Some s => PyStr s end in
  Ok {| name := name; direction := direction; enabled := en; index := index;
        typ := typ; typ_str := typ_str; typ_len := typ_len;
        offset := offset; scale := scale |}.

(** [IioChannel.__lt__], the only comparison [sorted] calls: [str.__lt__] on
    the two index lines, which compares them byte by byte. *)
Definition IioChannel_lt (self other : IioChannel) : bool :=
  String.ltb (index self) (index other).

(** [IioChannel.__eq__]. *)
Definition IioChannel_eq (self other : IioChannel) : bool :=
  String.eqb (index self) (index other).

(** ** [IioInfo] *)

Record IioInfo : Set := {
  iio_name : string;
  dev_num : string;
  channel : list IioChannel
}.

(** The local variables of [decorate] that live across loop iterations. *)
Record locals : Set := {
  ret : list (string * pyval);
  byte_start : Z;
  byte_end : Z
}.

Section Decoder.

Context `{FloatOfStr}.

(** One iteration of the [for] loop of [decorate] (lines 123-132). *)
Definition decorate_body (data : list byte) (st : locals) (chan : IioChannel)
  : result locals :=
  byte_start <-
    (if String.eqb (name chan) "timestamp"
     then align (byte_start st) TIMESTAMP_ALIGNMENT
     else Ok (byte_start st)) ;;
  '(val, byte_end) <-
    (if typ_len chan =? 0 then
       Ok ((name chan, PyInt 0), byte_end st)
     else
       let byte_end := byte_start + typ_len chan in
       unpacked <- Struct.unpack (typ_str chan) (Py.slice data byte_start byte_end) ;;
       rawval <- Py.getitem unpacked 0 ;;
       off <- py_float (offset chan) ;;
       sc <- py_float (scale chan) ;;
       Ok ((name chan, PyFloat ((float_of_Z rawval + off) * sc)%float), byte_end)) ;;
  Ok {| ret := ret st ++ [val]; byte_start := byte_end; byte_end := byte_end |}.

(** [for chan in chans: body]. *)
Fixpoint for_each (data : list byte) (st : locals) (chans : list IioChannel)
  : result locals :=
  match chans with
  | [] => Ok st
  | chan :: chans' =>
      st' <- decorate_body data st chan ;;
      for_each data st' chans'
  end.

Definition decorate_init : locals :=
  {| ret := []; byte_start := 0; byte_end := 0 |}.

(** [IioInfo.decorate]. *)
Definition decorate (self : IioInfo) (data : list byte)
  : result (list (string * pyval)) :=
  st <- for_each data decorate_init (sorted IioChannel_lt (channel self)) ;;
  Ok (ret st).

End Decoder.

(** [IioInfo.get_chunk_size]. *)
Definition get_chunk_size (self : IioInfo) : result Z :=
  align (Py.sum (map typ_len (channel self))) TIMESTAMP_ALIGNMENT.

(** ** The byte spans [decorate] reads

    The loop of [decorate] keeps its layout in two local variables.  The
    definitions below name the values they take, so that statements about
    byte spans can be written down; [decorate_layout] below shows that they
    are the spans the loop slices. *)

(** The value of [align(cursor, TIMESTAMP_ALIGNMENT)]. *)
Definition aligned (cursor : Z) : Z :=
  match align cursor TIMESTAMP_ALIGNMENT with
  | Ok v => v
  | Raise _ => cursor
  end.

(** [byte_start] after line 124, for a channel entered with [byte_start =
    byte_end = cursor]. *)
Definition start_of (chan : IioChannel) (cursor : Z) : Z :=
  if String.eqb (name chan) "timestamp" then aligned cursor else cursor.

(** [byte_end] when line 131 appends the value of the channel. *)
Definition end_of (chan : IioChannel) (cursor : Z) : Z :=
  if typ_len chan =? 0 then cursor else start_of chan cursor + typ_len chan.

Fixpoint layout_from (cursor : Z) (chans : list IioChannel)
  : list (IioChannel * Z * Z) :=
  match chans with
  | [] => []
  | chan :: chans' =>
      (chan, start_of chan cursor, end_of chan cursor)
        :: layout_from (end_of chan cursor) chans'
  end.

Definition cursor_after (cursor : Z) (chans : list IioChannel) : Z :=
  fold_left (fun c chan => end_of chan c) chans cursor.

(** The channels with their values of [byte_start] and [byte_end], in the
    order [decorate] visits them. *)
Definition layout (self : IioInfo) : list (IioChannel * Z * Z) :=
  layout_from 0 (sorted IioChannel_lt (channel self)).

(** The value of [byte_end] when the loop of [decorate] ends. *)
Definition bytes_needed (self : IioInfo) : Z :=
  cursor_after 0 (sorted IioChannel_lt (channel self)).

(** Lines 125-130 for one channel whose span is known. *)
Definition decode_field `{FloatOfStr} (data : list byte)
    (entry : IioChannel * Z * Z) : result (string * pyval) :=
  let '(chan, first, last) := entry in
  if typ_len chan =? 0 then Ok (name chan, PyInt 0)
  else
    unpacked <- Struct.unpack (typ_str chan) (Py.slice data first last) ;;
    rawval <- Py.getitem unpacked 0 ;;
    off <- py_float (offset chan) ;;
    sc <- py_float (scale chan) ;;
    Ok (name chan, PyFloat ((float_of_Z rawval + off) * sc)%float).

Fixpoint map_result {A B : Type} (f : A -> result B) (l : list A) : result (list B) :=
  match l with
  | [] => Ok []
  | a :: l' =>
      b <- f a ;;
      bs <- map_result f l' ;;
      Ok (b :: bs)
  end.

(** A channel as [__init__] leaves it. *)
Definition built (chan : IioChannel) : Prop :=
  type_to_unpack (typ chan) = Ok (typ_str chan, typ_len chan).

(** [float()] accepts the offset and the scale of the channel. *)
Definition calibrated `{FloatOfStr} (chan : IioChannel) : Prop :=
  (exists off, py_float (offset chan) = Ok off) /\
  (exists sc, py_float (scale chan) = Ok sc).

(** ** Decimal numerals

    The text of the sysfs attributes used in the examples below: the line
    [readline] returns ends with a newline, and [float()] and [int()] skip
    the white space around a numeral. *)

Module Decimal.

Definition line (s : string) : string := s ++ String "010"%char "".

Definition is_space (c : ascii) : bool :=
  let n := N_of_ascii c in
  (N.eqb n 32 || (N.leb 9 n && N.leb n 13))%bool.

Fixpoint lstrip (s : list ascii) : list ascii :=
  match s with
  | c :: s' => if is_space c then lstrip s' else s
  | [] => []
  end.

Definition strip (s : list ascii) : list ascii :=
  rev (lstrip (rev (lstrip s))).

Definition digit (c : ascii) : option Z :=
  let n := Z.of_N (N_of_ascii c) in
  if ((48 <=? n) && (n <=? 57))%bool then Some (n - 48) else None.

(** Reads a run of digits: the number read so far, how many digits were
    read, and the rest of the text. *)
Fixpoint digits (s : list ascii) (acc : Z) (n : nat) : Z * nat * list ascii :=
  match s with
  | c :: s' =>
      match digit c with
      | Some d => digits s' (10 * acc + d) (S n)
      | None => (acc, n, s)
      end
  | [] => (acc, n, [])
  end.

Definition sign (s : list ascii) : bool * list ascii :=
  match s with
  | "-"%char :: s' => (true, s')
  | "+"%char :: s' => (false, s')
  | _ => (false, s)
  end.

(** The binary64 value nearest to [m / d], for [0 <= m] and [0 < d]. *)
Definition ratio (neg : bool) (m d : Z) : float :=
  match m, d with
  | Zpos pm, Zpos pd =>
      SF2Prim (SFdiv prec emax (S754_finite neg pm 0) (S754_finite false pd 0))
  | _, _ => if neg then (- 0)%float else 0%float
  end.

(** [float(s)] on plain decimal notation: an optional sign, digits, and
    an optional point followed by digits.  The other spellings CPython
    accepts (an exponent, [inf], [nan]) do not occur below and are
    reported as [ValueError]. *)
Definition to_float (s : string) : result float :=
  let '(neg, s) := sign (strip (list_ascii_of_string s)) in
  let '(int_part, n_int, s) := digits s 0 0 in
  let '(mant, n_frac, s) :=
    match s with
    | "."%char :: s' => digits s' int_part 0
    | _ => (int_part, 0%nat, s)
    end in
  match s with
  | [] =>
      if (n_int + n_frac =? 0)%nat then Raise ValueError
      else Ok (ratio neg mant (10 ^ Z.of_nat n_frac))
  | _ :: _ => Raise ValueError
  end.

(** The number a line of digits denotes ([0] when it is not one). *)
Definition to_int (s : string) : Z :=
  let '(neg, s) := sign (strip (list_ascii_of_string s)) in
  let '(n, _, _) := digits s 0 0 in
  if neg then - n else n.

End Decimal.

(** ** The layout planner as the specification words it

    The definitions of this module follow the prose of the specification
    (section 4.3), not the script: channels are ordered by the number their
    index denotes, the cursor is rounded up to a multiple of 8 before a
    channel named [timestamp], every channel takes [cursor, cursor + width),
    and the final cursor is rounded up to a multiple of 8. *)

Module Spec.

Definition index_of (chan : IioChannel) : Z := Decimal.to_int (index chan).

Definition index_lt (a b : IioChannel) : bool := index_of a <? index_of b.

(** The next multiple of 8 at or above [cursor]. *)
Definition round_up (cursor : Z) : Z := 8 * ((cursor + 7) / 8).

Fixpoint place (cursor : Z) (chans : list IioChannel)
  : list (IioChannel * Z * Z) * Z :=
  match chans with
  | [] => ([], cursor)
  | chan :: chans' =>
      let cursor :=
        if String.eqb (name chan) "timestamp" then round_up cursor else cursor in
      let byteStart := cursor in
      let byteEnd := cursor + typ_len chan in
      let '(spans, final) := place byteEnd chans' in
      ((chan, byteStart, byteEnd) :: spans, final)
  end.

Definition plan (descriptors : list IioChannel) : list (IioChannel * Z * Z) * Z :=
  let '(spans, final) := place 0 (sorted index_lt descriptors) in
  (spans, round_up final).

Definition totalSize (descriptors : list IioChannel) : Z := snd (plan descriptors).

End Spec.

(** ** Example devices *)

(** The plain decimal reading of [float()], for the examples. *)
#[global] Instance decimal_float : FloatOfStr := Decimal.to_float.

(** The channel [__init__] builds for an input scan element whose sysfs
    files hold the given lines.  [type_to_unpack] does not raise on a
    string, so the second branch is never taken. *)
Definition scan_element (name index typ : string) (offset scale : option string)
  : IioChannel :=
  match IioChannel_init "in" name (Some (Decimal.line "1")) (Decimal.line index)
          (Some (Decimal.line typ)) (option_map Decimal.line offset)
          (option_map Decimal.line scale) with
  | Ok chan => chan
  | Raise _ =>
      {| name := name; direction := "in"; enabled := None; index := index;
         typ := None; typ_str := "<x"; typ_len := 0;
         offset := PyInt 0; scale := PyInt 1 |}
  end.

Definition device (chans : list IioChannel) : IioInfo :=
  {| iio_name := "icm20602"; dev_num := "0"; channel := chans |}.

Definition accel_x : IioChannel := scan_element "accel_x" "0" "le:s16/16>>0" None None.
Definition timestamp : IioChannel := scan_element "timestamp" "1" "le:s64/64>>0" None None.

(** A 16-bit channel followed by the timestamp. *)
Definition accel_and_timestamp : IioInfo := device [accel_x; timestamp].

(** A 16-bit channel, the timestamp, and an 8-bit channel after it. *)
Definition timestamp_in_the_middle : IioInfo :=
  device [accel_x; timestamp; scan_element "count" "2" "le:u8/8>>0" None None].

(** One signed 16-bit little-endian channel with no offset or scale file. *)
Definition one_s16 : IioInfo := device [accel_x].

(** The same channel with offset 10 and scale 2. *)
Definition one_s16_calibrated : IioInfo :=
  device [scan_element "accel_x" "0" "le:s16/16>>0" (Some "10") (Some "2")].

(** One unsigned 8-bit channel. *)
Definition one_u8 : IioInfo := device [scan_element "count" "0" "le:u8/8>>0" None None].

(** Twelve bits stored in sixteen: a type outside [inttypes]. *)
Definition temp : IioChannel := scan_element "temp" "0" "le:s12/16>>4" None None.

(** A timestamp whose type is outside [inttypes]. *)
Definition odd_timestamp : IioChannel :=
  scan_element "timestamp" "1" "le:s48/64>>0" None None.

(** Two channels whose indices have one and two digits. *)
Definition chan_2 : IioChannel := scan_element "anglvel_z" "2" "le:u8/8>>0" None None.
Definition chan_10 : IioChannel := scan_element "magn_x" "10" "le:u8/8>>0" None None.
Definition eleven_channels : IioInfo := device [chan_2; chan_10].

(** Two channels that share an index. *)
Definition twin_a : IioChannel := scan_element "accel_y" "1" "le:u8/8>>0" None None.
Definition twin_b : IioChannel := scan_element "accel_z" "1" "le:u8/8>>0" None None.

(** The first components of the entries of [inttypes]. *)
Definition vocabulary : list string := map fst inttypes.

(** The device with another list of channels. *)
Definition with_channels (self : IioInfo) (chans : list IioChannel) : IioInfo :=
  {| iio_name := iio_name self; dev_num := dev_num self; channel := chans |}.

(** Channels whose index line is [k]. *)
Definition has_index (k : string) (chan : IioChannel) : bool :=
  String.eqb (index chan) k.

(** ** More built-ins: strings and files *)

Module PyStr.

(** [s.startswith(prefix)]. *)
Definition startswith (s prefix : string) : bool := String.prefix prefix s.

(** [s.endswith(suffix)]. *)
Definition endswith (s suffix : string) : bool :=
  ((String.length suffix <=? String.length s)%nat
   && String.eqb
        (Py.substr s (Z.of_nat (String.length s) - Z.of_nat (String.length suffix))
                   (Z.of_nat (String.length s)))
        suffix)%bool.

(** [s[0]]. *)
Definition first (s : string) : result string :=
  match s with
  | EmptyString => Raise IndexError
  | String c _ => Ok (String c "")
  end.

(** [s[-n:]]. *)
Definition last (n : Z) (s : string) : string :=
  Py.substr s (- n) (Z.of_nat (String.length s)).

(** [s.split(sep)] for a one-character [sep]: the pieces between the
    separators, empty pieces included; never the empty list. *)
Fixpoint split (sep : ascii) (s : string) : list string :=
  match s with
  | EmptyString => [""]
  | String c s' =>
      if Ascii.eqb c sep then "" :: split sep s'
      else
        match split sep s' with
        | piece :: pieces => String c piece :: pieces
        | [] => [String c ""]
        end
  end.

(** [sep.join(l)]. *)
Definition join (sep : string) (l : list string) : string := String.concat sep l.

(** [f.readline()] on a file just opened, [s] being its text: the text up
    to and including the first newline. *)
Fixpoint readline (s : string) : string :=
  match s with
  | EmptyString => ""
  | String c s' =>
      if Ascii.eqb c "010" then String c "" else String c (readline s')
  end.

(** [f.read(size)] on a file whose unread bytes are [pending]: the bytes
    read and the bytes left.  A negative size reads to the end. *)
Definition read {A : Type} (pending : list A) (size : Z) : list A * list A :=
  if size <? 0 then (pending, [])
  else (firstn (Z.to_nat size) pending, skipn (Z.to_nat size) pending).

End PyStr.

Module Os.

(** What the script's sysfs functions can raise: an exception of the
    interpreter, [IOError] from [open], [OSError] from [os.listdir]. *)
Inductive raised : Set :=
| Core (e : exn)
| IOError
| OSError.

Inductive io (A : Type) : Type :=
| Done (a : A)
| Failed (r : raised).

Arguments Done {A} a.
Arguments Failed {A} r.

Definition bind {A B : Type} (m : io A) (k : A -> io B) : io B :=
  match m with
  | Done a => k a
  | Failed r => Failed r
  end.

Definition lift {A : Type} (m : result A) : io A :=
  match m with
  | Ok a => Done a
  | Raise e => Failed (Core e)
  end.

(** The part of the file system the script looks at: the text of the files
    [open] can read ([None]: [open] raises [IOError]) and the names
    [os.listdir] returns for a directory, in its order ([None]: it raises
    [OSError]). *)
Record filesystem : Type := {
  read_file : string -> option string;
  listdir : string -> option (list string)
}.

(** One step of [posixpath.join]. *)
Definition join_step (path b : string) : string :=
  if PyStr.startswith b "/" then b
  else if (String.eqb path "" || PyStr.endswith path "/")%bool then path ++ b
  else path ++ "/" ++ b.

(** [os.path.join(a, *p)]. *)
Definition join (a : string) (p : list string) : string :=
  fold_left join_step p a.

End Os.

Notation "x <~ m ;; k" := (Os.bind m (fun x => k))
  (at level 61, m at next level, right associativity) : py_scope.

Definition SYSFS_BASEPATH : string := "/sys/bus/iio/devices/".

(** [match_file_content(filename, content)]. *)
Definition match_file_content (fs : Os.filesystem) (filename content : string)
  : Os.io bool :=
  match Os.read_file fs filename with
  | None => Os.Failed Os.IOError
  | Some text =>
      let '(got, _) :=
        PyStr.read (list_ascii_of_string text) (Z.of_nat (String.length content)) in
      Os.Done (String.eqb (string_of_list_ascii got) content)
  end.

(** The list comprehension of [find_devnum] over the listed names. *)
Fixpoint find_devnum_in (fs : Os.filesystem) (name : string)
    (directories : list string) : Os.io (list string) :=
  match directories with
  | [] => Os.Done []
  | directory :: rest =>
      initial <~ Os.lift (PyStr.first directory) ;;
      keep <~ (if String.eqb initial "i"
               then match_file_content fs
                      (Os.join SYSFS_BASEPATH [directory; "name"]) name
               else Os.Done false) ;;
      nums <~ find_devnum_in fs name rest ;;
      Os.Done (if keep then PyStr.last 1 directory :: nums else nums)
  end.

(** [find_devnum(name)]. *)
Definition find_devnum (fs : Os.filesystem) (name : string) : Os.io (list string) :=
  match Os.listdir fs SYSFS_BASEPATH with
  | None => Os.Failed Os.OSError
  | Some directories => find_devnum_in fs name directories
  end.

(** [read_one_line(filename)]. *)
Definition read_one_line (fs : Os.filesystem) (filename : string) : Os.io string :=
  match Os.read_file fs filename with
  | None => Os.Failed Os.IOError
  | Some text => Os.Done (PyStr.readline text)
  end.

(** The first four assignments of [IioInfo.__init__] (lines 108-111):
    [dev_num], [sysfs_path] and [scan_path]. *)
Definition IioInfo_paths (fs : Os.filesystem) (iio_name : string)
  : Os.io (string * string * string) :=
  nums <~ find_devnum fs iio_name ;;
  dev_num <~ Os.lift (Py.getitem nums 0) ;;
  let sysfs_path := Os.join SYSFS_BASEPATH [("iio:device" ++ dev_num)%string] in
  let scan_path := Os.join sysfs_path ["scan_elements"] in
  Os.Done (dev_num, sysfs_path, scan_path).

(** The filter of the comprehension of lines 112-113: [fil[-2:] == "en"]. *)
Definition is_enable_file (fil : string) : bool :=
  String.eqb (PyStr.last 2 fil) "en".

(** The direction and the name the comprehension passes to [IioChannel] for
    the file [fil]: [fil.split("_")[0]] and
    ["_".join(fil.split("_")[1:-1])]. *)
Definition scan_element_id (fil : string) : result (string * string) :=
  direction <- Py.getitem (PyStr.split "_" fil) 0 ;;
  Ok (direction, PyStr.join "_" (Py.slice (PyStr.split "_" fil) 1 (-1))).

(** The identities of the channels [IioInfo.__init__] creates for the
    listed names of [scan_path], in their order. *)
Fixpoint scan_element_ids (files : list string) : result (list (string * string)) :=
  match files with
  | [] => Ok []
  | fil :: files' =>
      if is_enable_file fil then
        id <- scan_element_id fil ;;
        ids <- scan_element_ids files' ;;
        Ok (id :: ids)
      else scan_element_ids files'
  end.

(** [IioChannel.__str__]. *)
Definition IioChannel_str (self : IioChannel) : string :=
  name self ++ ": " ++ index self.

(** ** [ChunkReader]

    A [file] that is read in chunks: the bytes not yet read and the chunk
    size. *)
Record ChunkReader : Set := {
  pending : list byte;
  chunk_size : Z
}.

(** [ChunkReader.__init__]. *)
Definition ChunkReader_init (fs : Os.filesystem) (filename : string) (size : Z)
  : Os.io ChunkReader :=
  match Os.read_file fs filename with
  | None => Os.Failed Os.IOError
  | Some text => Os.Done {| pending := list_byte_of_string text; chunk_size := size |}
  end.

(** [ChunkReader.next]: the chunk and the reader afterwards. *)
Definition ChunkReader_next (self : ChunkReader) : list byte * ChunkReader :=
  let '(chunk, rest) := PyStr.read (pending self) (chunk_size self) in
  (chunk, {| pending := rest; chunk_size := chunk_size self |}).

(** The chunks of [n] calls of [next]. *)
Fixpoint next_chunks (n : nat) (self : ChunkReader) : list (list byte) * ChunkReader :=
  match n with
  | O => ([], self)
  | S n' =>
      let '(chunk, self') := ChunkReader_next self in
      let '(chunks, self'') := next_chunks n' self' in
      (chunk :: chunks, self'')
  end.

(** ** Notions used in the statements below *)

(** The value of [align(value, alignment)]. *)
Definition aligned_to (value alignment : Z) : Z :=
  match align value alignment with
  | Ok v => v
  | Raise _ => value
  end.

(** A listed directory that [find_devnum] reports. *)
Definition is_device (fs : Os.filesystem) (name directory : string) : bool :=
  (String.eqb (String.substring 0 1 directory) "i"
   && match Os.read_file fs (Os.join SYSFS_BASEPATH [directory; "name"]) with
      | Some text => String.prefix name text
      | None => false
      end)%bool.

(** The value of a channel is the integer [0] when its length is zero and
    a float otherwise. *)
Definition value_of_channel (chan : IioChannel) (val : string * pyval) : Prop :=
  fst val = name chan /\
  if typ_len chan =? 0 then snd val = PyInt 0
  else exists f, snd val = PyFloat f.

(** No newline in [s]. *)
Definition one_line (s : string) : Prop := Py.find s "010" = -1.

(** A file system with the given files and one directory listing. *)
Definition files_of (files : list (string * string))
    (directory : string) (names : list string) : Os.filesystem :=
  {| Os.read_file := fun path =>
       match find (fun f => String.eqb (fst f) path) files with
       | Some f => Some (snd f)
       | None => None
       end;
     Os.listdir := fun path =>
       if String.eqb path directory then Some names else None |}.

(** A sysfs directory with a pressure sensor as device 0, a trigger, and
    the motion sensor as device 12. *)
Definition two_devices : Os.filesystem :=
  files_of
    [("/sys/bus/iio/devices/iio:device0/name", Decimal.line "bmp280");
     ("/sys/bus/iio/devices/iio:device12/name", Decimal.line "icm20602")]
    SYSFS_BASEPATH ["iio:device0"; "trigger0"; "iio:device12"].

(** A sysfs directory with the motion sensor and the directory of the sysfs
    trigger, which has no [name] file. *)
Definition with_sysfs_trigger : Os.filesystem :=
  files_of
    [("/sys/bus/iio/devices/iio:device0/name", Decimal.line "icm20602")]
    SYSFS_BASEPATH ["iio:device0"; "iio_sysfs_trigger"].

(** A file of five bytes read in chunks of two. *)
Definition five_bytes : ChunkReader :=
  {| pending := [x01; x02; x03; x04; x05]; chunk_size := 2 |}.

(** * Properties *)

(** ** [align] *)

Lemma align_aligned (v : Z) : align v TIMESTAMP_ALIGNMENT = Ok (aligned v).
Proof. reflexivity. Qed.

Lemma aligned_eq (v : Z) :
  aligned v = (v / 8 + (if 0 <? v mod 8 then 1 else 0)) * 8.
Proof. reflexivity. Qed.

Lemma aligned_mod (v : Z) : aligned v mod 8 = 0.
Proof. rewrite aligned_eq. apply Z.mod_mul. lia. Qed.

Lemma aligned_bounds (v : Z) : v <= aligned v < v + 8.
Proof.
  rewrite aligned_eq.
  pose proof (Z.div_mod v 8 ltac:(lia)) as Hdm.
  pose proof (Z.mod_pos_bound v 8 ltac:(lia)) as Hb.
  destruct (Z.ltb_spec 0 (v mod 8)); lia.
Qed.

Lemma aligned_least (v m : Z) : m mod 8 = 0 -> v <= m -> aligned v <= m.
Proof.
  intros Hm Hle.
  pose proof (aligned_mod v) as Ha.
  pose proof (aligned_bounds v) as Hb.
  apply Z.mod_divide in Hm; [|lia]. apply Z.mod_divide in Ha; [|lia].
  destruct Hm as [p Hp]. destruct Ha as [q Hq]. lia.
Qed.

Lemma aligned_fixed (v : Z) : v mod 8 = 0 -> aligned v = v.
Proof.
  intros Hm. pose proof (aligned_least v v Hm (Z.le_refl v)).
  pose proof (aligned_bounds v). lia.
Qed.

Lemma aligned_add_8 (v : Z) : aligned (v + 8) = aligned v + 8.
Proof.
  rewrite !aligned_eq.
  replace (v + 8) with (v + 1 * 8) by lia.
  rewrite Z.div_add, Z.mod_add by lia. lia.
Qed.

(** [align] rounds up as the specification words it. *)
Lemma aligned_round_up (v : Z) : aligned v = Spec.round_up v.
Proof.
  unfold Spec.round_up.
  pose proof (aligned_bounds v) as Hb. pose proof (aligned_mod v) as Hm.
  apply Z.mod_divide in Hm; [|lia]. destruct Hm as [q Hq].
  pose proof (Z.div_mod (v + 7) 8 ltac:(lia)) as Hdm.
  pose proof (Z.mod_pos_bound (v + 7) 8 ltac:(lia)) as Hr.
  lia.
Qed.

(** ** The monad *)

Lemma map_result_length {A B : Type} (f : A -> result B) (l : list A) (bs : list B) :
  map_result f l = Ok bs -> List.length bs = List.length l.
Proof.
  revert bs. induction l as [|a l IH]; simpl; intros bs Hm.
  - now inversion Hm.
  - destruct (f a) as [b|e]; simpl in Hm; [|discriminate].
    destruct (map_result f l) as [bs'|e]; simpl in Hm; [|discriminate].
    inversion Hm; subst. simpl. now rewrite (IH bs').
Qed.

Lemma map_result_nth {A B : Type} (f : A -> result B) (l : list A) (bs : list B)
    (i : nat) (a : A) :
  map_result f l = Ok bs -> nth_error l i = Some a ->
  exists b, f a = Ok b /\ nth_error bs i = Some b.
Proof.
  revert bs i. induction l as [|x l IH]; simpl; intros bs i Hm Hn.
  - destruct i; discriminate.
  - destruct (f x) as [b|e] eqn:Hfx; simpl in Hm; [|discriminate].
    destruct (map_result f l) as [bs'|e]; simpl in Hm; [|discriminate].
    inversion Hm; subst. destruct i as [|i]; simpl in *.
    + inversion Hn; subst. now exists b.
    + now apply IH.
Qed.

Lemma map_result_app {A B : Type} (f : A -> result B) (l1 l2 : list A) :
  map_result f (l1 ++ l2) =
  (b1 <- map_result f l1 ;; b2 <- map_result f l2 ;; Ok (b1 ++ b2)).
Proof.
  induction l1 as [|a l1 IH]; simpl.
  - now destruct (map_result f l2).
  - destruct (f a) as [b|e]; simpl; [|reflexivity].
    rewrite IH. destruct (map_result f l1); simpl; [|reflexivity].
    now destruct (map_result f l2).
Qed.

(** ** [sorted] *)

Section SortingFacts.

Variable A : Type.
Variable lt : A -> A -> bool.

Hypothesis lt_asym : forall a b, lt a b = true -> lt b a = false.
Hypothesis lt_cotrans :
  forall a b c, lt a c = true -> lt a b = true \/ lt b c = true.

Lemma insert_perm (x : A) (l : list A) : Permutation (insert lt x l) (x :: l).
Proof.
  induction l as [|y l IH]; simpl.
  - apply Permutation_refl.
  - destruct (lt y x).
    + eapply perm_trans; [apply perm_skip, IH | apply perm_swap].
    + apply Permutation_refl.
Qed.

Lemma sorted_perm (l : list A) : Permutation (sorted lt l) l.
Proof.
  induction l as [|x l IH]; simpl.
  - apply perm_nil.
  - eapply perm_trans; [apply insert_perm | apply perm_skip, IH].
Qed.

(** [insert] puts [x] after the elements smaller than it. *)
Lemma insert_split (x : A) (l : list A) :
  exists p q, l = p ++ q /\ insert lt x l = p ++ x :: q.
Proof.
  induction l as [|y l (p & q & Hl & Hi)]; simpl.
  - now exists [], [].
  - destruct (lt y x).
    + exists (y :: p), q. simpl. now rewrite Hl at 1; rewrite Hi.
    + now exists [], (y :: l).
Qed.

Lemma insert_hd (x y : A) (l : list A) :
  HdRel (not_after lt) y l -> (not_after lt) y x -> HdRel (not_after lt) y (insert lt x l).
Proof.
  intros Hhd Hyx. destruct l as [|z l]; simpl.
  - now constructor.
  - destruct (lt z x); constructor; trivial. now inversion Hhd.
Qed.

Lemma insert_sorted (x : A) (l : list A) :
  Sorted (not_after lt) l -> Sorted (not_after lt) (insert lt x l).
Proof.
  induction 1 as [|y l Hs IH Hhd]; simpl.
  - repeat constructor.
  - destruct (lt y x) eqn:Hyx.
    + constructor; [exact IH|]. apply insert_hd; [exact Hhd|].
      now apply lt_asym.
    + repeat constructor; trivial.
Qed.

Lemma sorted_sorted (l : list A) : Sorted (not_after lt) (sorted lt l).
Proof.
  induction l as [|x l IH]; simpl; [constructor | now apply insert_sorted].
Qed.

(** Inserting into a sorted list passes an element [z] of the list or
    stops before it, whether or not [z] is there. *)
Lemma insert_around (x z : A) (p q : list A) :
  Sorted (not_after lt) (p ++ z :: q) ->
  exists p' q',
    insert lt x (p ++ z :: q) = p' ++ z :: q' /\
    insert lt x (p ++ q) = p' ++ q'.
Proof.
  induction p as [|a p IH]; simpl; intros Hs.
  - destruct (lt z x) eqn:Hzx.
    + now exists [], (insert lt x q).
    + exists [x], q. split; [reflexivity|].
      destruct q as [|y q]; simpl; [reflexivity|].
      destruct (lt y x) eqn:Hyx; [|reflexivity].
      exfalso. inversion Hs as [|? ? _ Hhd]; subst.
      inversion Hhd as [|? ? Hzy]; subst. unfold not_after in Hzy.
      destruct (lt_cotrans y z x Hyx) as [Hc|Hc]; congruence.
  - destruct (lt a x).
    + inversion Hs as [|? ? Hs' _]; subst.
      destruct (IH Hs') as (p' & q' & H1 & H2).
      exists (a :: p'), q'. simpl. now rewrite H1, H2.
    + now exists (x :: a :: p), q.
Qed.

(** Sorting with and without one element: the others keep their places. *)
Lemma sorted_remove (l1 l2 : list A) (z : A) :
  exists p q,
    sorted lt (l1 ++ z :: l2) = p ++ z :: q /\
    sorted lt (l1 ++ l2) = p ++ q.
Proof.
  induction l1 as [|x l1 (p & q & H1 & H2)]; simpl.
  - destruct (insert_split z (sorted lt l2)) as (p & q & Hl & Hi).
    exists p, q. now rewrite Hi, Hl.
  - fold (sorted lt (l1 ++ z :: l2)). fold (sorted lt (l1 ++ l2)).
    rewrite H1, H2. apply insert_around. rewrite <- H1. apply sorted_sorted.
Qed.

(** Stability, for a class [P] of elements none of which is smaller than
    another. *)
Lemma insert_filter (P : A -> bool) (x : A) (l : list A) :
  (forall y, lt y x = true -> P x = true -> P y = false) ->
  filter P (insert lt x l) = filter P (x :: l).
Proof.
  intros HP. induction l as [|y l IH]; simpl; [reflexivity|].
  destruct (lt y x) eqn:Hyx; simpl; [|reflexivity].
  rewrite IH. simpl. destruct (P x) eqn:HPx; [|reflexivity].
  now rewrite (HP y Hyx eq_refl).
Qed.

Lemma sorted_filter (P : A -> bool) (l : list A) :
  (forall x y, lt y x = true -> P x = true -> P y = false) ->
  filter P (sorted lt l) = filter P l.
Proof.
  intros HP. induction l as [|x l IH]; simpl; [reflexivity|].
  rewrite insert_filter by apply HP. simpl. now rewrite IH.
Qed.

End SortingFacts.

(** ** The order of index lines *)

Lemma ascii_compare_cotrans (a b c : ascii) :
  Ascii.compare a c = Lt -> Ascii.compare a b = Lt \/ Ascii.compare b c = Lt.
Proof.
  unfold Ascii.compare. rewrite !N.compare_lt_iff. intros Hac.
  destruct (N.lt_ge_cases (N_of_ascii a) (N_of_ascii b)); [now left|right; lia].
Qed.

Lemma string_compare_cotrans (a b c : string) :
  String.compare a c = Lt -> String.compare a b = Lt \/ String.compare b c = Lt.
Proof.
  revert b c. induction a as [|x a IH]; intros [|y b] [|z c]; simpl;
    try discriminate; auto.
  destruct (Ascii.compare x z) eqn:Hxz; try discriminate; intros Hac.
  - apply Ascii.compare_eq_iff in Hxz. subst z.
    rewrite (Ascii.compare_antisym y x).
    destruct (Ascii.compare x y); simpl; auto.
  - destruct (ascii_compare_cotrans x y z Hxz) as [Hc|Hc]; rewrite Hc; auto.
Qed.

Lemma string_ltb_irrefl (a : string) : String.ltb a a = false.
Proof.
  unfold String.ltb. pose proof (String.compare_antisym a a) as Hc.
  destruct (String.compare a a); simpl in Hc; congruence.
Qed.

Lemma IioChannel_lt_asym (a b : IioChannel) :
  IioChannel_lt a b = true -> IioChannel_lt b a = false.
Proof.
  unfold IioChannel_lt, String.ltb.
  rewrite (String.compare_antisym (index b) (index a)).
  now destruct (String.compare (index a) (index b)).
Qed.

Lemma IioChannel_lt_cotrans (a b c : IioChannel) :
  IioChannel_lt a c = true -> IioChannel_lt a b = true \/ IioChannel_lt b c = true.
Proof.
  unfold IioChannel_lt, String.ltb. intros Hac.
  destruct (String.compare (index a) (index c)) eqn:Hc; try discriminate.
  destruct (string_compare_cotrans _ (index b) _ Hc) as [H1|H1]; rewrite H1; auto.
Qed.

Lemma IioChannel_lt_index (k : string) (x y : IioChannel) :
  IioChannel_lt y x = true -> has_index k x = true -> has_index k y = false.
Proof.
  unfold IioChannel_lt, has_index. intros Hlt Hx.
  apply String.eqb_eq in Hx. apply String.eqb_neq. intros Hy.
  rewrite Hx, Hy, string_ltb_irrefl in Hlt. discriminate.
Qed.

Lemma sorted_channels_remove (l1 l2 : list IioChannel) (z : IioChannel) :
  exists p q,
    sorted IioChannel_lt (l1 ++ z :: l2) = p ++ z :: q /\
    sorted IioChannel_lt (l1 ++ l2) = p ++ q.
Proof.
  apply sorted_remove; [exact IioChannel_lt_asym | exact IioChannel_lt_cotrans].
Qed.

Lemma IioChannel_not_after_trans (a b c : IioChannel) :
  not_after IioChannel_lt a b -> not_after IioChannel_lt b c ->
  not_after IioChannel_lt a c.
Proof.
  unfold not_after. intros Hab Hbc.
  destruct (IioChannel_lt c a) eqn:Hca; [|reflexivity].
  destruct (IioChannel_lt_cotrans c b a Hca); congruence.
Qed.

Lemma IioChannel_lt_total (a b : IioChannel) :
  index a <> index b -> IioChannel_lt a b = true \/ IioChannel_lt b a = true.
Proof.
  unfold IioChannel_lt, String.ltb. intros Hne.
  rewrite (String.compare_antisym (index b) (index a)).
  destruct (String.compare (index a) (index b)) eqn:Hc; simpl; auto.
  now apply String.compare_eq_iff in Hc.
Qed.

Lemma has_index_self (chan : IioChannel) : has_index (index chan) chan = true.
Proof. apply String.eqb_refl. Qed.

Lemma filter_index_in (chan : IioChannel) (l l' : list IioChannel) :
  (forall k, filter (has_index k) l = filter (has_index k) l') ->
  In chan l -> In chan l'.
Proof.
  intros Hf Hin.
  assert (Hin' : In chan (filter (has_index (index chan)) l)).
  { apply filter_In. split; [exact Hin | apply has_index_self]. }
  rewrite Hf in Hin'. now apply filter_In in Hin'.
Qed.

(** The head of a sorted list comes before every channel of the list that
    has another index. *)
Lemma sorted_head_first (x y : IioChannel) (l : list IioChannel) :
  Sorted (not_after IioChannel_lt) (x :: l) -> In y (x :: l) ->
  IioChannel_lt y x = false.
Proof.
  intros Hs [Heq|Hin].
  - subst. unfold IioChannel_lt. apply string_ltb_irrefl.
  - apply Sorted_StronglySorted in Hs.
    + apply StronglySorted_inv in Hs. destruct Hs as [_ Hall].
      rewrite Forall_forall in Hall. exact (Hall y Hin).
    + intros a b c. apply IioChannel_not_after_trans.
Qed.

(** Two sorted lists that hold, for every index, the same channels in the
    same order are equal. *)
Lemma sorted_stable_unique (l l' : list IioChannel) :
  Sorted (not_after IioChannel_lt) l ->
  Sorted (not_after IioChannel_lt) l' ->
  (forall k, filter (has_index k) l = filter (has_index k) l') ->
  l = l'.
Proof.
  revert l'. induction l as [|x l IH]; intros l' Hs Hs' Hf.
  - destruct l' as [|y l']; [reflexivity|].
    specialize (Hf (index y)). simpl in Hf. rewrite has_index_self in Hf.
    discriminate.
  - destruct l' as [|y l'].
    + specialize (Hf (index x)). simpl in Hf. rewrite has_index_self in Hf.
      discriminate.
    + assert (Hxy : index x = index y).
      { destruct (string_dec (index x) (index y)) as [Heq|Hne]; [exact Heq|].
        exfalso.
        assert (Hx : In x (y :: l')).
        { apply (filter_index_in x (x :: l) (y :: l') Hf). now left. }
        assert (Hy : In y (x :: l)).
        { apply (filter_index_in y (y :: l') (x :: l)); [|now left].
          intros k. symmetry. apply Hf. }
        pose proof (sorted_head_first y x l' Hs' Hx) as H1.
        pose proof (sorted_head_first x y l Hs Hy) as H2.
        destruct (IioChannel_lt_total x y Hne); congruence. }
      assert (Heq : x = y).
      { specialize (Hf (index x)). simpl in Hf.
        rewrite has_index_self in Hf. unfold has_index at 2 in Hf.
        rewrite <- Hxy, String.eqb_refl in Hf. now inversion Hf. }
      subst y. f_equal. apply IH.
      * now inversion Hs.
      * now inversion Hs'.
      * intros k. specialize (Hf k). simpl in Hf.
        destruct (has_index k x); [now inversion Hf | exact Hf].
Qed.

(** Whatever the algorithm, the result of a stable sort of the channels is
    the list [sorted] computes. *)
Lemma sorted_channels_unique (chans l : list IioChannel) :
  Sorted (not_after IioChannel_lt) l ->
  (forall k, filter (has_index k) l = filter (has_index k) chans) ->
  l = sorted IioChannel_lt chans.
Proof.
  intros Hs Hf. apply sorted_stable_unique; [exact Hs| |].
  - apply sorted_sorted. exact IioChannel_lt_asym.
  - intros k. rewrite Hf. symmetry. apply sorted_filter.
    intros x y. apply IioChannel_lt_index.
Qed.

(** ** The loop of [decorate] and the layout *)

Lemma cursor_after_app (c : Z) (l1 l2 : list IioChannel) :
  cursor_after c (l1 ++ l2) = cursor_after (cursor_after c l1) l2.
Proof. apply fold_left_app. Qed.

Lemma layout_from_app (c : Z) (l1 l2 : list IioChannel) :
  layout_from c (l1 ++ l2) = layout_from c l1 ++ layout_from (cursor_after c l1) l2.
Proof.
  revert c. induction l1 as [|x l1 IH]; intros c; simpl; [reflexivity|].
  now rewrite IH.
Qed.

Lemma layout_from_channels (c : Z) (l : list IioChannel) :
  map (fun e => fst (fst e)) (layout_from c l) = l.
Proof.
  revert c. induction l as [|x l IH]; intros c; simpl; [reflexivity|].
  now rewrite IH.
Qed.

Lemma layout_from_length (c : Z) (l : list IioChannel) :
  List.length (layout_from c l) = List.length l.
Proof. now rewrite <- (layout_from_channels c l) at 2; rewrite length_map. Qed.

(** The entry at position [i] is computed from the cursor the channels
    before it leave. *)
Lemma layout_from_nth (c : Z) (l : list IioChannel) (i : nat)
    (chan : IioChannel) (first last : Z) :
  nth_error (layout_from c l) i = Some (chan, first, last) ->
  nth_error l i = Some chan /\
  first = start_of chan (cursor_after c (firstn i l)) /\
  last = end_of chan (cursor_after c (firstn i l)).
Proof.
  revert c i. induction l as [|x l IH]; intros c i Hn.
  - destruct i; discriminate.
  - destruct i as [|i]; simpl in *.
    + inversion Hn; subst. auto.
    + now apply IH.
Qed.

Section DecoderFacts.

Context `{FloatOfStr}.

Lemma decorate_body_layout (data : list byte) (st : locals) (chan : IioChannel) :
  byte_start st = byte_end st ->
  decorate_body data st chan =
  (val <- decode_field data
            (chan, start_of chan (byte_end st), end_of chan (byte_end st)) ;;
   Ok {| ret := ret st ++ [val];
         byte_start := end_of chan (byte_end st);
         byte_end := end_of chan (byte_end st) |}).
Proof.
  intros Hst. unfold decorate_body, decode_field, end_of, start_of.
  rewrite Hst, align_aligned.
  destruct (String.eqb (name chan) "timestamp"); simpl;
    (destruct (typ_len chan =? 0); simpl; [reflexivity|]);
    (destruct (Struct.unpack _ _) as [unpacked|e]; simpl; [|reflexivity]);
    (destruct (Py.getitem unpacked 0) as [rawval|e]; simpl; [|reflexivity]);
    (destruct (py_float (offset chan)) as [off|e]; simpl; [|reflexivity]);
    (destruct (py_float (scale chan)) as [sc|e]; simpl; reflexivity).
Qed.

Lemma for_each_layout (data : list byte) (chans : list IioChannel) (st : locals) :
  byte_start st = byte_end st ->
  for_each data st chans =
  (vals <- map_result (decode_field data) (layout_from (byte_end st) chans) ;;
   Ok {| ret := ret st ++ vals;
         byte_start := cursor_after (byte_end st) chans;
         byte_end := cursor_after (byte_end st) chans |}).
Proof.
  revert st. induction chans as [|chan chans IH]; intros st Hst.
  - destruct st as [r s e]. simpl in *. subst. now rewrite app_nil_r.
  - cbn [for_each layout_from map_result cursor_after fold_left].
    rewrite decorate_body_layout by exact Hst.
    destruct (decode_field data _) as [val|e]; simpl; [|reflexivity].
    rewrite IH by reflexivity. simpl.
    destruct (map_result _ _) as [vals|e]; simpl; [|reflexivity].
    now rewrite <- app_assoc.
Qed.

(** [decorate] decodes the entries of the layout, one after the other. *)
Lemma decorate_layout (self : IioInfo) (data : list byte) :
  decorate self data = map_result (decode_field data) (layout self).
Proof.
  unfold decorate, layout. rewrite for_each_layout by reflexivity. simpl.
  now destruct (map_result _ _).
Qed.

Lemma decode_field_name (data : list byte) (entry : IioChannel * Z * Z)
    (val : string * pyval) :
  decode_field data entry = Ok val -> fst val = name (fst (fst entry)).
Proof.
  destruct entry as [[chan first] last]. unfold decode_field. simpl.
  destruct (typ_len chan =? 0); [intros Hv; now inversion Hv|].
  destruct (Struct.unpack _ _) as [unpacked|e]; simpl; [|discriminate].
  destruct (Py.getitem unpacked 0) as [rawval|e]; simpl; [|discriminate].
  destruct (py_float (offset chan)) as [off|e]; simpl; [|discriminate].
  destruct (py_float (scale chan)) as [sc|e]; simpl; [|discriminate].
  intros Hv; now inversion Hv.
Qed.

Lemma map_result_names (data : list byte) (lay : list (IioChannel * Z * Z))
    (vals : list (string * pyval)) :
  map_result (decode_field data) lay = Ok vals ->
  map fst vals = map (fun e => name (fst (fst e))) lay.
Proof.
  revert vals. induction lay as [|e lay IH]; simpl; intros vals Hm.
  - now inversion Hm.
  - destruct (decode_field data e) as [v|x] eqn:He; simpl in Hm; [|discriminate].
    destruct (map_result _ lay) as [vs|x]; simpl in Hm; [|discriminate].
    inversion Hm; subst. simpl.
    now rewrite (decode_field_name _ _ _ He), (IH vs eq_refl).
Qed.

(** One value for every channel, under its name, in the order of
    [sorted(self.channel)]. *)
Lemma decorate_names (self : IioInfo) (data : list byte)
    (vals : list (string * pyval)) :
  decorate self data = Ok vals ->
  map fst vals = map name (sorted IioChannel_lt (channel self)).
Proof.
  rewrite decorate_layout. intros Hm. rewrite (map_result_names _ _ _ Hm).
  unfold layout.
  rewrite <- (layout_from_channels 0 (sorted IioChannel_lt (channel self))) at 2.
  now rewrite map_map.
Qed.

End DecoderFacts.

(** ** [type_to_unpack] *)

Lemma dict_get_cases {V : Type} (d : list (string * V)) (key : string) (default : V) :
  In (key, Py.dict_get d key default) d \/
  (~ In key (map fst d) /\ Py.dict_get d key default = default).
Proof.
  induction d as [|[k v] d IH]; simpl.
  - right. tauto.
  - destruct (String.eqb_spec k key) as [Hk|Hk].
    + subst. left. now left.
    + destruct IH as [IH|[IH1 IH2]]; [left; now right|].
      right. split; [|exact IH2]. intros [Heq|Hin]; [exact (Hk Heq)|exact (IH1 Hin)].
Qed.

(** What [type_to_unpack] returns on a string: a byte order mark followed
    by the character of the entry of [inttypes] for the token, and the
    length of that entry; ["x"] and [0] when the token has no entry. *)
Lemma type_to_unpack_cases (typ : string) :
  exists order char leng,
    type_to_unpack (Some typ) = Ok ((order ++ char)%string, leng) /\
    In order ["<"; ">"] /\
    (In (valtyp_of typ, (char, leng)) inttypes \/
     (~ In (valtyp_of typ) vocabulary /\ char = "x" /\ leng = 0)).
Proof.
  unfold type_to_unpack.
  exists (if String.eqb (Py.substr typ 0 2) "be" then ">" else "<").
  pose proof (dict_get_cases inttypes (valtyp_of typ) ("x", 0)) as Hd.
  destruct (Py.dict_get inttypes (valtyp_of typ) ("x", 0)) as [char leng].
  exists char, leng. split; [reflexivity|]. split.
  - destruct (String.eqb _ _); simpl; auto.
  - destruct Hd as [Hd|[Hd1 Hd2]]; [left; exact Hd|right].
    inversion Hd2; subst. auto.
Qed.

Lemma inttypes_lengths (token char : string) (leng : Z) :
  In (token, (char, leng)) inttypes -> In leng [0; 1; 2; 4; 8].
Proof.
  unfold inttypes. simpl. intros Hin.
  repeat (destruct Hin as [Hin|Hin]; [inversion Hin; subst; tauto|]).
  contradiction.
Qed.

(** C6.  On every string [type_to_unpack] returns a format and a length
    without raising; the length is 0, 1, 2, 4 or 8; and when the token
    between [":"] and ["/"] is none of [0, s8, u8, s16, u16, s32, u32, s64,
    u64], malformed strings included, the result is the pad format with
    length 0. *)
Theorem type_to_unpack_total (typ : string) :
  exists fmt leng,
    type_to_unpack (Some typ) = Ok (fmt, leng) /\
    In leng [0; 1; 2; 4; 8] /\
    (~ In (valtyp_of typ) vocabulary -> In fmt ["<x"; ">x"] /\ leng = 0).
Proof.
  destruct (type_to_unpack_cases typ) as (order & char & leng & Ht & Ho & Hc).
  exists (order ++ char)%string, leng. split; [exact Ht|]. split.
  - destruct Hc as [Hc|(_ & _ & Hc)]; [now apply inttypes_lengths in Hc|].
    subst. simpl. auto.
  - intros Hout. destruct Hc as [Hc|(_ & Hc & Hl)].
    + exfalso. apply Hout. unfold vocabulary.
      now apply (in_map fst) in Hc.
    + subst. split; [|reflexivity].
      simpl in Ho. destruct Ho as [Ho|[Ho|[]]]; subst; simpl; auto.
Qed.

(** A type of twelve bits is outside the vocabulary. *)
Lemma type_to_unpack_total_witness :
  exists fmt leng,
    type_to_unpack (Some "le:s12/16>>4") = Ok (fmt, leng) /\
    In fmt ["<x"; ">x"] /\ leng = 0.
Proof.
  destruct (type_to_unpack_total "le:s12/16>>4") as (fmt & leng & Ht & _ & Hz).
  exists fmt, leng. split; [exact Ht|]. apply Hz.
  unfold vocabulary. simpl. intuition discriminate.
Defined.

(** A channel whose type token is not recognised has length zero. *)
Lemma built_unrecognised (chan : IioChannel) (t : string) :
  typ chan = Some t -> built chan -> ~ In (valtyp_of t) vocabulary ->
  typ_len chan = 0.
Proof.
  unfold built. intros Ht Hb Hout. rewrite Ht in Hb.
  destruct (type_to_unpack_cases t) as (order & char & leng & Hu & _ & Hc).
  rewrite Hu in Hb. inversion Hb as [[Hstr Hl]].
  destruct Hc as [Hc|(_ & _ & Hc)]; [|congruence].
  exfalso. apply Hout. unfold vocabulary. now apply (in_map fst) in Hc.
Qed.

Example type_to_unpack_le_s16 :
  type_to_unpack (Some "le:s16/16>>0") = Ok ("<h", 2).
Proof. reflexivity. Qed.

Example type_to_unpack_be_u32 :
  type_to_unpack (Some "be:u32/32>>0") = Ok (">I", 4).
Proof. reflexivity. Qed.

Example type_to_unpack_no_slash :
  type_to_unpack (Some "le:s16") = Ok ("<x", 0).
Proof. reflexivity. Qed.

Example type_to_unpack_none : type_to_unpack None = Raise TypeError.
Proof. reflexivity. Qed.

(** ** Decoding one channel *)

(** C5.  A device with one channel of format ["<h"] (a signed 16-bit
    little-endian integer, the format of the type [le:s16]), offset 0 and
    scale 1: the bytes [0xFF 0xFF] decode to [-1.0], alone or followed by
    the padding of an 8-byte chunk. *)
Theorem decode_s16_minus_one (F : FloatOfStr) (self : IioInfo) (chan : IioChannel) :
  channel self = [chan] ->
  typ_str chan = "<h" ->
  typ_len chan = 2 ->
  py_float (offset chan) = Ok 0%float ->
  py_float (scale chan) = Ok 1%float ->
  type_to_unpack (Some (Decimal.line "le:s16/16>>0")) = Ok ("<h", 2) /\
  Struct.unpack "<h" [xff; xff] = Ok [-1] /\
  decorate self [xff; xff] = Ok [(name chan, PyFloat (-1))] /\
  decorate self [xff; xff; x00; x00; x00; x00; x00; x00]
  = Ok [(name chan, PyFloat (-1))].
Proof.
  intros Hch Hfmt Hlen Hoff Hsc.
  split; [reflexivity|]. split; [reflexivity|].
  unfold decorate. rewrite Hch. cbn [sorted fold_right insert for_each].
  unfold decorate_body. rewrite Hfmt, Hlen, Hoff, Hsc.
  split; destruct (String.eqb (name chan) "timestamp"); vm_compute; reflexivity.
Qed.

(** The channel [accel_x] with no offset or scale file. *)
Lemma decode_s16_minus_one_witness :
  type_to_unpack (Some (Decimal.line "le:s16/16>>0")) = Ok ("<h", 2) /\
  Struct.unpack "<h" [xff; xff] = Ok [-1] /\
  decorate one_s16 [xff; xff] = Ok [(name accel_x, PyFloat (-1))] /\
  decorate one_s16 [xff; xff; x00; x00; x00; x00; x00; x00]
  = Ok [(name accel_x, PyFloat (-1))].
Proof.
  apply (decode_s16_minus_one decimal_float one_s16 accel_x).
  - reflexivity.
  - reflexivity.
  - reflexivity.
  - vm_compute. reflexivity.
  - vm_compute. reflexivity.
Defined.

Example decode_s16_sysfs_calibration :
  decorate
    (device [scan_element "accel_x" "0" "le:s16/16>>0" (Some "0") (Some "1")])
    [xff; xff]
  = Ok [("accel_x", PyFloat (-1))].
Proof. vm_compute. reflexivity. Qed.

Section ValueFacts.

Context `{FloatOfStr}.

(** The value of a channel of non-zero length, given its entry of the
    layout. *)
Lemma decode_field_value (data : list byte) (chan : IioChannel) (first last : Z)
    (val : string * pyval) :
  typ_len chan <> 0 ->
  decode_field data (chan, first, last) = Ok val ->
  exists unpacked rawval off sc,
    Struct.unpack (typ_str chan) (Py.slice data first last) = Ok unpacked /\
    Py.getitem unpacked 0 = Ok rawval /\
    py_float (offset chan) = Ok off /\
    py_float (scale chan) = Ok sc /\
    val = (name chan, PyFloat ((float_of_Z rawval + off) * sc)%float).
Proof.
  intros Hlen. unfold decode_field.
  destruct (Z.eqb_spec (typ_len chan) 0) as [Hz|_]; [contradiction|].
  destruct (Struct.unpack _ _) as [unpacked|e] eqn:Hu; simpl; [|discriminate].
  destruct (Py.getitem unpacked 0) as [rawval|e] eqn:Hg; simpl; [|discriminate].
  destruct (py_float (offset chan)) as [off|e] eqn:Ho; simpl; [|discriminate].
  destruct (py_float (scale chan)) as [sc|e] eqn:Hs; simpl; [|discriminate].
  intros Hv. inversion Hv; subst.
  exists unpacked, rawval, off, sc. repeat split; assumption.
Qed.

(** The value at position [i] of the result is the one decoded from the
    entry at position [i] of the layout. *)
Lemma decorate_nth (self : IioInfo) (data : list byte)
    (vals : list (string * pyval)) (i : nat) (entry : IioChannel * Z * Z) :
  decorate self data = Ok vals ->
  nth_error (layout self) i = Some entry ->
  exists val, decode_field data entry = Ok val /\ nth_error vals i = Some val.
Proof.
  rewrite decorate_layout. apply map_result_nth.
Qed.

End ValueFacts.

(** C4.  The value of a channel of non-zero length is
    [(rawval + float(offset)) * float(scale)] in double precision, [rawval]
    being the integer unpacked from the bytes of the channel's span; a raw
    value of 5 with offset 10 and scale 2 gives [30.0]. *)
Theorem decoded_value_formula :
  (forall (F : FloatOfStr) (self : IioInfo) (data : list byte)
          (vals : list (string * pyval)) (i : nat)
          (chan : IioChannel) (first last : Z),
      decorate self data = Ok vals ->
      nth_error (layout self) i = Some (chan, first, last) ->
      typ_len chan <> 0 ->
      exists unpacked rawval off sc,
        Struct.unpack (typ_str chan) (Py.slice data first last) = Ok unpacked /\
        Py.getitem unpacked 0 = Ok rawval /\
        py_float (offset chan) = Ok off /\
        py_float (scale chan) = Ok sc /\
        nth_error vals i
        = Some (name chan, PyFloat ((float_of_Z rawval + off) * sc)%float)) /\
  decorate one_s16_calibrated [x05; x00] = Ok [("accel_x", PyFloat 30)].
Proof.
  split; [|vm_compute; reflexivity].
  intros F self data vals i chan first last Hd Hn Hlen.
  destruct (decorate_nth self data vals i _ Hd Hn) as (val & Hv & Hi).
  destruct (decode_field_value data chan first last val Hlen Hv)
    as (unpacked & rawval & off & sc & Hu & Hg & Ho & Hs & Heq).
  exists unpacked, rawval, off, sc. subst val. repeat split; assumption.
Qed.

(** The channel with offset 10 and scale 2 on the bytes of the integer 5. *)
Lemma decoded_value_formula_witness :
  exists unpacked rawval off sc,
    Struct.unpack "<h" (Py.slice [x05; x00] 0 2) = Ok unpacked /\
    Py.getitem unpacked 0 = Ok rawval /\
    py_float (PyStr (Decimal.line "10")) = Ok off /\
    py_float (PyStr (Decimal.line "2")) = Ok sc /\
    nth_error [("accel_x", PyFloat 30)] 0
    = Some ("accel_x", PyFloat ((float_of_Z rawval + off) * sc)%float).
Proof.
  apply (proj1 decoded_value_formula decimal_float one_s16_calibrated
           [x05; x00] [("accel_x", PyFloat 30)] 0%nat
           (scan_element "accel_x" "0" "le:s16/16>>0" (Some "10") (Some "2"))
           0 2).
  - vm_compute. reflexivity.
  - vm_compute. reflexivity.
  - vm_compute. discriminate.
Defined.

(** ** The timestamp *)

(** C3.  A channel named [timestamp] of non-zero length is read from the
    cursor rounded up to the next multiple of 8: its first byte is at a
    multiple of 8, less than 8 bytes after the end of the channel before it,
    and the iteration of [decorate] for it slices the record there and
    leaves the cursor at the end of that slice.  For [accel_x] (2 bytes,
    index 0) and [timestamp] (8 bytes, index 1) the spans are [0, 2) and
    [8, 16) and the chunk size is 16: on a 16-byte record [decorate] returns
    the timestamp held by the bytes 8 to 15, whatever the bytes 2 to 7 are,
    and it raises [struct.error] on the 10 bytes of the two fields without
    the gap. *)
Theorem timestamp_aligned :
  (forall (self : IioInfo) (i : nat) (chan : IioChannel) (first last : Z),
      nth_error (layout self) i = Some (chan, first, last) ->
      name chan = "timestamp" ->
      typ_len chan <> 0 ->
      exists cursor,
        cursor = cursor_after 0 (firstn i (sorted IioChannel_lt (channel self))) /\
        align cursor TIMESTAMP_ALIGNMENT = Ok first /\
        first mod 8 = 0 /\
        cursor <= first < cursor + 8 /\
        last = first + typ_len chan /\
        (forall (F : FloatOfStr) (data : list byte) (st : locals),
            byte_start st = cursor ->
            decorate_body data st chan =
            (unpacked <- Struct.unpack (typ_str chan) (Py.slice data first last) ;;
             rawval <- Py.getitem unpacked 0 ;;
             off <- py_float (offset chan) ;;
             sc <- py_float (scale chan) ;;
             Ok {| ret := ret st
                          ++ [(name chan,
                               PyFloat ((float_of_Z rawval + off) * sc)%float)];
                   byte_start := last;
                   byte_end := last |})) /\
        (forall (F : FloatOfStr) (data : list byte),
            decorate self data = map_result (decode_field data) (layout self)) /\
        forall (F : FloatOfStr) (data : list byte) (vals : list (string * pyval)),
          decorate self data = Ok vals ->
          exists val,
            decode_field data (chan, first, last) = Ok val /\
            nth_error vals i = Some val) /\
  layout accel_and_timestamp = [(accel_x, 0, 2); (timestamp, 8, 16)] /\
  get_chunk_size accel_and_timestamp = Ok 16 /\
  (forall (F : FloatOfStr) (g2 g3 g4 g5 g6 g7 : byte),
      decorate accel_and_timestamp
        [x05; x00; g2; g3; g4; g5; g6; g7; x01; x00; x00; x00; x00; x00; x00; x00]
      = Ok [("accel_x", PyFloat 5); ("timestamp", PyFloat 1)]) /\
  (forall F : FloatOfStr,
      decorate accel_and_timestamp
        [x05; x00; x01; x00; x00; x00; x00; x00; x00; x00]
      = Raise StructError).
Proof.
  split; [|split; [reflexivity|split; [reflexivity|split]]].
  - intros self i chan first last Hn Hname Hlen.
    destruct (layout_from_nth _ _ _ _ _ _ Hn) as (_ & Hfirst & Hlast).
    unfold end_of in Hlast. unfold start_of in Hfirst, Hlast.
    rewrite Hname in Hfirst, Hlast. simpl in Hfirst, Hlast.
    destruct (Z.eqb_spec (typ_len chan) 0) as [Hz|Hnz]; [contradiction|].
    eexists. split; [reflexivity|]. rewrite align_aligned, <- Hfirst.
    split; [reflexivity|]. split; [subst first; apply aligned_mod|].
    split; [subst first; apply aligned_bounds|]. split; [now subst|].
    split; [|split].
    + intros F data st Hst. unfold decorate_body.
      rewrite Hname, Hst, align_aligned, <- Hfirst.
      change (String.eqb "timestamp" "timestamp") with true. cbv iota.
      cbn [bind]. destruct (Z.eqb_spec (typ_len chan) 0) as [Hz|_];
        [contradiction|].
      rewrite <- Hfirst in Hlast. rewrite <- Hlast.
      destruct (Struct.unpack _ _) as [unpacked|e]; cbn [bind]; [|reflexivity].
      destruct (Py.getitem unpacked 0) as [rawval|e]; cbn [bind]; [|reflexivity].
      destruct (py_float (offset chan)) as [off|e]; cbn [bind]; [|reflexivity].
      destruct (py_float (scale chan)) as [sc|e]; cbn [bind]; reflexivity.
    + intros F data. apply decorate_layout.
    + intros F data vals Hd. exact (decorate_nth self data vals i _ Hd Hn).
  - intros F g2 g3 g4 g5 g6 g7. vm_compute. reflexivity.
  - intros F. vm_compute. reflexivity.
Qed.

(** The timestamp after one 16-bit channel, on a record whose gap holds
    the bytes [ff]. *)
Lemma timestamp_aligned_witness :
  exists cursor,
    cursor = cursor_after 0 (firstn 1 (sorted IioChannel_lt [accel_x; timestamp])) /\
    align cursor TIMESTAMP_ALIGNMENT = Ok 8 /\
    8 mod 8 = 0 /\
    cursor <= 8 < cursor + 8 /\
    16 = 8 + typ_len timestamp /\
    @decorate decimal_float accel_and_timestamp
      [x05; x00; xff; xff; xff; xff; xff; xff; x01; x00; x00; x00; x00; x00; x00; x00]
    = Ok [("accel_x", PyFloat 5); ("timestamp", PyFloat 1)] /\
    exists val,
      @decode_field decimal_float
        [x05; x00; xff; xff; xff; xff; xff; xff; x01; x00; x00; x00; x00; x00; x00; x00]
        (timestamp, 8, 16) = Ok val /\
      nth_error [("accel_x", PyFloat 5); ("timestamp", PyFloat 1)] 1 = Some val.
Proof.
  destruct (proj1 timestamp_aligned accel_and_timestamp 1%nat timestamp 8 16)
    as (cursor & Hc & Ha & Hm & Hb & Hl & _ & _ & Hd).
  - reflexivity.
  - reflexivity.
  - vm_compute. discriminate.
  - exists cursor. repeat (split; [assumption|]).
    assert (Hrun : @decorate decimal_float accel_and_timestamp
              [x05; x00; xff; xff; xff; xff; xff; xff;
               x01; x00; x00; x00; x00; x00; x00; x00]
            = Ok [("accel_x", PyFloat 5); ("timestamp", PyFloat 1)])
      by (vm_compute; reflexivity).
    split; [exact Hrun|]. exact (Hd decimal_float _ _ Hrun).
Defined.

(** ** The order of the channels *)

(** Filtering a list zipped with another one on its first components. *)
Lemma combine_filter_fst {A B : Type} (f : A -> bool) (l : list A) (l' : list B) :
  List.length l' = List.length l ->
  map fst (filter (fun ab => f (fst ab)) (combine l l')) = filter f l.
Proof.
  revert l'. induction l as [|a l IH]; intros [|b l'] Hl; try discriminate;
    [reflexivity|].
  cbn [combine filter fst]. injection Hl as Hl.
  destruct (f a); cbn [map fst]; now rewrite (IH l' Hl).
Qed.

(** C10.  Channels that share an index are all kept: [__lt__] looks at the
    index alone, the sorted list is ascending for it and a permutation of
    the channels, and the channels with any given index stand in it in the
    order they have in [self.channel]; the layout has one entry for each of
    them.  [decorate] walks that list: it decodes the entries of the layout
    one after the other, and when it returns, it returns one value for each
    channel, under the names of the sorted list.  For two channels of index
    1 listed around [accel_x] of index 0, the values of the two come in the
    order in which the channels are listed. *)
Theorem equal_index_kept (chans : list IioChannel) :
  (forall a b, IioChannel_lt a b = String.ltb (index a) (index b)) /\
  Sorted (not_after IioChannel_lt) (sorted IioChannel_lt chans) /\
  Permutation (sorted IioChannel_lt chans) chans /\
  (forall k, filter (has_index k) (sorted IioChannel_lt chans)
             = filter (has_index k) chans) /\
  map (fun e => fst (fst e)) (layout (device chans)) = sorted IioChannel_lt chans /\
  (forall (F : FloatOfStr) (data : list byte),
      decorate (device chans) data
      = map_result (decode_field data) (layout (device chans))) /\
  (forall (F : FloatOfStr) (data : list byte) (vals : list (string * pyval)),
      decorate (device chans) data = Ok vals ->
      map fst vals = map name (sorted IioChannel_lt chans) /\
      List.length vals = List.length chans /\
      forall k, map fst (filter (fun cv => has_index k (fst cv))
                           (combine (sorted IioChannel_lt chans) vals))
                = filter (has_index k) chans) /\
  map name (sorted IioChannel_lt [twin_b; accel_x; twin_a])
  = ["accel_x"; "accel_z"; "accel_y"] /\
  (forall F : FloatOfStr,
      decorate (device [twin_b; accel_x; twin_a]) [x05; x00; x01; x02]
      = Ok [("accel_x", PyFloat 5); ("accel_z", PyFloat 1); ("accel_y", PyFloat 2)]) /\
  (forall F : FloatOfStr,
      decorate (device [twin_a; accel_x; twin_b]) [x05; x00; x01; x02]
      = Ok [("accel_x", PyFloat 5); ("accel_y", PyFloat 1); ("accel_z", PyFloat 2)]).
Proof.
  split; [reflexivity|].
  split; [apply sorted_sorted; exact IioChannel_lt_asym|].
  split; [apply sorted_perm|].
  assert (Hf : forall k, filter (has_index k) (sorted IioChannel_lt chans)
                         = filter (has_index k) chans).
  { intros k. apply sorted_filter. intros x y. apply IioChannel_lt_index. }
  split; [exact Hf|].
  split; [apply layout_from_channels|].
  split; [intros F data; apply decorate_layout|].
  split; [|split; [reflexivity|split; intros F; vm_compute; reflexivity]].
  intros F data vals Hd.
  pose proof (decorate_names (device chans) data vals Hd) as Hnames.
  cbn [channel device] in Hnames.
  assert (Hlen : List.length vals = List.length (sorted IioChannel_lt chans)).
  { rewrite <- (length_map fst vals), Hnames. apply length_map. }
  split; [exact Hnames|]. split.
  - rewrite Hlen. apply Permutation_length, sorted_perm.
  - intros k. rewrite <- Hf. apply combine_filter_fst. exact Hlen.
Qed.

(** Two channels of index 1 listed around a channel of index 0. *)
Lemma equal_index_kept_witness :
  map fst [("accel_x", PyFloat 5); ("accel_z", PyFloat 1); ("accel_y", PyFloat 2)]
  = map name (sorted IioChannel_lt [twin_b; accel_x; twin_a]) /\
  List.length [("accel_x", PyFloat 5); ("accel_z", PyFloat 1); ("accel_y", PyFloat 2)]
  = List.length [twin_b; accel_x; twin_a] /\
  forall k,
    map fst (filter (fun cv => has_index k (fst cv))
               (combine (sorted IioChannel_lt [twin_b; accel_x; twin_a])
                  [("accel_x", PyFloat 5); ("accel_z", PyFloat 1);
                   ("accel_y", PyFloat 2)]))
    = filter (has_index k) [twin_b; accel_x; twin_a].
Proof.
  destruct (equal_index_kept [twin_b; accel_x; twin_a])
    as (_ & _ & _ & _ & _ & _ & Hd & _).
  apply (Hd decimal_float [x05; x00; x01; x02]).
  vm_compute. reflexivity.
Defined.

(** C8.  Two channels whose index files read [2] and [10]: [decorate]
    returns the value of the channel of index 10 first, because the index
    lines are compared as strings. *)
Theorem two_digit_index_first :
  IioChannel_lt chan_10 chan_2 = true /\
  map Spec.index_of (sorted IioChannel_lt (channel eleven_channels)) = [10; 2] /\
  forall F : FloatOfStr,
    @decorate F eleven_channels [x01; x02]
    = Ok [("magn_x", PyFloat 1); ("anglvel_z", PyFloat 2)].
Proof.
  split; [reflexivity|]. split; [reflexivity|].
  intros F. vm_compute. reflexivity.
Qed.

(** ** The chunk size *)

Lemma fold_add_acc (l : list Z) (a : Z) : fold_left Z.add l a = a + Py.sum l.
Proof.
  unfold Py.sum. revert a. induction l as [|x l IH]; intros a; simpl; [lia|].
  rewrite (IH (a + x)), (IH x). lia.
Qed.

Lemma sum_app (l1 l2 : list Z) : Py.sum (l1 ++ l2) = Py.sum l1 + Py.sum l2.
Proof. unfold Py.sum at 1. rewrite fold_left_app, fold_add_acc. reflexivity. Qed.

Lemma sum_cons (x : Z) (l : list Z) : Py.sum (x :: l) = x + Py.sum l.
Proof. unfold Py.sum at 1. simpl. apply fold_add_acc. Qed.

Lemma sum_perm (l l' : list Z) : Permutation l l' -> Py.sum l = Py.sum l'.
Proof.
  induction 1 as [|x l l' _ IH|x y l|l l' l'' _ IH1 _ IH2].
  - reflexivity.
  - now rewrite !sum_cons, IH.
  - rewrite !sum_cons. lia.
  - now rewrite IH1.
Qed.

Lemma sum_sorted (chans : list IioChannel) :
  Py.sum (map typ_len (sorted IioChannel_lt chans)) = Py.sum (map typ_len chans).
Proof. apply sum_perm, Permutation_map, sorted_perm. Qed.

Lemma cursor_after_plain (c : Z) (chans : list IioChannel) :
  Forall (fun chan => name chan <> "timestamp") chans ->
  cursor_after c chans = c + Py.sum (map typ_len chans).
Proof.
  intros Hn. revert c. induction Hn as [|chan chans Hchan _ IH]; intros c.
  - unfold cursor_after, Py.sum. simpl. lia.
  - unfold cursor_after. simpl. fold (cursor_after (end_of chan c) chans).
    rewrite IH, sum_cons. unfold end_of, start_of.
    apply String.eqb_neq in Hchan. rewrite Hchan.
    destruct (Z.eqb_spec (typ_len chan) 0); lia.
Qed.

(** Without a channel named [timestamp], the chunk size is the end of the
    last field rounded up. *)
Lemma chunk_size_plain (self : IioInfo) :
  Forall (fun chan => name chan <> "timestamp") (channel self) ->
  get_chunk_size self = Ok (aligned (bytes_needed self)).
Proof.
  intros Hn. unfold get_chunk_size, bytes_needed.
  rewrite align_aligned, cursor_after_plain, sum_sorted; [reflexivity|].
  eapply Permutation_Forall; [|exact Hn].
  apply Permutation_sym, sorted_perm.
Qed.

(** With an 8-byte timestamp as the last channel, as the kernel lays
    records out, it is again the end of the last field rounded up. *)
Lemma chunk_size_timestamp_last (self : IioInfo) (p : list IioChannel)
    (ts : IioChannel) :
  sorted IioChannel_lt (channel self) = p ++ [ts] ->
  Forall (fun chan => name chan <> "timestamp") p ->
  name ts = "timestamp" ->
  typ_len ts = 8 ->
  get_chunk_size self = Ok (aligned (bytes_needed self)).
Proof.
  intros Hs Hp Hname Hlen. unfold get_chunk_size, bytes_needed.
  rewrite align_aligned, <- sum_sorted, Hs, cursor_after_app, map_app, sum_app.
  rewrite (cursor_after_plain 0 p Hp). unfold cursor_after. simpl.
  unfold end_of, start_of. rewrite Hname, Hlen. simpl.
  change (Py.sum [8]) with 8. rewrite !aligned_add_8.
  now rewrite (aligned_fixed (aligned _)) by apply aligned_mod.
Qed.

(** C1.  With a channel after the timestamp, [get_chunk_size] is smaller
    than the record [decorate] reads: the channels take 2, 8 and 1 bytes,
    their sum 11 is rounded to 16, while the 1-byte channel is read from
    [16, 17) and the planner of the specification gives 24.  A chunk of the
    size [get_chunk_size] returns cannot be decoded. *)
Theorem chunk_size_misses_gap :
  get_chunk_size timestamp_in_the_middle = Ok 16 /\
  Spec.totalSize (channel timestamp_in_the_middle) = 24 /\
  map (fun e => (name (fst (fst e)), snd (fst e), snd e))
      (layout timestamp_in_the_middle)
  = [("accel_x", 0, 2); ("timestamp", 8, 16); ("count", 16, 17)] /\
  bytes_needed timestamp_in_the_middle = 17 /\
  forall F : FloatOfStr,
    @decorate F timestamp_in_the_middle (repeat x00 16) = Raise StructError.
Proof.
  split; [reflexivity|]. split; [reflexivity|]. split; [reflexivity|].
  split; [reflexivity|]. intros F. vm_compute. reflexivity.
Qed.

(** ** Channels of length zero *)

Lemma end_of_zero (z : IioChannel) (c : Z) : typ_len z = 0 -> end_of z c = c.
Proof. intros Hz. unfold end_of. now rewrite Hz. Qed.

Lemma cursor_after_zero (c : Z) (p q : list IioChannel) (z : IioChannel) :
  typ_len z = 0 -> cursor_after c (p ++ z :: q) = cursor_after c (p ++ q).
Proof.
  intros Hz. rewrite !cursor_after_app. unfold cursor_after at 1. simpl.
  now rewrite end_of_zero.
Qed.

Lemma layout_from_zero (c : Z) (p q : list IioChannel) (z : IioChannel) :
  typ_len z = 0 ->
  layout_from c (p ++ z :: q) =
  layout_from c p
    ++ (z, start_of z (cursor_after c p), cursor_after c p)
    :: layout_from (cursor_after c p) q.
Proof.
  intros Hz. rewrite layout_from_app. simpl. now rewrite end_of_zero.
Qed.

Section ZeroWidth.

Context `{FloatOfStr}.

Lemma decode_field_zero (data : list byte) (z : IioChannel) (first last : Z) :
  typ_len z = 0 -> decode_field data (z, first, last) = Ok (name z, PyInt 0).
Proof. intros Hz. unfold decode_field. now rewrite Hz. Qed.

(** [decorate] with and without a channel of length zero: the same
    fields are decoded from the same spans, and the channel adds the pair
    of its name and [0] at its place. *)
Lemma decorate_zero_width (self : IioInfo) (l1 l2 : list IioChannel)
    (z : IioChannel) (data : list byte) :
  channel self = l1 ++ z :: l2 ->
  typ_len z = 0 ->
  exists p q,
    sorted IioChannel_lt (l1 ++ z :: l2) = p ++ z :: q /\
    sorted IioChannel_lt (l1 ++ l2) = p ++ q /\
    decorate self data =
    (before <- map_result (decode_field data) (layout_from 0 p) ;;
     after <- map_result (decode_field data) (layout_from (cursor_after 0 p) q) ;;
     Ok (before ++ (name z, PyInt 0) :: after)) /\
    decorate (with_channels self (l1 ++ l2)) data =
    (before <- map_result (decode_field data) (layout_from 0 p) ;;
     after <- map_result (decode_field data) (layout_from (cursor_after 0 p) q) ;;
     Ok (before ++ after)).
Proof.
  intros Hch Hz.
  destruct (sorted_channels_remove l1 l2 z) as (p & q & Hwith & Hwithout).
  exists p, q. split; [exact Hwith|]. split; [exact Hwithout|].
  rewrite !decorate_layout. unfold layout, with_channels.
  cbn [channel]. rewrite Hch, Hwith, Hwithout.
  rewrite layout_from_zero by exact Hz. rewrite layout_from_app.
  rewrite !map_result_app. cbn [map_result].
  rewrite decode_field_zero by exact Hz.
  split.
  - destruct (map_result _ (layout_from 0 p)); simpl; [|reflexivity].
    destruct (map_result _ (layout_from _ q)); simpl; reflexivity.
  - reflexivity.
Qed.

End ZeroWidth.

(** C7.  A channel of length zero (one whose type is not recognised) takes
    no byte.  Its iteration of the loop of [decorate] appends the pair of
    its name and [0] and leaves the cursor where the channel before it
    ended, whatever the record holds.  [decorate] decodes the channels
    before it and the channels after it from the spans they have without
    it and puts that pair between their values, so it fails as it does
    without the channel, and the chunk size and the bytes read are those of
    the device without the channel.  For a 12-bit [temp] channel listed
    before an 8-bit channel, [decorate] returns [("temp", 0)] followed by
    the value of the first byte of the record. *)
Theorem zero_width_passthrough :
  (forall (F : FloatOfStr) (self : IioInfo) (l1 l2 : list IioChannel)
      (z : IioChannel) (data : list byte),
      channel self = l1 ++ z :: l2 ->
      typ_len z = 0 ->
      get_chunk_size self = get_chunk_size (with_channels self (l1 ++ l2)) /\
      bytes_needed self = bytes_needed (with_channels self (l1 ++ l2)) /\
      (forall st : locals,
          decorate_body data st z =
          Ok {| ret := ret st ++ [(name z, PyInt 0)];
                byte_start := byte_end st;
                byte_end := byte_end st |}) /\
      (exists p q,
          sorted IioChannel_lt (channel self) = p ++ z :: q /\
          sorted IioChannel_lt (l1 ++ l2) = p ++ q /\
          decorate self data =
          (before <- map_result (decode_field data) (layout_from 0 p) ;;
           after <- map_result (decode_field data)
                      (layout_from (cursor_after 0 p) q) ;;
           Ok (before ++ (name z, PyInt 0) :: after)) /\
          decorate (with_channels self (l1 ++ l2)) data =
          (before <- map_result (decode_field data) (layout_from 0 p) ;;
           after <- map_result (decode_field data)
                      (layout_from (cursor_after 0 p) q) ;;
           Ok (before ++ after))) /\
      (forall e, decorate (with_channels self (l1 ++ l2)) data = Raise e ->
                 decorate self data = Raise e) /\
      (forall vals, decorate (with_channels self (l1 ++ l2)) data = Ok vals ->
         exists p q before after,
           sorted IioChannel_lt (channel self) = p ++ z :: q /\
           sorted IioChannel_lt (l1 ++ l2) = p ++ q /\
           vals = before ++ after /\
           map fst before = map name p /\
           decorate self data = Ok (before ++ (name z, PyInt 0) :: after))) /\
  (forall (F : FloatOfStr) (b : byte) (rest : list byte),
      decorate (device [temp; chan_2]) (b :: rest)
      = (v <- decode_field (b :: rest) (chan_2, 0, 1) ;;
         Ok [("temp", PyInt 0); v])) /\
  (forall F : FloatOfStr,
      decorate (device [temp; chan_2]) [x07]
      = Ok [("temp", PyInt 0); ("anglvel_z", PyFloat 7)]) /\
  (forall F : FloatOfStr,
      decorate (device [chan_2]) [x07] = Ok [("anglvel_z", PyFloat 7)]).
Proof.
  split; [|split; [|split; intros F; vm_compute; reflexivity]].
  - intros F self l1 l2 z data Hch Hz.
    destruct (decorate_zero_width self l1 l2 z data Hch Hz)
      as (p & q & Hwith & Hwithout & Hd & Hd').
    split; [|split; [|split; [|split; [|split]]]].
    + unfold get_chunk_size. simpl. rewrite Hch, !map_app. simpl.
      now rewrite !sum_app, sum_cons, Hz.
    + unfold bytes_needed. simpl. rewrite Hch, Hwith, Hwithout.
      now apply cursor_after_zero.
    + intros st. unfold decorate_body. rewrite Hz, align_aligned.
      change (0 =? 0) with true. cbv iota.
      now destruct (String.eqb (name z) "timestamp").
    + exists p, q. rewrite Hch. repeat split; assumption.
    + intros e. rewrite Hd, Hd'.
      destruct (map_result _ (layout_from 0 p)); simpl; [|trivial].
      destruct (map_result _ (layout_from _ q)); simpl; [discriminate|trivial].
    + intros vals. rewrite Hd, Hd'.
      destruct (map_result _ (layout_from 0 p)) as [before|e] eqn:Hb; simpl;
        [|discriminate].
      destruct (map_result _ (layout_from _ q)) as [after|e]; simpl; [|discriminate].
      intros Hv. inversion Hv; subst vals.
      exists p, q, before, after. rewrite Hch.
      repeat split; trivial.
      rewrite (map_result_names _ _ _ Hb).
      rewrite <- (layout_from_channels 0 p) at 2. now rewrite map_map.
  - intros F b rest. rewrite decorate_layout.
    change (layout (device [temp; chan_2]))
      with [(temp, 0, 0); (chan_2, 0, 1)].
    cbn [map_result]. rewrite decode_field_zero by reflexivity. cbn [bind].
    destruct (decode_field (b :: rest) (chan_2, 0, 1)); reflexivity.
Qed.

(** A 12-bit temperature channel before an 8-bit channel, on the record of
    the byte [07]. *)
Lemma zero_width_passthrough_witness :
  get_chunk_size (device [temp; chan_2])
  = get_chunk_size (with_channels (device [temp; chan_2]) ([] ++ [chan_2])) /\
  bytes_needed (device [temp; chan_2])
  = bytes_needed (with_channels (device [temp; chan_2]) ([] ++ [chan_2])) /\
  (forall st : locals,
      @decorate_body decimal_float [x07] st temp =
      Ok {| ret := ret st ++ [(name temp, PyInt 0)];
            byte_start := byte_end st;
            byte_end := byte_end st |}) /\
  (exists p q before after,
      sorted IioChannel_lt (channel (device [temp; chan_2])) = p ++ temp :: q /\
      sorted IioChannel_lt ([] ++ [chan_2]) = p ++ q /\
      [("anglvel_z", PyFloat 7)] = before ++ after /\
      map fst before = map name p /\
      @decorate decimal_float (device [temp; chan_2]) [x07]
      = Ok (before ++ (name temp, PyInt 0) :: after)) /\
  @decorate decimal_float (device [temp; chan_2]) [x07]
  = Ok [("temp", PyInt 0); ("anglvel_z", PyFloat 7)].
Proof.
  destruct (proj1 zero_width_passthrough decimal_float (device [temp; chan_2])
              [] [chan_2] temp [x07] eq_refl eq_refl)
    as (Hsize & Hneed & Hbody & _ & _ & Hvals).
  split; [exact Hsize|]. split; [exact Hneed|]. split; [exact Hbody|].
  split.
  - apply Hvals. vm_compute. reflexivity.
  - apply (proj1 (proj2 (proj2 zero_width_passthrough)) decimal_float).
Defined.

Example decorate_unrecognised_type (F : FloatOfStr) :
  decorate (device [temp; chan_2]) [x07]
  = Ok [("temp", PyInt 0); ("anglvel_z", PyFloat 7)].
Proof. vm_compute. reflexivity. Qed.

(** C9.  A channel named [timestamp] of length zero: line 124 rounds
    [byte_start] up, and line 132 sets it back to [byte_end], which the
    iteration has not changed.  The channel leaves no gap: the entries of
    the channels after it, the bytes [decorate] reads and the values it
    returns for the other channels are those of the device without it. *)
Theorem zero_width_timestamp (F : FloatOfStr) (z : IioChannel) :
  name z = "timestamp" ->
  typ_len z = 0 ->
  (forall (data : list byte) (st : locals),
      byte_start st = byte_end st ->
      start_of z (byte_start st) = aligned (byte_start st) /\
      decorate_body data st z =
      Ok {| ret := ret st ++ [("timestamp", PyInt 0)];
            byte_start := byte_start st;
            byte_end := byte_end st |}) /\
  (forall (self : IioInfo) (l1 l2 : list IioChannel),
      channel self = l1 ++ z :: l2 ->
      exists p q cursor,
        sorted IioChannel_lt (channel self) = p ++ z :: q /\
        sorted IioChannel_lt (l1 ++ l2) = p ++ q /\
        cursor = cursor_after 0 p /\
        layout self =
        layout_from 0 p ++ (z, aligned cursor, cursor) :: layout_from cursor q /\
        layout (with_channels self (l1 ++ l2)) =
        layout_from 0 p ++ layout_from cursor q /\
        bytes_needed self = bytes_needed (with_channels self (l1 ++ l2))) /\
  (forall (self : IioInfo) (l1 l2 : list IioChannel) (data : list byte)
          (vals : list (string * pyval)),
      channel self = l1 ++ z :: l2 ->
      decorate (with_channels self (l1 ++ l2)) data = Ok vals ->
      exists before after,
        vals = before ++ after /\
        decorate self data = Ok (before ++ ("timestamp", PyInt 0) :: after)).
Proof.
  intros Hname Hz. split; [|split].
  - intros data st Hst. unfold start_of. rewrite Hname. split; [reflexivity|].
    rewrite decorate_body_layout by exact Hst.
    rewrite decode_field_zero by exact Hz. simpl.
    now rewrite end_of_zero, Hname, <- Hst.
  - intros self l1 l2 Hch.
    destruct (sorted_channels_remove l1 l2 z) as (p & q & Hwith & Hwithout).
    exists p, q, (cursor_after 0 p). rewrite Hch.
    split; [exact Hwith|]. split; [exact Hwithout|]. split; [reflexivity|].
    unfold layout, bytes_needed. simpl. rewrite Hch, Hwith, Hwithout.
    rewrite layout_from_zero by exact Hz. unfold start_of. rewrite Hname. simpl.
    split; [reflexivity|]. split; [apply layout_from_app|].
    now apply cursor_after_zero.
  - intros self l1 l2 data vals Hch.
    destruct (decorate_zero_width self l1 l2 z data Hch Hz)
      as (p & q & _ & _ & Hd & Hd').
    rewrite Hd, Hd', Hname.
    destruct (map_result _ (layout_from 0 p)) as [before|e]; simpl;
      [|discriminate].
    destruct (map_result _ (layout_from _ q)) as [after|e]; simpl; [|discriminate].
    intros Hv. inversion Hv. now exists before, after.
Qed.

(** A timestamp of 48 bits between a 16-bit and an 8-bit channel. *)
Lemma zero_width_timestamp_witness :
  (forall (data : list byte) (st : locals),
      byte_start st = byte_end st ->
      start_of odd_timestamp (byte_start st) = aligned (byte_start st) /\
      decorate_body data st odd_timestamp =
      Ok {| ret := ret st ++ [("timestamp", PyInt 0)];
            byte_start := byte_start st;
            byte_end := byte_end st |}) /\
  (forall (self : IioInfo) (l1 l2 : list IioChannel),
      channel self = l1 ++ odd_timestamp :: l2 ->
      exists p q cursor,
        sorted IioChannel_lt (channel self) = p ++ odd_timestamp :: q /\
        sorted IioChannel_lt (l1 ++ l2) = p ++ q /\
        cursor = cursor_after 0 p /\
        layout self =
        layout_from 0 p
          ++ (odd_timestamp, aligned cursor, cursor) :: layout_from cursor q /\
        layout (with_channels self (l1 ++ l2)) =
        layout_from 0 p ++ layout_from cursor q /\
        bytes_needed self = bytes_needed (with_channels self (l1 ++ l2))) /\
  (forall (self : IioInfo) (l1 l2 : list IioChannel) (data : list byte)
          (vals : list (string * pyval)),
      channel self = l1 ++ odd_timestamp :: l2 ->
      decorate (with_channels self (l1 ++ l2)) data = Ok vals ->
      exists before after,
        vals = before ++ after /\
        decorate self data = Ok (before ++ ("timestamp", PyInt 0) :: after)).
Proof.
  apply (zero_width_timestamp decimal_float odd_timestamp).
  - reflexivity.
  - reflexivity.
Defined.

Example layout_zero_width_timestamp :
  map (fun e => (name (fst (fst e)), snd (fst e), snd e))
      (layout (device [accel_x; odd_timestamp; chan_2]))
  = [("accel_x", 0, 2); ("timestamp", 8, 2); ("anglvel_z", 2, 3)].
Proof. reflexivity. Qed.

(** ** Records that are too short *)

Lemma slice_length {A : Type} (l : list A) (first last : Z) :
  0 <= first -> 0 <= last ->
  Z.of_nat (List.length (Py.slice l first last)) =
  Z.max 0 (Z.min last (Z.of_nat (List.length l))
           - Z.min first (Z.of_nat (List.length l))).
Proof.
  intros Hf Hl. unfold Py.slice, Py.adjust.
  rewrite length_firstn, length_skipn.
  assert (Hf' : (first <? 0) = false) by now apply Z.ltb_ge.
  assert (Hl' : (last <? 0) = false) by now apply Z.ltb_ge.
  rewrite !Hf', !Hl'.
  destruct (Z.ltb_spec (Z.of_nat (List.length l)) first);
    destruct (Z.ltb_spec (Z.of_nat (List.length l)) last); lia.
Qed.

(** The format of a channel built by [__init__] asks for as many bytes as
    the length recorded with it, and yields one integer. *)
Lemma unpack_built (chan : IioChannel) (buf : list byte) :
  built chan ->
  typ_len chan <> 0 ->
  0 < typ_len chan /\
  (Z.of_nat (List.length buf) = typ_len chan ->
   exists rawval, Struct.unpack (typ_str chan) buf = Ok [rawval]) /\
  (Z.of_nat (List.length buf) <> typ_len chan ->
   Struct.unpack (typ_str chan) buf = Raise StructError).
Proof.
  unfold built. intros Hb.
  destruct (typ chan) as [t|]; [|discriminate].
  destruct (type_to_unpack_cases t) as (order & char & leng & Ht & Ho & Hc).
  rewrite Ht in Hb. inversion Hb as [[Hstr Hl]]. rewrite <- Hl.
  clear Hb Ht Hstr Hl. intros Hlen.
  destruct Hc as [Hc|(_ & _ & Hc)]; [|contradiction].
  unfold inttypes in Hc. simpl in Hc, Ho.
  destruct Ho as [Ho|[Ho|[]]]; subst order;
    repeat (destruct Hc as [Hc|Hc];
            [inversion Hc; subst char leng; clear Hc;
             try contradiction; unfold Struct.unpack; simpl;
             (split; [lia|]);
             (split; intros Hn;
              [apply Z.eqb_eq in Hn | apply Z.eqb_neq in Hn]; rewrite Hn;
              [eexists; reflexivity | reflexivity]) |]);
    contradiction.
Qed.

Lemma built_nonneg (chan : IioChannel) : built chan -> 0 <= typ_len chan.
Proof.
  intros Hb. destruct (Z.eq_dec (typ_len chan) 0) as [Hz|Hz]; [lia|].
  destruct (unpack_built chan [] Hb Hz). lia.
Qed.

Lemma end_of_ge (chan : IioChannel) (c : Z) : built chan -> c <= end_of chan c.
Proof.
  intros Hb. apply built_nonneg in Hb. unfold end_of, start_of.
  pose proof (aligned_bounds c).
  destruct (typ_len chan =? 0); [lia|].
  destruct (String.eqb _ _); lia.
Qed.

Lemma cursor_after_ge (chans : list IioChannel) (c : Z) :
  Forall built chans -> c <= cursor_after c chans.
Proof.
  intros Hb. revert c. induction Hb as [|chan chans Hc _ IH]; intros c.
  - apply Z.le_refl.
  - unfold cursor_after. simpl. fold (cursor_after (end_of chan c) chans).
    pose proof (end_of_ge chan c Hc). specialize (IH (end_of chan c)). lia.
Qed.

Section ShortRecords.

Context `{FloatOfStr}.

(** A field decodes when the record reaches the end of its span, and
    raises [struct.error] otherwise. *)
Lemma decode_field_built (data : list byte) (chan : IioChannel) (c : Z) :
  built chan -> calibrated chan -> 0 <= c <= Z.of_nat (List.length data) ->
  (end_of chan c <= Z.of_nat (List.length data) ->
   exists val, decode_field data (chan, start_of chan c, end_of chan c) = Ok val) /\
  (Z.of_nat (List.length data) < end_of chan c ->
   decode_field data (chan, start_of chan c, end_of chan c) = Raise StructError).
Proof.
  intros Hb [[off Hoff] [sc Hsc]] Hc. unfold decode_field, end_of.
  destruct (Z.eqb_spec (typ_len chan) 0) as [Hz|Hz].
  - split; [intros _; eexists; reflexivity | lia].
  - assert (Hs : c <= start_of chan c).
    { unfold start_of. pose proof (aligned_bounds c).
      destruct (String.eqb _ _); lia. }
    pose proof (slice_length data (start_of chan c)
                  (start_of chan c + typ_len chan)) as Hsl.
    destruct (unpack_built chan
                (Py.slice data (start_of chan c) (start_of chan c + typ_len chan))
                Hb Hz) as (Hpos & Hok & Hbad).
    specialize (Hsl ltac:(lia) ltac:(lia)).
    split; intros Hn.
    + destruct Hok as [rawval Hu]; [lia|]. rewrite Hu. simpl.
      rewrite Hoff, Hsc. simpl. eexists; reflexivity.
    + rewrite Hbad by lia. reflexivity.
Qed.

Lemma fields_decode (data : list byte) (chans : list IioChannel) (c : Z) :
  Forall built chans -> Forall calibrated chans ->
  0 <= c <= Z.of_nat (List.length data) ->
  (cursor_after c chans <= Z.of_nat (List.length data) ->
   exists vals, map_result (decode_field data) (layout_from c chans) = Ok vals) /\
  (Z.of_nat (List.length data) < cursor_after c chans ->
   map_result (decode_field data) (layout_from c chans) = Raise StructError).
Proof.
  intros Hb. revert c. induction Hb as [|chan chans Hchan Hrest IH];
    intros c Hcal Hc.
  - split; [intros _; now exists [] | simpl; unfold cursor_after; simpl; lia].
  - inversion Hcal as [|? ? Hcal1 Hcal2]; subst.
    unfold cursor_after. cbn [fold_left layout_from map_result].
    fold (cursor_after (end_of chan c) chans).
    pose proof (end_of_ge chan c Hchan) as He.
    pose proof (cursor_after_ge chans (end_of chan c) Hrest) as Hge.
    destruct (decode_field_built data chan c Hchan Hcal1 Hc) as [Hok Hbad].
    destruct (Z.le_gt_cases (end_of chan c) (Z.of_nat (List.length data)))
      as [Hle|Hgt].
    + destruct (Hok Hle) as [val Hval]. rewrite Hval. simpl.
      destruct (IH (end_of chan c) Hcal2 ltac:(lia)) as [IHok IHbad].
      split; intros Hn.
      * destruct (IHok Hn) as [vals Hvals]. rewrite Hvals. simpl.
        eexists; reflexivity.
      * now rewrite (IHbad Hn).
    + split; intros Hn; [lia|]. now rewrite (Hbad Hgt).
Qed.

End ShortRecords.

(** C2, the claim as stated, fails: for one 8-bit channel the chunk size
    is 8, and [decorate] decodes a record of length 1. *)
Lemma short_read_not_rejected :
  ~ (forall (F : FloatOfStr) (self : IioInfo) (data : list byte) (total : Z),
        get_chunk_size self = Ok total ->
        Z.of_nat (List.length data) <> total ->
        exists e, decorate self data = Raise e).
Proof.
  intros Hall.
  destruct (Hall decimal_float one_u8 [x05] 8 eq_refl ltac:(discriminate))
    as [e He].
  vm_compute in He. discriminate.
Qed.

Example decorate_one_byte (F : FloatOfStr) :
  get_chunk_size one_u8 = Ok 8 /\
  decorate one_u8 [x05] = Ok [("count", PyFloat 5)].
Proof. split; [reflexivity | vm_compute; reflexivity]. Qed.

Example decorate_longer_record (F : FloatOfStr) :
  decorate one_u8 (repeat x05 9) = Ok [("count", PyFloat 5)].
Proof. vm_compute. reflexivity. Qed.

(** C2, amended.  [decorate] does not compare the length of the record with
    the chunk size.  For channels as [__init__] builds them, with offsets
    and scales that [float()] accepts, it raises [struct.error], returning
    no value, exactly when the record is shorter than the end of the last
    field it reads; a record at least that long gives one value for every
    channel, whatever its length. *)
Theorem short_read (F : FloatOfStr) (self : IioInfo) (data : list byte) :
  Forall built (channel self) ->
  Forall calibrated (channel self) ->
  (Z.of_nat (List.length data) < bytes_needed self ->
   decorate self data = Raise StructError) /\
  (bytes_needed self <= Z.of_nat (List.length data) ->
   exists vals,
     decorate self data = Ok vals /\
     List.length vals = List.length (channel self)).
Proof.
  intros Hb Hcal.
  pose proof (sorted_perm _ IioChannel_lt (channel self)) as Hperm.
  apply Permutation_sym in Hperm.
  pose proof (Permutation_Forall Hperm Hb) as Hb'.
  pose proof (Permutation_Forall Hperm Hcal) as Hcal'.
  destruct (fields_decode data _ 0 Hb' Hcal' ltac:(lia)) as [Hok Hbad].
  rewrite decorate_layout. unfold layout, bytes_needed. split.
  - exact Hbad.
  - intros Hn. destruct (Hok Hn) as [vals Hvals]. exists vals.
    split; [exact Hvals|].
    rewrite (map_result_length _ _ _ Hvals), layout_from_length.
    symmetry. now apply Permutation_length.
Qed.

(** One 8-bit channel: a record of one byte decodes, the empty record does
    not. *)
Lemma short_read_witness :
  (Z.of_nat (List.length (@nil byte)) < bytes_needed one_u8 ->
   decorate one_u8 [] = Raise StructError) /\
  (bytes_needed one_u8 <= Z.of_nat (List.length [x05]) ->
   exists vals,
     decorate one_u8 [x05] = Ok vals /\
     List.length vals = List.length (channel one_u8)).
Proof.
  split.
  - apply (short_read decimal_float one_u8 []).
    + repeat constructor.
    + repeat constructor; eexists; reflexivity.
  - apply (short_read decimal_float one_u8 [x05]).
    + repeat constructor.
    + repeat constructor; eexists; reflexivity.
Defined.

(** * Further properties *)

(** ** [align] for any alignment *)

Lemma align_ok (value alignment : Z) :
  alignment <> 0 -> align value alignment = Ok (aligned_to value alignment).
Proof.
  intros Ha. unfold aligned_to, align, Py.divmod.
  destruct (Z.eqb_spec alignment 0); [contradiction | reflexivity].
Qed.

Lemma aligned_to_eq (value alignment : Z) :
  alignment <> 0 ->
  aligned_to value alignment
  = (value / alignment + (if 0 <? value mod alignment then 1 else 0)) * alignment.
Proof.
  intros Ha. unfold aligned_to, align, Py.divmod.
  destruct (Z.eqb_spec alignment 0); [contradiction | reflexivity].
Qed.

Lemma aligned_to_divide (value alignment : Z) :
  alignment <> 0 -> (alignment | aligned_to value alignment).
Proof. intros Ha. rewrite aligned_to_eq by exact Ha. now eexists. Qed.

Lemma aligned_to_bounds (value alignment : Z) :
  alignment <> 0 ->
  value <= aligned_to value alignment < value + Z.abs alignment.
Proof.
  intros Ha. rewrite aligned_to_eq by exact Ha.
  pose proof (Z.div_mod value alignment Ha) as Hdm.
  destruct (Z.lt_total alignment 0) as [Hneg|[Hz|Hpos]]; [|contradiction|].
  - pose proof (Z.mod_neg_bound value alignment Hneg) as Hb.
    destruct (Z.ltb_spec 0 (value mod alignment)); lia.
  - pose proof (Z.mod_pos_bound value alignment Hpos) as Hb.
    destruct (Z.ltb_spec 0 (value mod alignment)); lia.
Qed.

Lemma aligned_to_least (value alignment m : Z) :
  alignment <> 0 -> (alignment | m) -> value <= m ->
  aligned_to value alignment <= m.
Proof.
  intros Ha [k Hk] Hle.
  pose proof (aligned_to_bounds value alignment Ha) as Hb.
  destruct (aligned_to_divide value alignment Ha) as [q Hq].
  rewrite Hq in *. subst m.
  destruct (Z.lt_total alignment 0) as [Hneg|[Hz|Hpos]]; [|contradiction|].
  - assert (k <= q) by (apply Z.nlt_ge; intros Hlt;
                         assert (k - q >= 1) by lia; nia).
    nia.
  - assert (q <= k) by (apply Z.nlt_ge; intros Hlt;
                         assert (q - k >= 1) by lia; nia).
    nia.
Qed.

(** X1.  For every alignment other than 0, negative ones included,
    [align] returns what its docstring says: the smallest multiple of the
    alignment that is equal to or larger than the value. *)
Theorem align_rounds_up (value alignment : Z) :
  alignment <> 0 ->
  exists r,
    align value alignment = Ok r /\
    (alignment | r) /\
    value <= r < value + Z.abs alignment /\
    forall m, (alignment | m) -> value <= m -> r <= m.
Proof.
  intros Ha. exists (aligned_to value alignment).
  split; [now apply align_ok|]. split; [now apply aligned_to_divide|].
  split; [now apply aligned_to_bounds|].
  intros m. now apply aligned_to_least.
Qed.

(** Ten bytes on a boundary of 8. *)
Lemma align_rounds_up_witness :
  exists r,
    align 10 8 = Ok r /\
    (8 | r) /\
    10 <= r < 10 + Z.abs 8 /\
    forall m, (8 | m) -> 10 <= m -> r <= m.
Proof.
  apply (align_rounds_up 10 8). lia.
Defined.

(** X2.  [align] is monotone in the value and leaves its own results in
    place, whatever the alignment other than 0. *)
Theorem align_monotone_idempotent (v w alignment : Z) :
  alignment <> 0 ->
  v <= w ->
  exists r s,
    align v alignment = Ok r /\
    align w alignment = Ok s /\
    r <= s /\
    align r alignment = Ok r.
Proof.
  intros Ha Hvw.
  exists (aligned_to v alignment), (aligned_to w alignment).
  rewrite !align_ok by exact Ha. split; [reflexivity|]. split; [reflexivity|].
  pose proof (aligned_to_bounds w alignment Ha) as Hw.
  pose proof (aligned_to_bounds (aligned_to v alignment) alignment Ha) as Hr.
  split.
  - apply aligned_to_least; [exact Ha | now apply aligned_to_divide | lia].
  - f_equal. apply Z.le_antisymm; [|lia].
    apply aligned_to_least; [exact Ha | now apply aligned_to_divide | lia].
Qed.

Lemma align_monotone_idempotent_witness :
  exists r s,
    align 3 8 = Ok r /\ align 11 8 = Ok s /\ r <= s /\ align r 8 = Ok r.
Proof.
  apply (align_monotone_idempotent 3 11 8); lia.
Defined.

(** ** What [decorate] returns and what it reads *)

Lemma map_result_ext {A B : Type} (f g : A -> result B) (l : list A) :
  (forall a, In a l -> f a = g a) -> map_result f l = map_result g l.
Proof.
  induction l as [|a l IH]; intros Hfg; simpl; [reflexivity|].
  rewrite (Hfg a (or_introl eq_refl)), IH; [reflexivity|].
  intros b Hb. apply Hfg. now right.
Qed.

Section ResultFacts.

Context `{FloatOfStr}.

Lemma decode_field_kind (data : list byte) (chan : IioChannel) (first last : Z)
    (val : string * pyval) :
  decode_field data (chan, first, last) = Ok val -> value_of_channel chan val.
Proof.
  unfold decode_field, value_of_channel.
  destruct (typ_len chan =? 0).
  - intros Hv. inversion Hv. now split.
  - destruct (Struct.unpack _ _) as [unpacked|e]; simpl; [|discriminate].
    destruct (Py.getitem unpacked 0) as [rawval|e]; simpl; [|discriminate].
    destruct (py_float (offset chan)) as [off|e]; simpl; [|discriminate].
    destruct (py_float (scale chan)) as [sc|e]; simpl; [|discriminate].
    intros Hv. inversion Hv. split; [reflexivity|]. now eexists.
Qed.

Lemma layout_values (data : list byte) (chans : list IioChannel) (c : Z)
    (vals : list (string * pyval)) :
  map_result (decode_field data) (layout_from c chans) = Ok vals ->
  Forall2 value_of_channel chans vals.
Proof.
  revert c vals. induction chans as [|chan chans IH]; intros c vals;
    cbn [layout_from map_result].
  - intros Hv. inversion Hv. constructor.
  - destruct (decode_field data (chan, start_of chan c, end_of chan c))
      as [val|e] eqn:Hval; simpl; [|discriminate].
    destruct (map_result _ _) as [vals'|e] eqn:Hvals; simpl; [|discriminate].
    intros Hv. inversion Hv. constructor.
    + exact (decode_field_kind _ _ _ _ _ Hval).
    + exact (IH _ _ Hvals).
Qed.

Lemma decode_field_slice (data data' : list byte) (chan : IioChannel)
    (first last : Z) :
  (typ_len chan <> 0 -> Py.slice data first last = Py.slice data' first last) ->
  decode_field data (chan, first, last) = decode_field data' (chan, first, last).
Proof.
  intros Hs. unfold decode_field.
  destruct (Z.eqb_spec (typ_len chan) 0) as [Hz|Hz]; [reflexivity|].
  now rewrite (Hs Hz).
Qed.

End ResultFacts.

(** X7.  When [decorate] returns, it returns one pair for every channel, in
    the order of [sorted(self.channel)], each under the name of its channel;
    the value is the integer [0] for a channel of length zero and a float
    for every other channel. *)
Theorem decorate_one_value_per_channel (F : FloatOfStr) (self : IioInfo)
    (data : list byte) (vals : list (string * pyval)) :
  decorate self data = Ok vals ->
  List.length vals = List.length (channel self) /\
  Permutation (map fst vals) (map name (channel self)) /\
  Forall2 value_of_channel (sorted IioChannel_lt (channel self)) vals.
Proof.
  rewrite decorate_layout. unfold layout. intros Hv.
  pose proof (layout_values _ _ _ _ Hv) as Hall.
  pose proof (sorted_perm _ IioChannel_lt (channel self)) as Hperm.
  split; [|split; [|exact Hall]].
  - rewrite <- (Forall2_length Hall). now apply Permutation_length.
  - apply Permutation_trans with (map name (sorted IioChannel_lt (channel self))).
    + rewrite (map_result_names _ _ _ Hv), <- map_map, layout_from_channels.
      apply Permutation_refl.
    + now apply Permutation_map.
Qed.

(** A 12-bit channel and an 8-bit channel on one byte. *)
Lemma decorate_one_value_per_channel_witness :
  List.length [("temp", PyInt 0); ("anglvel_z", PyFloat 7)]
  = List.length (channel (device [temp; chan_2])) /\
  Permutation (map fst [("temp", PyInt 0); ("anglvel_z", PyFloat 7)])
              (map name (channel (device [temp; chan_2]))) /\
  Forall2 value_of_channel
          (sorted IioChannel_lt (channel (device [temp; chan_2])))
          [("temp", PyInt 0); ("anglvel_z", PyFloat 7)].
Proof.
  apply (decorate_one_value_per_channel decimal_float (device [temp; chan_2]) [x07]).
  vm_compute. reflexivity.
Defined.

(** X8.  [decorate] looks at no byte outside the spans of the channels of
    non-zero length: two records that agree on these spans give the same
    result, values or exception.  The bytes of the gap before the timestamp
    and the padding at the end are never read. *)
Theorem decorate_reads_only_spans (F : FloatOfStr) (self : IioInfo)
    (data data' : list byte) :
  (forall chan first last,
      In (chan, first, last) (layout self) -> typ_len chan <> 0 ->
      Py.slice data first last = Py.slice data' first last) ->
  decorate self data = decorate self data'.
Proof.
  intros Hs. rewrite !decorate_layout. apply map_result_ext.
  intros [[chan first] last] Hin. apply decode_field_slice.
  intros Hlen. exact (Hs chan first last Hin Hlen).
Qed.

(** Two records for [accel_x] and [timestamp] that differ in the gap. *)
Lemma decorate_reads_only_spans_witness :
  decorate accel_and_timestamp
    [x01; x02; x00; x00; x00; x00; x00; x00; x01; x00; x00; x00; x00; x00; x00; x00]
  = decorate accel_and_timestamp
    [x01; x02; xaa; xbb; xcc; xdd; xee; xff; x01; x00; x00; x00; x00; x00; x00; x00].
Proof.
  apply (decorate_reads_only_spans decimal_float accel_and_timestamp).
  intros chan first last Hin _.
  destruct Hin as [Hin|[Hin|[]]]; inversion Hin; reflexivity.
Defined.

Lemma slice_app {A : Type} (data rest : list A) (first last : Z) :
  0 <= first <= last -> last <= Z.of_nat (List.length data) ->
  Py.slice (data ++ rest) first last = Py.slice data first last.
Proof.
  intros Hf Hl. unfold Py.slice, Py.adjust. rewrite length_app.
  assert (Hf0 : (first <? 0) = false) by (apply Z.ltb_ge; lia).
  assert (Hl0 : (last <? 0) = false) by (apply Z.ltb_ge; lia).
  rewrite !Hf0, !Hl0.
  assert (H1 : (Z.of_nat (List.length data + List.length rest) <? first) = false)
    by (apply Z.ltb_ge; lia).
  assert (H2 : (Z.of_nat (List.length data + List.length rest) <? last) = false)
    by (apply Z.ltb_ge; lia).
  assert (H3 : (Z.of_nat (List.length data) <? first) = false)
    by (apply Z.ltb_ge; lia).
  assert (H4 : (Z.of_nat (List.length data) <? last) = false)
    by (apply Z.ltb_ge; lia).
  rewrite H1, H2, H3, H4, skipn_app, firstn_app, length_skipn.
  replace (Z.to_nat first - List.length data)%nat with 0%nat by lia.
  replace (Z.to_nat (last - first) - (List.length data - Z.to_nat first))%nat
    with 0%nat by lia.
  simpl. apply app_nil_r.
Qed.

(** The span of a field lies between the cursor it is placed from and the
    end of the last field. *)
Lemma span_bounds (chans : list IioChannel) (c : Z) (chan : IioChannel)
    (first last : Z) :
  Forall built chans ->
  In (chan, first, last) (layout_from c chans) ->
  typ_len chan <> 0 ->
  c <= first /\ first < last /\ last <= cursor_after c chans.
Proof.
  intros Hb. revert c. induction Hb as [|x chans Hx Hrest IH]; intros c Hin Hlen.
  - contradiction.
  - unfold cursor_after. simpl. fold (cursor_after (end_of x c) chans).
    pose proof (end_of_ge x c Hx) as He.
    pose proof (cursor_after_ge chans (end_of x c) Hrest) as Hge.
    destruct Hin as [Hin|Hin].
    + inversion Hin; subst. clear Hin.
      destruct (unpack_built chan [] Hx Hlen) as (Hpos & _).
      unfold end_of in *. unfold start_of in *.
      destruct (Z.eqb_spec (typ_len chan) 0); [contradiction|].
      pose proof (aligned_bounds c).
      destruct (String.eqb (name chan) "timestamp"); lia.
    + destruct (IH (end_of x c) Hin Hlen) as (H1 & H2 & H3). lia.
Qed.

(** X9.  For channels as [__init__] builds them, the bytes of a record
    after the end of the last field do not matter: once the record is long
    enough, whatever follows leaves the result of [decorate] unchanged. *)
Theorem decorate_ignores_trailing (F : FloatOfStr) (self : IioInfo)
    (data rest : list byte) :
  Forall built (channel self) ->
  bytes_needed self <= Z.of_nat (List.length data) ->
  decorate self (data ++ rest) = decorate self data.
Proof.
  intros Hb Hn. rewrite !decorate_layout. apply map_result_ext.
  intros [[chan first] last] Hin. apply decode_field_slice. intros Hlen.
  assert (Hb' : Forall built (sorted IioChannel_lt (channel self))).
  { eapply Permutation_Forall; [|exact Hb]. apply Permutation_sym, sorted_perm. }
  destruct (span_bounds _ 0 chan first last Hb' Hin Hlen) as (H1 & H2 & H3).
  unfold bytes_needed in Hn. apply slice_app; lia.
Qed.

(** One 8-bit channel: the byte 5 alone, and followed by the rest of an
    8-byte chunk. *)
Lemma decorate_ignores_trailing_witness :
  decorate one_u8 ([x05] ++ [x01; x02; x03; x04; x05; x06; x07])
  = decorate one_u8 [x05].
Proof.
  apply (decorate_ignores_trailing decimal_float one_u8).
  - repeat constructor.
  - vm_compute. discriminate.
Defined.

(** ** The layout *)

Lemma firstn_S_nth {A : Type} (l : list A) (i : nat) (x : A) :
  nth_error l i = Some x -> firstn (S i) l = firstn i l ++ [x].
Proof.
  revert i. induction l as [|y l IH]; intros [|i] Hn; try discriminate.
  - inversion Hn. reflexivity.
  - simpl in Hn. change (y :: firstn (S i) l = y :: (firstn i l ++ [x])).
    f_equal. exact (IH i Hn).
Qed.

Lemma built_firstn (chans : list IioChannel) (n : nat) :
  Forall built chans -> Forall built (firstn n chans).
Proof.
  intros Hb. revert n. induction Hb as [|x l Hx _ IH]; intros [|n]; simpl;
    constructor; auto.
Qed.

Lemma cursor_prefix_le (chans : list IioChannel) (c : Z) (a b : nat) :
  Forall built chans -> (a <= b)%nat ->
  cursor_after c (firstn a chans) <= cursor_after c (firstn b chans).
Proof.
  intros Hb. revert c a b. induction Hb as [|x l Hx Hl IH]; intros c a b Hab.
  - rewrite !firstn_nil. lia.
  - destruct a as [|a].
    + apply (cursor_after_ge (firstn b (x :: l)) c).
      apply built_firstn. now constructor.
    + destruct b as [|b]; [lia|]. cbn [firstn]. unfold cursor_after. simpl.
      apply IH. lia.
Qed.

(** X11.  For channels as [__init__] builds them, the spans of the channels
    of non-zero length do not overlap and follow the order of the layout:
    each is non-empty, starts at 0 or later, and ends where a later one
    starts or before. *)
Theorem layout_spans_disjoint (self : IioInfo) (i j : nat)
    (chan chan' : IioChannel) (first last first' last' : Z) :
  Forall built (channel self) ->
  (i < j)%nat ->
  nth_error (layout self) i = Some (chan, first, last) ->
  nth_error (layout self) j = Some (chan', first', last') ->
  typ_len chan <> 0 ->
  typ_len chan' <> 0 ->
  0 <= first /\ first < last /\ last <= first' /\ first' < last'.
Proof.
  unfold layout. intros Hb Hij Hi Hj Hlen Hlen'.
  assert (Hb' : Forall built (sorted IioChannel_lt (channel self))).
  { eapply Permutation_Forall; [|exact Hb]. apply Permutation_sym, sorted_perm. }
  destruct (span_bounds _ 0 chan first last Hb' (nth_error_In _ _ Hi) Hlen)
    as (H1 & H2 & _).
  destruct (span_bounds _ 0 chan' first' last' Hb' (nth_error_In _ _ Hj) Hlen')
    as (_ & H2' & _).
  destruct (layout_from_nth _ _ _ _ _ _ Hi) as (Hchan & _ & Hlast).
  destruct (layout_from_nth _ _ _ _ _ _ Hj) as (_ & Hfirst' & _).
  pose proof (cursor_prefix_le _ 0 (S i) j Hb' Hij) as Hle.
  rewrite (firstn_S_nth _ _ _ Hchan), cursor_after_app in Hle.
  unfold cursor_after at 1 in Hle. simpl in Hle. rewrite <- Hlast in Hle.
  assert (Hs : cursor_after 0 (firstn j (sorted IioChannel_lt (channel self)))
               <= first').
  { rewrite Hfirst'. unfold start_of.
    pose proof (aligned_bounds
                  (cursor_after 0 (firstn j (sorted IioChannel_lt (channel self))))).
    destruct (String.eqb _ _); lia. }
  lia.
Qed.

(** [accel_x] and the timestamp. *)
Lemma layout_spans_disjoint_witness :
  0 <= 0 /\ 0 < 2 /\ 2 <= 8 /\ 8 < 16.
Proof.
  apply (layout_spans_disjoint accel_and_timestamp 0 1 accel_x timestamp 0 2 8 16).
  - repeat constructor.
  - lia.
  - reflexivity.
  - reflexivity.
  - vm_compute. discriminate.
  - vm_compute. discriminate.
Defined.

(** ** The chunk size *)

Lemma sum_nonneg (l : list Z) :
  Forall (fun z => 0 <= z) l ->
  0 <= Py.sum l /\ (Py.sum l = 0 <-> Forall (fun z => z = 0) l).
Proof.
  induction 1 as [|z l Hz _ [IH1 IH2]].
  - split; [now unfold Py.sum | split; [constructor | reflexivity]].
  - rewrite sum_cons. split; [lia|]. split.
    + intros Hs. constructor; [lia|]. apply IH2. lia.
    + intros Hall. inversion Hall; subst. apply IH2 in H2. lia.
Qed.

(** X12.  For channels as [__init__] builds them, [get_chunk_size] returns
    a multiple of 8 that is at least the sum of the lengths and less than 8
    above it; it is 0 exactly when every channel has length zero. *)
Theorem chunk_size_zero_iff (self : IioInfo) :
  Forall built (channel self) ->
  exists total,
    get_chunk_size self = Ok total /\
    (8 | total) /\
    Py.sum (map typ_len (channel self)) <= total
    < Py.sum (map typ_len (channel self)) + 8 /\
    (total = 0 <-> Forall (fun chan => typ_len chan = 0) (channel self)).
Proof.
  intros Hb. exists (aligned (Py.sum (map typ_len (channel self)))).
  split; [reflexivity|].
  split; [apply Z.mod_divide; [lia | apply aligned_mod]|].
  pose proof (aligned_bounds (Py.sum (map typ_len (channel self)))) as Hbd.
  split; [exact Hbd|].
  assert (Hnn : Forall (fun z => 0 <= z) (map typ_len (channel self))).
  { apply Forall_map. eapply Forall_impl; [|exact Hb].
    intros chan. apply built_nonneg. }
  destruct (sum_nonneg _ Hnn) as [H0 Hiff].
  rewrite Forall_map in Hiff. rewrite <- Hiff. split.
  - lia.
  - intros Hs. rewrite Hs. reflexivity.
Qed.

(** A device whose only channel has 12 bits. *)
Lemma chunk_size_zero_iff_witness :
  exists total,
    get_chunk_size (device [temp]) = Ok total /\
    (8 | total) /\
    Py.sum (map typ_len (channel (device [temp]))) <= total
    < Py.sum (map typ_len (channel (device [temp]))) + 8 /\
    (total = 0 <-> Forall (fun chan => typ_len chan = 0) (channel (device [temp]))).
Proof.
  apply (chunk_size_zero_iff (device [temp])). repeat constructor.
Defined.

(** X13.  When no channel is named [timestamp], or an 8-byte timestamp is
    the last channel of the layout, every chunk of the size
    [get_chunk_size] returns decodes: [decorate] returns one value for
    every channel (the channels being as [__init__] builds them, with
    offsets and scales that [float()] accepts). *)
Theorem full_chunk_decodes (F : FloatOfStr) (self : IioInfo) (data : list byte)
    (total : Z) :
  Forall built (channel self) ->
  Forall calibrated (channel self) ->
  Forall (fun chan => name chan <> "timestamp") (channel self) \/
  (exists p ts,
      sorted IioChannel_lt (channel self) = p ++ [ts] /\
      Forall (fun chan => name chan <> "timestamp") p /\
      name ts = "timestamp" /\ typ_len ts = 8) ->
  get_chunk_size self = Ok total ->
  Z.of_nat (List.length data) = total ->
  exists vals,
    decorate self data = Ok vals /\
    List.length vals = List.length (channel self).
Proof.
  intros Hb Hcal Hshape Hsize Hlen.
  assert (Htotal : total = aligned (bytes_needed self)).
  { destruct Hshape as [Hplain|(p & ts & Hs & Hp & Hname & Hts)].
    - rewrite (chunk_size_plain self Hplain) in Hsize. now inversion Hsize.
    - rewrite (chunk_size_timestamp_last self p ts Hs Hp Hname Hts) in Hsize.
      now inversion Hsize. }
  pose proof (aligned_bounds (bytes_needed self)) as Hbd.
  pose proof (sorted_perm _ IioChannel_lt (channel self)) as Hperm.
  apply Permutation_sym in Hperm.
  pose proof (Permutation_Forall Hperm Hb) as Hb'.
  pose proof (Permutation_Forall Hperm Hcal) as Hcal'.
  destruct (fields_decode data _ 0 Hb' Hcal' ltac:(lia)) as [Hok _].
  rewrite decorate_layout. unfold layout.
  destruct Hok as [vals Hvals]; [unfold bytes_needed in *; lia|].
  exists vals. split; [exact Hvals|].
  rewrite (map_result_length _ _ _ Hvals), layout_from_length.
  symmetry. now apply Permutation_length.
Qed.

(** [accel_x] and the timestamp on a chunk of 16 bytes. *)
Lemma full_chunk_decodes_witness :
  exists vals,
    decorate accel_and_timestamp (repeat x01 16) = Ok vals /\
    List.length vals = List.length (channel accel_and_timestamp).
Proof.
  apply (full_chunk_decodes decimal_float accel_and_timestamp (repeat x01 16) 16).
  - repeat constructor.
  - repeat constructor; eexists; reflexivity.
  - right. exists [accel_x], timestamp. split; [reflexivity|].
    split; [|split; reflexivity].
    constructor; [|constructor]. vm_compute. discriminate.
  - reflexivity.
  - reflexivity.
Defined.

(** ** The order of the channels and of the directory listing *)

Lemma string_ltb_trans (a b c : string) :
  String.ltb a b = true -> String.ltb b c = true -> String.ltb a c = true.
Proof.
  unfold String.ltb. intros Hab Hbc.
  destruct (String.compare a b) eqn:Cab; try discriminate.
  destruct (String.compare b c) eqn:Cbc; try discriminate.
  destruct (string_compare_cotrans a c b Cab) as [Hac|Hcb]; [now rewrite Hac|].
  rewrite String.compare_antisym, Cbc in Hcb. discriminate.
Qed.

(** X6.  [__lt__] and [__eq__] order the channels by their index lines:
    of [a < b], [a == b] and [b < a] exactly one holds, [a == b] holds
    exactly when the index lines are equal, and [<] is transitive. *)
Theorem channel_order_total (a b c : IioChannel) :
  (IioChannel_lt a b = true /\ IioChannel_eq a b = false /\ IioChannel_lt b a = false
   \/ IioChannel_lt a b = false /\ IioChannel_eq a b = true /\ IioChannel_lt b a = false
   \/ IioChannel_lt a b = false /\ IioChannel_eq a b = false /\ IioChannel_lt b a = true) /\
  (IioChannel_eq a b = true <-> index a = index b) /\
  implb (IioChannel_lt a b && IioChannel_lt b c) (IioChannel_lt a c) = true.
Proof.
  split; [|split].
  - unfold IioChannel_lt, IioChannel_eq, String.ltb.
    rewrite (String.compare_antisym (index b) (index a)).
    destruct (String.compare (index a) (index b)) eqn:Hc; simpl.
    + apply String.compare_eq_iff in Hc. rewrite Hc, String.eqb_refl. tauto.
    + assert (Hne : String.eqb (index a) (index b) = false).
      { apply String.eqb_neq. intros Heq. rewrite Heq in Hc.
        pose proof (string_ltb_irrefl (index b)) as Hi.
        unfold String.ltb in Hi. rewrite Hc in Hi. discriminate. }
      rewrite Hne. tauto.
    + assert (Hne : String.eqb (index a) (index b) = false).
      { apply String.eqb_neq. intros Heq. rewrite Heq in Hc.
        pose proof (String.compare_antisym (index b) (index b)) as Ha.
        rewrite Hc in Ha. discriminate. }
      rewrite Hne. tauto.
  - apply String.eqb_eq.
  - unfold IioChannel_lt.
    destruct (String.ltb (index a) (index b)) eqn:Hab; [|reflexivity].
    destruct (String.ltb (index b) (index c)) eqn:Hbc; [|reflexivity].
    simpl. now rewrite (string_ltb_trans _ _ _ Hab Hbc).
Qed.

Lemma filter_perm {A : Type} (f : A -> bool) (l l' : list A) :
  Permutation l l' -> Permutation (filter f l) (filter f l').
Proof.
  induction 1 as [|x l l' _ IH|x y l|l l' l'' _ IH1 _ IH2]; simpl.
  - constructor.
  - destruct (f x); [now constructor | exact IH].
  - destruct (f x), (f y); try apply Permutation_refl. apply perm_swap.
  - now apply Permutation_trans with (filter f l').
Qed.

Lemma filter_index_short (k : string) (l : list IioChannel) :
  NoDup (map index l) -> (List.length (filter (has_index k) l) <= 1)%nat.
Proof.
  induction l as [|x l IH]; simpl; intros Hnd; [lia|].
  inversion Hnd as [|? ? Hnotin Hnd']; subst. specialize (IH Hnd').
  destruct (has_index k x) eqn:Hx; [|exact IH]. simpl.
  destruct (filter (has_index k) l) as [|y rest] eqn:Hf; [simpl; lia|].
  exfalso. apply Hnotin.
  assert (Hy : In y (filter (has_index k) l)) by (rewrite Hf; now left).
  apply filter_In in Hy. destruct Hy as [Hy1 Hy2].
  unfold has_index in Hx, Hy2. apply String.eqb_eq in Hx, Hy2.
  rewrite Hx, <- Hy2. now apply in_map.
Qed.

Lemma filter_index_perm (k : string) (l l' : list IioChannel) :
  NoDup (map index l) -> Permutation l l' ->
  filter (has_index k) l = filter (has_index k) l'.
Proof.
  intros Hnd Hperm.
  pose proof (filter_index_short k l Hnd) as Hshort.
  pose proof (filter_perm (has_index k) l l' Hperm) as Hp.
  destruct (filter (has_index k) l) as [|x [|y rest]].
  - apply Permutation_nil in Hp. now rewrite Hp.
  - apply Permutation_length_1_inv in Hp. now rewrite Hp.
  - simpl in Hshort. lia.
Qed.

(** X14.  When no two channels share an index line, the order in which
    [os.listdir] lists the scan elements does not matter: two devices whose
    channel lists are permutations of each other have the same layout, the
    same chunk size and the same result of [decorate]. *)
Theorem listing_order_irrelevant (F : FloatOfStr) (a b : IioInfo)
    (data : list byte) :
  Permutation (channel a) (channel b) ->
  NoDup (map index (channel a)) ->
  layout a = layout b /\
  get_chunk_size a = get_chunk_size b /\
  decorate a data = decorate b data.
Proof.
  intros Hperm Hnd.
  assert (Hs : sorted IioChannel_lt (channel a) = sorted IioChannel_lt (channel b)).
  { apply sorted_channels_unique.
    - apply sorted_sorted. exact IioChannel_lt_asym.
    - intros k. rewrite sorted_filter by (intros x y; apply IioChannel_lt_index).
      now apply filter_index_perm. }
  split; [|split].
  - unfold layout. now rewrite Hs.
  - unfold get_chunk_size. f_equal. now apply sum_perm, Permutation_map.
  - rewrite !decorate_layout. unfold layout. now rewrite Hs.
Qed.

(** The timestamp listed before [accel_x]. *)
Lemma listing_order_irrelevant_witness :
  layout (device [timestamp; accel_x]) = layout (device [accel_x; timestamp]) /\
  get_chunk_size (device [timestamp; accel_x])
  = get_chunk_size (device [accel_x; timestamp]) /\
  decorate (device [timestamp; accel_x]) (repeat x01 16)
  = decorate (device [accel_x; timestamp]) (repeat x01 16).
Proof.
  apply (listing_order_irrelevant decimal_float
           (device [timestamp; accel_x]) (device [accel_x; timestamp])).
  - apply perm_swap.
  - repeat constructor; simpl; intuition discriminate.
Defined.

(** ** The token of a type string *)

Lemma length_list_ascii (s : string) :
  List.length (list_ascii_of_string s) = String.length s.
Proof. induction s as [|c s IH]; simpl; [reflexivity | now rewrite IH]. Qed.

Lemma list_ascii_app (a b : string) :
  list_ascii_of_string (a ++ b)
  = list_ascii_of_string a ++ list_ascii_of_string b.
Proof. induction a as [|c a IH]; simpl; [reflexivity | now rewrite IH]. Qed.

Lemma string_app_assoc (a b c : string) : ((a ++ b) ++ c = a ++ b ++ c)%string.
Proof. induction a as [|x a IH]; simpl; [reflexivity | now rewrite IH]. Qed.

Lemma string_length_app (a b : string) :
  String.length (a ++ b) = (String.length a + String.length b)%nat.
Proof. induction a as [|c a IH]; simpl; [reflexivity | now rewrite IH]. Qed.

Lemma slice_middle {A : Type} (a b c : list A) :
  Py.slice (a ++ b ++ c) (Z.of_nat (List.length a))
           (Z.of_nat (List.length a) + Z.of_nat (List.length b)) = b.
Proof.
  unfold Py.slice, Py.adjust. rewrite !length_app.
  assert (H1 : (Z.of_nat (List.length a) <? 0) = false) by (apply Z.ltb_ge; lia).
  assert (H2 : (Z.of_nat (List.length a) + Z.of_nat (List.length b) <? 0) = false)
    by (apply Z.ltb_ge; lia).
  rewrite !H1, !H2.
  assert (H3 : (Z.of_nat (List.length a + (List.length b + List.length c))
                <? Z.of_nat (List.length a)) = false) by (apply Z.ltb_ge; lia).
  assert (H4 : (Z.of_nat (List.length a + (List.length b + List.length c))
                <? Z.of_nat (List.length a) + Z.of_nat (List.length b)) = false)
    by (apply Z.ltb_ge; lia).
  rewrite H3, H4, Nat2Z.id.
  replace (Z.to_nat (Z.of_nat (List.length a) + Z.of_nat (List.length b)
                     - Z.of_nat (List.length a))) with (List.length b) by lia.
  rewrite skipn_app, skipn_all, Nat.sub_diag. simpl.
  rewrite firstn_app, firstn_all, Nat.sub_diag. simpl. apply app_nil_r.
Qed.

Lemma substr_middle (a b c : string) :
  Py.substr (a ++ b ++ c) (Z.of_nat (String.length a))
            (Z.of_nat (String.length a) + Z.of_nat (String.length b)) = b.
Proof.
  unfold Py.substr. rewrite !list_ascii_app, <- !length_list_ascii.
  rewrite slice_middle. apply string_of_list_ascii_of_string.
Qed.

(** A bound of [-1] stands for the last position. *)
Lemma adjust_last (n : Z) : 1 <= n -> Py.adjust n (-1) = Py.adjust n (n - 1).
Proof.
  intros Hn. unfold Py.adjust. change (-1 <? 0) with true. cbv iota.
  assert (H1 : (-1 + n <? 0) = false) by (apply Z.ltb_ge; lia).
  assert (H2 : (n <? -1 + n) = false) by (apply Z.ltb_ge; lia).
  assert (H3 : (n - 1 <? 0) = false) by (apply Z.ltb_ge; lia).
  assert (H4 : (n <? n - 1) = false) by (apply Z.ltb_ge; lia).
  rewrite H1, H2, !H3, H4. lia.
Qed.

Lemma slice_to_last {A : Type} (l : list A) (first : Z) :
  l <> [] ->
  Py.slice l first (-1) = Py.slice l first (Z.of_nat (List.length l) - 1).
Proof.
  intros Hl. unfold Py.slice. rewrite adjust_last; [reflexivity|].
  destruct l; [contradiction | simpl List.length; lia].
Qed.

Lemma find_at_app (c : ascii) (e s : string) (i : Z) :
  0 <= i -> Py.find_at c e i = -1 ->
  Py.find_at c (e ++ s) i = Py.find_at c s (i + Z.of_nat (String.length e)).
Proof.
  revert i. induction e as [|x e IH]; intros i Hi; simpl.
  - intros _. now rewrite Z.add_0_r.
  - destruct (Ascii.eqb x c); [lia|]. intros He.
    rewrite (IH (i + 1) ltac:(lia) He). f_equal. lia.
Qed.

Lemma find_at_absent (c : ascii) (s : string) (i j : Z) :
  0 <= i -> Py.find_at c s i = -1 -> Py.find_at c s j = -1.
Proof.
  revert i j. induction s as [|x s IH]; intros i j Hi; simpl; [trivial|].
  destruct (Ascii.eqb x c); [lia|]. intros Hs. exact (IH (i + 1) (j + 1) ltac:(lia) Hs).
Qed.

Lemma find_at_here (c : ascii) (s : string) (i : Z) :
  Py.find_at c (String c s) i = i.
Proof. simpl. now rewrite Ascii.eqb_refl. Qed.

Lemma find_at_skip (c x : ascii) (s : string) (i : Z) :
  x <> c -> Py.find_at c (String x s) i = Py.find_at c s (i + 1).
Proof. intros Hx. simpl. apply Ascii.eqb_neq in Hx. now rewrite Hx. Qed.

Lemma startswith_be_app (e s : string) :
  PyStr.startswith (e ++ String ":" s) "be" = PyStr.startswith e "be".
Proof.
  unfold PyStr.startswith.
  destruct e as [|x [|y e]]; cbn [String.prefix String.append].
  - destruct (ascii_dec "b" ":"); [discriminate | reflexivity].
  - destruct (ascii_dec "b" x); [|reflexivity].
    destruct (ascii_dec "e" ":"); [discriminate | reflexivity].
  - destruct (ascii_dec "b" x); [|reflexivity].
    destruct (ascii_dec "e" y); [|reflexivity].
    now destruct e.
Qed.

Lemma substr_0 (s : string) (k : nat) :
  Py.substr s 0 (Z.of_nat k) = String.substring 0 k s.
Proof.
  unfold Py.substr, Py.slice, Py.adjust. rewrite length_list_ascii.
  change (0 <? 0) with false. cbv iota.
  assert (H0 : (Z.of_nat (String.length s) <? 0) = false) by (apply Z.ltb_ge; lia).
  assert (H1 : (Z.of_nat k <? 0) = false) by (apply Z.ltb_ge; lia).
  rewrite H0, H1. simpl skipn.
  assert (Hf : string_of_list_ascii
                 (firstn (Nat.min k (String.length s)) (list_ascii_of_string s))
               = String.substring 0 k s).
  { clear. revert k. induction s as [|c s IH]; intros k; simpl.
    - rewrite firstn_nil. now destruct k.
    - destruct k as [|k]; [reflexivity|]. simpl. f_equal. apply IH. }
  rewrite <- Hf. f_equal. f_equal. rewrite ?H1.
  change (0 <? 0) with false. cbv iota.
  destruct (Z.ltb_spec (Z.of_nat (String.length s)) (Z.of_nat k)); lia.
Qed.

(** The format and the length come from the entry of the token, and the
    byte order from the first two characters. *)
Lemma type_to_unpack_valtyp (typ : string) :
  type_to_unpack (Some typ)
  = Ok (((if PyStr.startswith typ "be" then ">" else "<")
         ++ fst (Py.dict_get inttypes (valtyp_of typ) ("x", 0)))%string,
        snd (Py.dict_get inttypes (valtyp_of typ) ("x", 0))).
Proof.
  unfold type_to_unpack.
  assert (Hbe : String.eqb (Py.substr typ 0 2) "be" = PyStr.startswith typ "be").
  { unfold PyStr.startswith. change 2 with (Z.of_nat 2). rewrite substr_0.
    destruct (String.prefix "be" typ) eqn:Hp.
    - apply String.eqb_eq. now apply (proj1 (String.prefix_correct "be" typ)).
    - apply String.eqb_neq. intros Heq.
      apply (proj2 (String.prefix_correct "be" typ)) in Heq. congruence. }
  rewrite Hbe. now destruct (Py.dict_get inttypes (valtyp_of typ) ("x", 0)).
Qed.

(** X3.  In a type string of the form [endian:token/rest], the endian part
    holding no [":"] and no ["/"] and the token no ["/"], the token is what
    is looked up in [inttypes], and the byte order is big-endian exactly
    when the endian part starts with [be]. *)
Theorem type_token_extracted (e tok rest : string) :
  Py.find e ":" = -1 ->
  Py.find e "/" = -1 ->
  Py.find tok "/" = -1 ->
  valtyp_of (e ++ ":" ++ tok ++ "/" ++ rest) = tok /\
  type_to_unpack (Some (e ++ ":" ++ tok ++ "/" ++ rest)%string)
  = Ok (((if PyStr.startswith e "be" then ">" else "<")
         ++ fst (Py.dict_get inttypes tok ("x", 0)))%string,
        snd (Py.dict_get inttypes tok ("x", 0))).
Proof.
  intros Hcolon Hslash Htok.
  assert (Hv : valtyp_of (e ++ ":" ++ tok ++ "/" ++ rest) = tok).
  { unfold valtyp_of, Py.find.
    change (":" ++ tok ++ "/" ++ rest)%string
      with (String ":" (tok ++ String "/" rest)).
    rewrite (find_at_app ":" e _ 0 ltac:(lia) Hcolon), find_at_here.
    rewrite (find_at_app "/" e _ 0 ltac:(lia) Hslash).
    rewrite find_at_skip by discriminate.
    rewrite (find_at_app "/" tok _ (0 + Z.of_nat (String.length e) + 1)
               ltac:(lia) (find_at_absent "/" tok 0 _ ltac:(lia) Htok)).
    rewrite find_at_here.
    change (e ++ String ":" (tok ++ String "/" rest))%string
      with (e ++ ":" ++ tok ++ String "/" rest)%string.
    rewrite <- (string_app_assoc e ":").
    replace (0 + Z.of_nat (String.length e) + 1)
      with (Z.of_nat (String.length (e ++ ":")%string))
      by (rewrite string_length_app; simpl; lia).
    apply substr_middle. }
  split; [exact Hv|].
  rewrite type_to_unpack_valtyp, Hv.
  change (":" ++ tok ++ "/" ++ rest)%string
    with (String ":" (tok ++ "/" ++ rest)).
  now rewrite startswith_be_app.
Qed.

(** The line of a big-endian unsigned 32-bit element. *)
Lemma type_token_extracted_witness :
  valtyp_of ("be" ++ ":" ++ "u32" ++ "/" ++ Decimal.line "32>>0") = "u32" /\
  type_to_unpack (Some ("be" ++ ":" ++ "u32" ++ "/" ++ Decimal.line "32>>0")%string)
  = Ok (((if PyStr.startswith "be" "be" then ">" else "<")
         ++ fst (Py.dict_get inttypes "u32" ("x", 0)))%string,
        snd (Py.dict_get inttypes "u32" ("x", 0))).
Proof.
  apply (type_token_extracted "be" "u32" (Decimal.line "32>>0")); reflexivity.
Defined.

(** X4.  In a type string with no ["/"], the token ends one character
    before the end of the string: after [endian:] the last character is
    dropped, whatever it is.  A line [le:s16] followed by its newline is read
    as [s16]; without the newline it would be read as [s1]. *)
Theorem type_last_character_dropped (e t : string) (c : ascii) :
  Py.find e ":" = -1 ->
  Py.find e "/" = -1 ->
  Py.find t "/" = -1 ->
  c <> "/"%char ->
  valtyp_of (e ++ ":" ++ t ++ String c "") = t /\
  type_to_unpack (Some (e ++ ":" ++ t ++ String c "")%string)
  = Ok (((if PyStr.startswith e "be" then ">" else "<")
         ++ fst (Py.dict_get inttypes t ("x", 0)))%string,
        snd (Py.dict_get inttypes t ("x", 0))).
Proof.
  intros Hcolon Hslash Ht Hc.
  assert (Hv : valtyp_of (e ++ ":" ++ t ++ String c "") = t).
  { unfold valtyp_of, Py.find.
    change (":" ++ t ++ String c "")%string with (String ":" (t ++ String c "")).
    rewrite (find_at_app ":" e _ 0 ltac:(lia) Hcolon), find_at_here.
    rewrite (find_at_app "/" e _ 0 ltac:(lia) Hslash).
    rewrite find_at_skip by discriminate.
    rewrite (find_at_app "/" t _ (0 + Z.of_nat (String.length e) + 1)
               ltac:(lia) (find_at_absent "/" t 0 _ ltac:(lia) Ht)).
    rewrite find_at_skip by exact Hc. cbn [Py.find_at].
    unfold Py.substr. rewrite slice_to_last.
    - change (e ++ String ":" (t ++ String c ""))%string
        with (e ++ ":" ++ t ++ String c "")%string.
      rewrite <- (string_app_assoc e ":").
      rewrite (list_ascii_app (e ++ ":")), (list_ascii_app t), !length_app.
      replace (0 + Z.of_nat (String.length e) + 1)
        with (Z.of_nat (List.length (list_ascii_of_string (e ++ ":"))))
        by (rewrite length_list_ascii, string_length_app; simpl; lia).
      replace (Z.of_nat
                 (List.length (list_ascii_of_string (e ++ ":"))
                  + (List.length (list_ascii_of_string t)
                     + List.length (list_ascii_of_string (String c "")))) - 1)
        with (Z.of_nat (List.length (list_ascii_of_string (e ++ ":")))
              + Z.of_nat (List.length (list_ascii_of_string t)))
        by (simpl; lia).
      rewrite slice_middle. apply string_of_list_ascii_of_string.
    - rewrite list_ascii_app. simpl. now destruct (list_ascii_of_string e). }
  split; [exact Hv|].
  rewrite type_to_unpack_valtyp, Hv.
  change (":" ++ t ++ String c "")%string with (String ":" (t ++ String c "")).
  now rewrite startswith_be_app.
Qed.

(** The line [le:s16] with its newline. *)
Lemma type_last_character_dropped_witness :
  valtyp_of ("le" ++ ":" ++ "s16" ++ String "010" "") = "s16" /\
  type_to_unpack (Some ("le" ++ ":" ++ "s16" ++ String "010" "")%string)
  = Ok (((if PyStr.startswith "le" "be" then ">" else "<")
         ++ fst (Py.dict_get inttypes "s16" ("x", 0)))%string,
        snd (Py.dict_get inttypes "s16" ("x", 0))).
Proof.
  apply (type_last_character_dropped "le" "s16" "010"); try reflexivity.
  discriminate.
Defined.

(** ** Formats, lengths and channels *)

(** X5.  The length [type_to_unpack] returns with a format is the number of
    bytes [struct.unpack] asks for with that format: for a length other
    than 0, unpacking succeeds, with one integer, exactly on buffers of that
    length, and raises [struct.error] on every other buffer. *)
Theorem format_size_agrees (typ fmt : string) (leng : Z) (buf : list byte) :
  type_to_unpack (Some typ) = Ok (fmt, leng) ->
  leng <> 0 ->
  In leng [1; 2; 4; 8] /\
  ((exists rawval, Struct.unpack fmt buf = Ok [rawval])
   <-> Z.of_nat (List.length buf) = leng) /\
  (Z.of_nat (List.length buf) <> leng -> Struct.unpack fmt buf = Raise StructError).
Proof.
  intros Ht Hlen.
  pose (chan := {| name := ""; direction := ""; enabled := None; index := "";
                   typ := Some typ; typ_str := fmt; typ_len := leng;
                   offset := PyInt 0; scale := PyInt 1 |}).
  destruct (unpack_built chan buf Ht Hlen) as (Hpos & Hok & Hbad).
  simpl in Hpos, Hok, Hbad. split; [|split; [split|exact Hbad]].
  - destruct (type_to_unpack_cases typ) as (order & char & leng' & Hu & _ & Hc).
    rewrite Hu in Ht. inversion Ht; subst.
    destruct Hc as [Hc|(_ & _ & Hc)]; [|contradiction].
    apply inttypes_lengths in Hc. simpl in Hc. simpl. intuition.
  - intros [rawval Hu].
    destruct (Z.eq_dec (Z.of_nat (List.length buf)) leng) as [Heq|Hne];
      [exact Heq|].
    rewrite (Hbad Hne) in Hu. discriminate.
  - exact Hok.
Qed.

(** A 32-bit type on four bytes. *)
Lemma format_size_agrees_witness :
  In 4 [1; 2; 4; 8] /\
  ((exists rawval, Struct.unpack ">I" [x00; x00; x01; x00] = Ok [rawval])
   <-> Z.of_nat (List.length [x00; x00; x01; x00]) = 4) /\
  (Z.of_nat (List.length [x00; x00; x01; x00]) <> 4 ->
   Struct.unpack ">I" [x00; x00; x01; x00] = Raise StructError).
Proof.
  apply (format_size_agrees "be:u32/32>>0" ">I" 4 [x00; x00; x01; x00]).
  - reflexivity.
  - discriminate.
Defined.

(** X15.  [IioChannel.__init__] raises [TypeError] when the type file
    could not be read and succeeds otherwise.  The channel it returns
    satisfies [built]: its format and length are those of its type, the
    length being 0, 1, 2, 4 or 8; it keeps the name, the direction and the
    index it was given, and a missing offset or scale file gives the integer
    0 or 1. *)
Theorem init_establishes_invariants (dir nam : string) (en : option string)
    (idx t : string) (off sc : option string) :
  IioChannel_init dir nam en idx None off sc = Raise TypeError /\
  exists chan,
    IioChannel_init dir nam en idx (Some t) off sc = Ok chan /\
    built chan /\
    In (typ_len chan) [0; 1; 2; 4; 8] /\
    name chan = nam /\ direction chan = dir /\ index chan = idx /\
    offset chan = match off with None => PyInt 0 | Some s => PyStr s end /\
    scale chan = match sc with None => PyInt 1 | Some s => PyStr s end.
Proof.
  split; [reflexivity|]. unfold IioChannel_init.
  destruct (type_to_unpack_cases t) as (order & char & leng & Hu & _ & Hc).
  rewrite Hu. simpl. eexists. split; [reflexivity|]. unfold built. simpl.
  split; [exact Hu|]. split; [|repeat split].
  destruct Hc as [Hc|(_ & _ & Hc)]; [now apply inttypes_lengths in Hc|].
  subst. now left.
Qed.

(** ** Files and directories *)

Lemma firstn_substring (s : string) (k : nat) :
  string_of_list_ascii (firstn k (list_ascii_of_string s)) = String.substring 0 k s.
Proof.
  revert k. induction s as [|c s IH]; intros [|k]; simpl; try reflexivity.
  now rewrite IH.
Qed.

Lemma substring_prefix_iff (a b : string) :
  String.substring 0 (String.length a) b = a <-> exists rest, b = (a ++ rest)%string.
Proof.
  revert b. induction a as [|x a IH]; intros b; simpl.
  - split; [intros _; now exists b | intros _; now destruct b].
  - destruct b as [|y b]; simpl.
    + split; [discriminate | intros [rest Hr]; discriminate].
    + split.
      * intros Hs. inversion Hs; subst.
        destruct (proj1 (IH b) H1) as [rest Hr]. exists rest.
        rewrite H1. now rewrite Hr at 1.
      * intros [rest Hr]. inversion Hr; subst. f_equal.
        apply IH. now exists rest.
Qed.

Lemma match_file_content_text (fs : Os.filesystem) (filename content text : string) :
  Os.read_file fs filename = Some text ->
  match_file_content fs filename content = Os.Done (String.prefix content text).
Proof.
  intros Hr. unfold match_file_content, PyStr.read. rewrite Hr.
  assert (H0 : (Z.of_nat (String.length content) <? 0) = false)
    by (apply Z.ltb_ge; lia).
  rewrite H0, Nat2Z.id, firstn_substring. f_equal.
  destruct (String.prefix content text) eqn:Hp.
  - apply String.eqb_eq. now apply String.prefix_correct.
  - apply String.eqb_neq. intros Heq. apply String.prefix_correct in Heq.
    congruence.
Qed.

(** X16.  [match_file_content] is true exactly when the file begins with
    the content: it compares a prefix, not the whole file, so it also
    accepts a file whose text merely starts with the content.  A file that
    cannot be opened raises [IOError]. *)
Theorem match_file_content_prefix (fs : Os.filesystem)
    (filename content text : string) :
  Os.read_file fs filename = Some text ->
  (exists b, match_file_content fs filename content = Os.Done b) /\
  (match_file_content fs filename content = Os.Done true
   <-> exists rest, text = (content ++ rest)%string).
Proof.
  intros Hr. rewrite (match_file_content_text _ _ _ _ Hr).
  split; [now eexists|]. rewrite <- substring_prefix_iff, <- String.prefix_correct.
  split; [intros Hd; now inversion Hd | intros Hp; now rewrite Hp].
Qed.

(** The name file of a device [icm20602], asked for [icm2060]. *)
Lemma match_file_content_prefix_witness :
  (exists b,
      match_file_content
        (files_of [("/name", Decimal.line "icm20602")] "/" []) "/name" "icm2060"
      = Os.Done b) /\
  (match_file_content
     (files_of [("/name", Decimal.line "icm20602")] "/" []) "/name" "icm2060"
   = Os.Done true
   <-> exists rest, Decimal.line "icm20602" = ("icm2060" ++ rest)%string).
Proof.
  apply (match_file_content_prefix
           (files_of [("/name", Decimal.line "icm20602")] "/" [])
           "/name" "icm2060" (Decimal.line "icm20602")).
  reflexivity.
Defined.

Lemma first_substring (d initial : string) :
  PyStr.first d = Ok initial -> initial = String.substring 0 1 d.
Proof.
  destruct d as [|c s]; simpl; [discriminate|].
  intros Hi. inversion Hi. now destruct s.
Qed.

Lemma length_string_of_list (l : list ascii) :
  String.length (string_of_list_ascii l) = List.length l.
Proof. induction l as [|c l IH]; simpl; [reflexivity | now rewrite IH]. Qed.

Lemma adjust_bounds (n i : Z) :
  0 <= n ->
  Py.adjust n i = Z.max 0 (Z.min n (if i <? 0 then i + n else i)).
Proof.
  intros Hn. unfold Py.adjust.
  repeat match goal with
         | |- context [?a <? ?b] => destruct (Z.ltb_spec a b)
         end; lia.
Qed.

Lemma last_1_length (s : string) : (String.length (PyStr.last 1 s) <= 1)%nat.
Proof.
  unfold PyStr.last, Py.substr, Py.slice.
  rewrite length_string_of_list, length_list_ascii, length_firstn.
  rewrite !adjust_bounds by lia.
  change (- (1) <? 0) with true. cbv iota.
  destruct (Z.ltb_spec (Z.of_nat (String.length s)) 0); lia.
Qed.

Lemma find_devnum_in_spec (fs : Os.filesystem) (name : string)
    (dirs nums : list string) :
  find_devnum_in fs name dirs = Os.Done nums ->
  nums = map (PyStr.last 1) (filter (is_device fs name) dirs).
Proof.
  revert nums. induction dirs as [|d dirs IH]; intros nums; cbn [find_devnum_in].
  - intros Hd. now inversion Hd.
  - destruct (PyStr.first d) as [initial|e] eqn:Hfirst; cbn [Os.lift Os.bind];
      [|discriminate].
    apply first_substring in Hfirst. cbn [filter].
    assert (Hdev : is_device fs name d
                   = (String.eqb initial "i"
                      && match Os.read_file fs (Os.join SYSFS_BASEPATH [d; "name"]) with
                         | Some text => String.prefix name text
                         | None => false
                         end)%bool)
      by (unfold is_device; now rewrite <- Hfirst).
    rewrite Hdev. clear Hdev.
    destruct (String.eqb initial "i"); cbn [andb].
    + destruct (Os.read_file fs (Os.join SYSFS_BASEPATH [d; "name"]))
        as [text|] eqn:Hr.
      * rewrite (match_file_content_text _ _ _ _ Hr). cbn [Os.bind].
        destruct (find_devnum_in fs name dirs) as [nums'|r]; cbn [Os.bind];
          [|discriminate].
        intros Hd. pose proof (IH nums' eq_refl) as Hn.
        destruct (String.prefix name text); cbn [map]; rewrite <- Hn;
          now inversion Hd.
      * unfold match_file_content. rewrite Hr. discriminate.
    + cbn [Os.bind].
      destruct (find_devnum_in fs name dirs) as [nums'|r]; cbn [Os.bind];
        [|discriminate].
      intros Hd. exact (IH nums Hd).
Qed.

(** X17.  When [find_devnum] returns, it returns, in the order of the
    listing, the last character of every listed directory whose name starts
    with [i] and whose [name] file begins with the name asked for; every
    number it returns has at most one character. *)
Theorem find_devnum_results (fs : Os.filesystem) (name : string)
    (dirs nums : list string) :
  Os.listdir fs SYSFS_BASEPATH = Some dirs ->
  find_devnum fs name = Os.Done nums ->
  nums = map (PyStr.last 1) (filter (is_device fs name) dirs) /\
  Forall (fun num => (String.length num <= 1)%nat) nums.
Proof.
  unfold find_devnum. intros Hl. rewrite Hl. intros Hd.
  apply find_devnum_in_spec in Hd. split; [exact Hd|].
  rewrite Hd. apply Forall_map, Forall_forall. intros d _. apply last_1_length.
Qed.

(** The motion sensor is device 12, and [find_devnum] returns [2]. *)
Lemma find_devnum_results_witness :
  ["2"] = map (PyStr.last 1)
              (filter (is_device two_devices "icm20602")
                      ["iio:device0"; "trigger0"; "iio:device12"]) /\
  Forall (fun num => (String.length num <= 1)%nat) ["2"].
Proof.
  apply (find_devnum_results two_devices "icm20602"
           ["iio:device0"; "trigger0"; "iio:device12"] ["2"]).
  - reflexivity.
  - vm_compute. reflexivity.
Defined.

Lemma find_devnum_in_missing (fs : Os.filesystem) (name d : string)
    (dirs : list string) :
  Forall (fun x => x <> "") dirs ->
  In d dirs ->
  PyStr.first d = Ok "i" ->
  Os.read_file fs (Os.join SYSFS_BASEPATH [d; "name"]) = None ->
  find_devnum_in fs name dirs = Os.Failed Os.IOError.
Proof.
  intros Hne Hin Hfirst Hnone.
  induction Hne as [|x dirs Hx _ IH]; [contradiction|].
  cbn [find_devnum_in].
  destruct x as [|c s]; [contradiction|]. cbn [PyStr.first Os.lift Os.bind].
  destruct (String.eqb (String c "") "i") eqn:Hi.
  - destruct (Os.read_file fs (Os.join SYSFS_BASEPATH [String c s; "name"]))
      as [text|] eqn:Hr.
    + rewrite (match_file_content_text _ _ _ _ Hr). cbn [Os.bind].
      destruct Hin as [Heq|Hin]; [subst d; congruence|].
      now rewrite (IH Hin).
    + unfold match_file_content. now rewrite Hr.
  - cbn [Os.bind]. destruct Hin as [Heq|Hin].
    + subst d. simpl in Hfirst. inversion Hfirst as [Hc]. rewrite Hc in Hi.
      discriminate.
    + now rewrite (IH Hin).
Qed.

(** X18.  A listed directory whose name starts with [i] and that has no
    readable [name] file makes [find_devnum] raise [IOError], whatever the
    other directories hold and whatever name is asked for. *)
Theorem find_devnum_needs_name_files (fs : Os.filesystem) (name d : string)
    (dirs : list string) :
  Os.listdir fs SYSFS_BASEPATH = Some dirs ->
  Forall (fun x => x <> "") dirs ->
  In d dirs ->
  PyStr.first d = Ok "i" ->
  Os.read_file fs (Os.join SYSFS_BASEPATH [d; "name"]) = None ->
  find_devnum fs name = Os.Failed Os.IOError.
Proof.
  unfold find_devnum. intros Hl. rewrite Hl. apply find_devnum_in_missing.
Qed.

(** The directory of the sysfs trigger beside the motion sensor. *)
Lemma find_devnum_needs_name_files_witness :
  find_devnum with_sysfs_trigger "icm20602" = Os.Failed Os.IOError.
Proof.
  apply (find_devnum_needs_name_files with_sysfs_trigger "icm20602"
           "iio_sysfs_trigger" ["iio:device0"; "iio_sysfs_trigger"]).
  - reflexivity.
  - repeat constructor; discriminate.
  - right. now left.
  - reflexivity.
  - reflexivity.
Defined.

Lemma string_app_nil (s : string) : (s ++ "")%string = s.
Proof. induction s as [|c s IH]; simpl; [reflexivity | now rewrite IH]. Qed.

Lemma last_1_snoc (s : string) (c : ascii) :
  PyStr.last 1 (s ++ String c "") = String c "".
Proof.
  unfold PyStr.last, Py.substr, Py.slice.
  rewrite length_list_ascii, string_length_app, !adjust_bounds by lia.
  change (- (1) <? 0) with true. cbv iota. simpl String.length.
  destruct (Z.ltb_spec (Z.of_nat (String.length s + 1)) 0); [lia|].
  replace (Z.to_nat (Z.max 0 (Z.min (Z.of_nat (String.length s + 1))
                                    (- (1) + Z.of_nat (String.length s + 1)))))
    with (List.length (list_ascii_of_string s))
    by (rewrite length_list_ascii; lia).
  replace (Z.to_nat _) with 1%nat by lia.
  rewrite list_ascii_app, skipn_app, skipn_all, Nat.sub_diag. reflexivity.
Qed.

Lemma last_1_device (n : string) :
  PyStr.last 1 ("iio:device" ++ n) = n <-> String.length n = 1%nat.
Proof.
  split.
  - intros Heq. pose proof (last_1_length ("iio:device" ++ n)) as Hle.
    rewrite Heq in Hle. destruct n as [|c [|c' n]]; simpl in *; try lia.
    vm_compute in Heq. discriminate.
  - intros Hlen. destruct n as [|c [|c' n]]; try discriminate.
    apply (last_1_snoc "iio:device" c).
Qed.

(** X20.  [find_devnum] keeps only the last character of a directory
    name.  For a listing with the one directory [iio:deviceN] whose [name]
    file begins with the name asked for, it returns that character, which
    is [N] exactly when [N] has one character: a device numbered 10 or
    above is reported under its last digit. *)
Theorem device_number_truncated (fs : Os.filesystem) (name n text : string) :
  Os.listdir fs SYSFS_BASEPATH = Some [("iio:device" ++ n)%string] ->
  Os.read_file fs (Os.join SYSFS_BASEPATH [("iio:device" ++ n)%string; "name"])
  = Some text ->
  String.prefix name text = true ->
  find_devnum fs name = Os.Done [PyStr.last 1 ("iio:device" ++ n)] /\
  (find_devnum fs name = Os.Done [n] <-> String.length n = 1%nat).
Proof.
  intros Hl Hr Hp.
  assert (Hfind : find_devnum fs name
                  = Os.Done [PyStr.last 1 ("iio:device" ++ n)]).
  { unfold find_devnum. rewrite Hl. cbn [find_devnum_in].
    change (PyStr.first ("iio:device" ++ n)) with (@Ok string "i").
    cbn [Os.lift Os.bind]. change (String.eqb "i" "i") with true. cbv iota.
    now rewrite (match_file_content_text _ _ _ _ Hr), Hp. }
  split; [exact Hfind|]. rewrite Hfind, <- last_1_device.
  split; [intros Hd; injection Hd as Hd; exact Hd | intros Heq; now rewrite Heq].
Qed.

(** Device 12 alone in the listing. *)
Lemma device_number_truncated_witness :
  find_devnum
    (files_of [("/sys/bus/iio/devices/iio:device12/name", Decimal.line "icm20602")]
              SYSFS_BASEPATH ["iio:device12"])
    "icm20602"
  = Os.Done [PyStr.last 1 ("iio:device" ++ "12")] /\
  (find_devnum
     (files_of [("/sys/bus/iio/devices/iio:device12/name", Decimal.line "icm20602")]
               SYSFS_BASEPATH ["iio:device12"])
     "icm20602"
   = Os.Done ["12"] <-> String.length "12" = 1%nat).
Proof.
  apply (device_number_truncated
           (files_of [("/sys/bus/iio/devices/iio:device12/name",
                       Decimal.line "icm20602")]
                     SYSFS_BASEPATH ["iio:device12"])
           "icm20602" "12" (Decimal.line "icm20602")).
  - reflexivity.
  - reflexivity.
  - reflexivity.
Defined.

Lemma endswith_snoc (s : string) (c x : ascii) :
  PyStr.endswith (s ++ String c "") (String x "") = Ascii.eqb c x.
Proof.
  unfold PyStr.endswith. rewrite string_length_app. simpl String.length.
  replace (1 <=? String.length s + 1)%nat with true
    by (symmetry; apply Nat.leb_le; lia).
  change (s ++ String c "")%string with (s ++ String c "" ++ "")%string.
  replace (Z.of_nat (String.length s + 1) - Z.of_nat 1)
    with (Z.of_nat (String.length s)) by lia.
  replace (Z.of_nat (String.length s + 1))
    with (Z.of_nat (String.length s) + Z.of_nat (String.length (String c "")))
    by (simpl; lia).
  rewrite substr_middle. simpl. now destruct (Ascii.eqb c x).
Qed.

Lemma join_step_dir (path b : string) :
  PyStr.startswith b "/" = false -> PyStr.endswith path "/" = true ->
  Os.join_step path b = (path ++ b)%string.
Proof.
  intros Hb Hp. unfold Os.join_step. rewrite Hb, Hp.
  now rewrite orb_true_r.
Qed.

Lemma join_step_file (path b : string) :
  PyStr.startswith b "/" = false -> path <> "" ->
  PyStr.endswith path "/" = false ->
  Os.join_step path b = (path ++ "/" ++ b)%string.
Proof.
  intros Hb Hne Hp. unfold Os.join_step. rewrite Hb, Hp.
  apply String.eqb_neq in Hne. now rewrite Hne.
Qed.

Lemma startswith_literal (c : ascii) (s : string) :
  c <> "/"%char -> PyStr.startswith (String c s) "/" = false.
Proof.
  intros Hc. unfold PyStr.startswith. cbn [String.prefix].
  destruct (ascii_dec "/" c); [congruence | reflexivity].
Qed.

(** X19.  When [find_devnum] finds a device, [IioInfo.__init__] takes the
    first number and builds its paths from it: [sysfs_path] is the base path
    followed by [iio:device] and the number, [scan_path] is [scan_elements]
    below it.  The number has at most one character. *)
Theorem device_paths (fs : Os.filesystem) (name num : string) (nums : list string) :
  find_devnum fs name = Os.Done (num :: nums) ->
  Py.find num "/" = -1 ->
  (String.length num <= 1)%nat /\
  IioInfo_paths fs name
  = Os.Done (num,
             (SYSFS_BASEPATH ++ "iio:device" ++ num)%string,
             (SYSFS_BASEPATH ++ "iio:device" ++ num ++ "/scan_elements")%string).
Proof.
  intros Hfind Hslash.
  assert (Hlen : (String.length num <= 1)%nat).
  { unfold find_devnum in Hfind.
    destruct (Os.listdir fs SYSFS_BASEPATH) as [dirs|]; [|discriminate].
    apply find_devnum_in_spec in Hfind.
    destruct (filter (is_device fs name) dirs) as [|d l]; [discriminate|].
    inversion Hfind. apply last_1_length. }
  split; [exact Hlen|].
  unfold IioInfo_paths. rewrite Hfind.
  cbn [Os.bind Os.lift Py.getitem nth_error]. unfold Os.join. cbn [fold_left].
  rewrite (join_step_dir SYSFS_BASEPATH)
    by (try reflexivity; apply startswith_literal; discriminate).
  rewrite join_step_file.
  - reflexivity.
  - reflexivity.
  - discriminate.
  - destruct num as [|c [|c' num]]; [reflexivity | | simpl in Hlen; lia].
    change (SYSFS_BASEPATH ++ "iio:device" ++ String c "")%string
      with ((SYSFS_BASEPATH ++ "iio:device") ++ String c "")%string.
    rewrite endswith_snoc. unfold Py.find in Hslash. simpl in Hslash.
    destruct (Ascii.eqb c "/"); [discriminate | reflexivity].
Qed.

(** The motion sensor is device 12; the paths name device 2. *)
Lemma device_paths_witness :
  (String.length "2" <= 1)%nat /\
  IioInfo_paths two_devices "icm20602"
  = Os.Done ("2",
             (SYSFS_BASEPATH ++ "iio:device" ++ "2")%string,
             (SYSFS_BASEPATH ++ "iio:device" ++ "2" ++ "/scan_elements")%string).
Proof.
  apply (device_paths two_devices "icm20602" "2" []).
  - vm_compute. reflexivity.
  - reflexivity.
Defined.

(** ** Lines *)

Lemma one_line_cons (c : ascii) (s : string) :
  one_line (String c s) -> c <> "010"%char /\ one_line s.
Proof.
  unfold one_line, Py.find. simpl.
  destruct (Ascii.eqb_spec c "010") as [Heq|Hne]; [discriminate|].
  intros Hs. split; [exact Hne|]. exact (find_at_absent _ _ 1 0 ltac:(lia) Hs).
Qed.

Lemma readline_line (line rest : string) :
  one_line line ->
  PyStr.readline (Decimal.line line ++ rest) = Decimal.line line.
Proof.
  unfold Decimal.line. induction line as [|c line IH]; intros Hl.
  - reflexivity.
  - apply one_line_cons in Hl. destruct Hl as [Hc Hl]. simpl.
    apply Ascii.eqb_neq in Hc. rewrite Hc. f_equal. exact (IH Hl).
Qed.

Lemma readline_whole (line : string) :
  one_line line -> PyStr.readline line = line.
Proof.
  induction line as [|c line IH]; intros Hl; [reflexivity|].
  apply one_line_cons in Hl. destruct Hl as [Hc Hl]. simpl.
  apply Ascii.eqb_neq in Hc. rewrite Hc. f_equal. exact (IH Hl).
Qed.

(** X21.  [read_one_line] returns the first line of the file with its
    newline and nothing of what follows; a file with no newline is returned
    whole. *)
Theorem read_one_line_first_line (fs : Os.filesystem)
    (filename line rest : string) :
  one_line line ->
  Os.read_file fs filename = Some (Decimal.line line ++ rest)%string ->
  read_one_line fs filename = Os.Done (Decimal.line line) /\
  PyStr.readline line = line.
Proof.
  intros Hl Hr. unfold read_one_line. rewrite Hr.
  split; [now rewrite readline_line | now apply readline_whole].
Qed.

(** A type file of two lines. *)
Lemma read_one_line_first_line_witness :
  read_one_line
    (files_of [("/type", (Decimal.line "le:s16/16>>0" ++ "more")%string)] "/" [])
    "/type"
  = Os.Done (Decimal.line "le:s16/16>>0") /\
  PyStr.readline "le:s16/16>>0" = "le:s16/16>>0".
Proof.
  apply (read_one_line_first_line
           (files_of [("/type", (Decimal.line "le:s16/16>>0" ++ "more")%string)]
                     "/" [])
           "/type" "le:s16/16>>0" "more").
  - reflexivity.
  - reflexivity.
Defined.

(** ** The names of the scan elements *)

Lemma split_nonempty (sep : ascii) (s : string) : PyStr.split sep s <> [].
Proof.
  destruct s as [|c s]; simpl; [discriminate|].
  destruct (Ascii.eqb c sep); [discriminate|].
  destruct (PyStr.split sep s); discriminate.
Qed.

Lemma find_cons_absent (sep c : ascii) (s : string) :
  Py.find (String c s) sep = -1 -> Ascii.eqb c sep = false /\ Py.find s sep = -1.
Proof.
  unfold Py.find. simpl. destruct (Ascii.eqb c sep); [discriminate|].
  intros Hs. split; [reflexivity|]. exact (find_at_absent _ _ 1 0 ltac:(lia) Hs).
Qed.

Lemma split_absent (sep : ascii) (s : string) :
  Py.find s sep = -1 -> PyStr.split sep s = [s].
Proof.
  induction s as [|c s IH]; intros Hs; [reflexivity|].
  apply find_cons_absent in Hs. destruct Hs as [Hc Hs].
  simpl. now rewrite Hc, (IH Hs).
Qed.

Lemma split_head (sep : ascii) (d rest : string) :
  Py.find d sep = -1 ->
  PyStr.split sep (d ++ String sep rest) = d :: PyStr.split sep rest.
Proof.
  induction d as [|c d IH]; intros Hd; simpl.
  - now rewrite Ascii.eqb_refl.
  - apply find_cons_absent in Hd. destruct Hd as [Hc Hd].
    now rewrite Hc, (IH Hd).
Qed.

Lemma split_snoc (sep : ascii) (s t : string) :
  Py.find t sep = -1 ->
  PyStr.split sep (s ++ String sep t) = PyStr.split sep s ++ [t].
Proof.
  intros Ht. induction s as [|c s IH]; simpl.
  - now rewrite Ascii.eqb_refl, (split_absent sep t Ht).
  - destruct (Ascii.eqb c sep); [now rewrite IH|].
    rewrite IH. pose proof (split_nonempty sep s) as Hne.
    now destruct (PyStr.split sep s).
Qed.

Lemma join_split (sep : ascii) (s : string) :
  PyStr.join (String sep "") (PyStr.split sep s) = s.
Proof.
  unfold PyStr.join. induction s as [|c s IH]; [reflexivity|].
  cbn [PyStr.split]. pose proof (split_nonempty sep s) as Hne.
  destruct (PyStr.split sep s) as [|piece pieces]; [contradiction|].
  destruct (Ascii.eqb_spec c sep) as [Heq|Hneq].
  - subst c. rewrite <- IH. reflexivity.
  - rewrite <- IH. now destruct pieces.
Qed.

Lemma last_suffix (s t : string) :
  t <> "" -> PyStr.last (Z.of_nat (String.length t)) (s ++ t) = t.
Proof.
  intros Ht. assert (Hlen : (1 <= String.length t)%nat)
    by (destruct t; [contradiction | simpl; lia]).
  unfold PyStr.last, Py.substr, Py.slice.
  rewrite length_list_ascii, string_length_app, !adjust_bounds by lia.
  destruct (Z.ltb_spec (- Z.of_nat (String.length t)) 0); [|lia].
  destruct (Z.ltb_spec (Z.of_nat (String.length s + String.length t)) 0); [lia|].
  replace (Z.to_nat (Z.max 0 (Z.min (Z.of_nat (String.length s + String.length t))
                     (- Z.of_nat (String.length t)
                      + Z.of_nat (String.length s + String.length t)))))
    with (List.length (list_ascii_of_string s))
    by (rewrite length_list_ascii; lia).
  replace (Z.to_nat _) with (List.length (list_ascii_of_string t))
    by (rewrite !length_list_ascii; lia).
  rewrite list_ascii_app, skipn_app, skipn_all, Nat.sub_diag. simpl.
  rewrite firstn_all. apply string_of_list_ascii_of_string.
Qed.

Lemma last_2 (s : string) (a b : ascii) :
  PyStr.last 2 (s ++ String a (String b "")) = String a (String b "").
Proof. apply (last_suffix s (String a (String b ""))). discriminate. Qed.

Lemma scan_element_split (d n last : string) :
  Py.find d "_" = -1 -> Py.find last "_" = -1 ->
  PyStr.split "_" (d ++ "_" ++ n ++ "_" ++ last)
  = [d] ++ PyStr.split "_" n ++ [last].
Proof.
  intros Hd Hl.
  change (d ++ "_" ++ n ++ "_" ++ last)%string
    with (d ++ String "_" (n ++ String "_" last))%string.
  now rewrite (split_head "_" d _ Hd), (split_snoc "_" n last Hl).
Qed.

Lemma scan_element_id_of (d n last : string) :
  Py.find d "_" = -1 -> Py.find last "_" = -1 ->
  scan_element_id (d ++ "_" ++ n ++ "_" ++ last) = Ok (d, n).
Proof.
  intros Hd Hl. unfold scan_element_id.
  rewrite (scan_element_split d n last Hd Hl). simpl Py.getitem. cbn [bind].
  rewrite slice_to_last by discriminate.
  replace (Z.of_nat (List.length ([d] ++ PyStr.split "_" n ++ [last])) - 1)
    with (Z.of_nat (List.length [d])
          + Z.of_nat (List.length (PyStr.split "_" n)))
    by (rewrite !length_app; cbn [List.length]; lia).
  change 1 with (Z.of_nat (List.length [d])) at 1.
  now rewrite slice_middle, join_split.
Qed.

(** X22.  The name of an enable file is taken apart at its underscores:
    for a file [direction_name_en], the direction holding no underscore,
    [IioInfo.__init__] creates the channel with that direction and that
    name, underscores inside the name included; the [_index] and [_type]
    files of the same scan element are passed over. *)
Theorem scan_element_id_round_trip (d n : string) :
  Py.find d "_" = -1 ->
  scan_element_id (d ++ "_" ++ n ++ "_en") = Ok (d, n) /\
  scan_element_ids [(d ++ "_" ++ n ++ "_en")%string;
                    (d ++ "_" ++ n ++ "_index")%string;
                    (d ++ "_" ++ n ++ "_type")%string]
  = Ok [(d, n)].
Proof.
  intros Hd.
  assert (Hid : scan_element_id (d ++ "_" ++ n ++ "_en") = Ok (d, n))
    by (apply (scan_element_id_of d n "en" Hd); reflexivity).
  split; [exact Hid|]. cbn [scan_element_ids]. unfold is_enable_file.
  replace (d ++ "_" ++ n ++ "_en")%string with ((d ++ "_" ++ n ++ "_") ++ "en")%string
    by (now rewrite !string_app_assoc).
  replace (d ++ "_" ++ n ++ "_index")%string
    with ((d ++ "_" ++ n ++ "_ind") ++ "ex")%string
    by (now rewrite !string_app_assoc).
  replace (d ++ "_" ++ n ++ "_type")%string
    with ((d ++ "_" ++ n ++ "_ty") ++ "pe")%string
    by (now rewrite !string_app_assoc).
  rewrite !last_2. simpl String.eqb. cbv iota.
  replace ((d ++ "_" ++ n ++ "_") ++ "en")%string with (d ++ "_" ++ n ++ "_en")%string
    by (now rewrite !string_app_assoc).
  now rewrite Hid.
Qed.

(** The enable file of the x axis of the accelerometer. *)
Lemma scan_element_id_round_trip_witness :
  scan_element_id ("in" ++ "_" ++ "accel_x" ++ "_en") = Ok ("in", "accel_x") /\
  scan_element_ids [("in" ++ "_" ++ "accel_x" ++ "_en")%string;
                    ("in" ++ "_" ++ "accel_x" ++ "_index")%string;
                    ("in" ++ "_" ++ "accel_x" ++ "_type")%string]
  = Ok [("in", "accel_x")].
Proof.
  apply (scan_element_id_round_trip "in" "accel_x"). reflexivity.
Defined.

(** ** Reading the device file in chunks *)

Lemma firstn_min {A : Type} (l : list A) (k : nat) :
  firstn (Nat.min k (List.length l)) l = firstn k l.
Proof.
  destruct (Nat.le_gt_cases k (List.length l)) as [Hle|Hgt].
  - now rewrite Nat.min_l.
  - rewrite Nat.min_r by lia. rewrite firstn_all. symmetry.
    apply firstn_all2. lia.
Qed.

Lemma slice_0 {A : Type} (l : list A) (k : Z) :
  0 <= k -> Py.slice l 0 k = firstn (Z.to_nat k) l.
Proof.
  intros Hk. unfold Py.slice. rewrite !adjust_bounds by lia.
  change (0 <? 0) with false. cbv iota.
  destruct (Z.ltb_spec k 0); [lia|].
  replace (Z.to_nat (Z.max 0 (Z.min (Z.of_nat (List.length l)) 0))) with 0%nat by lia.
  rewrite skipn_0, <- (firstn_min l (Z.to_nat k)). f_equal. lia.
Qed.

Lemma slice_skipn {A : Type} (l : list A) (k a b : Z) :
  0 <= k -> 0 <= a -> 0 <= b ->
  Py.slice (skipn (Z.to_nat k) l) a b = Py.slice l (a + k) (b + k).
Proof.
  intros Hk Ha Hb. unfold Py.slice.
  rewrite length_skipn, !adjust_bounds by lia.
  destruct (Z.ltb_spec a 0); [lia|]. destruct (Z.ltb_spec b 0); [lia|].
  destruct (Z.ltb_spec (a + k) 0); [lia|]. destruct (Z.ltb_spec (b + k) 0); [lia|].
  rewrite skipn_skipn.
  destruct (Z.le_gt_cases k (Z.of_nat (List.length l))) as [Hle|Hgt].
  - f_equal; [lia|]. f_equal. lia.
  - replace (Z.to_nat (Z.max 0 (Z.min (Z.of_nat (List.length l - Z.to_nat k)) b)
                       - Z.max 0 (Z.min (Z.of_nat (List.length l - Z.to_nat k)) a)))
      with 0%nat by lia.
    replace (Z.to_nat (Z.max 0 (Z.min (Z.of_nat (List.length l)) (b + k))
                       - Z.max 0 (Z.min (Z.of_nat (List.length l)) (a + k))))
      with 0%nat by lia.
    reflexivity.
Qed.

Lemma next_nonnegative (self : ChunkReader) :
  0 <= chunk_size self ->
  ChunkReader_next self
  = (firstn (Z.to_nat (chunk_size self)) (pending self),
     {| pending := skipn (Z.to_nat (chunk_size self)) (pending self);
        chunk_size := chunk_size self |}).
Proof.
  intros Hk. unfold ChunkReader_next, PyStr.read.
  destruct (Z.ltb_spec (chunk_size self) 0); [lia | reflexivity].
Qed.

(** X23.  Successive calls of [ChunkReader.next] cut the file into
    consecutive pieces of the chunk size: call number [i] returns the bytes
    from [i * size] to [(i + 1) * size] of the file, fewer or none when the
    file ends before; no byte is skipped or read twice, and the chunk size
    stays the same. *)
Theorem next_chunks_slices (n i : nat) (self : ChunkReader) :
  0 <= chunk_size self ->
  (i < n)%nat ->
  nth_error (fst (next_chunks n self)) i
  = Some (Py.slice (pending self) (Z.of_nat i * chunk_size self)
                   ((Z.of_nat i + 1) * chunk_size self)) /\
  List.concat (fst (next_chunks n self)) ++ pending (snd (next_chunks n self))
  = pending self /\
  chunk_size (snd (next_chunks n self)) = chunk_size self.
Proof.
  revert i self. induction n as [|n IH]; intros i self Hk Hi; [lia|].
  cbn [next_chunks]. rewrite (next_nonnegative self Hk).
  set (self' := {| pending := skipn (Z.to_nat (chunk_size self)) (pending self);
                   chunk_size := chunk_size self |}).
  assert (Hk' : 0 <= chunk_size self') by exact Hk.
  destruct (next_chunks n self') as [chunks self''] eqn:Hrest.
  cbn [fst snd List.concat].
  assert (Htail : List.concat chunks ++ pending self'' = pending self'
                  /\ chunk_size self'' = chunk_size self').
  { destruct n as [|n'].
    - simpl in Hrest. inversion Hrest. now split.
    - destruct (IH 0%nat self' Hk' ltac:(lia)) as (_ & H2 & H3).
      rewrite Hrest in H2, H3. now split. }
  destruct Htail as [Hcat Hsize]. split; [|split].
  - destruct i as [|i]; cbn [nth_error].
    + rewrite Z.mul_0_l, Z.add_0_l, Z.mul_1_l. now rewrite slice_0.
    + destruct (IH i self' Hk' ltac:(lia)) as (H1 & _ & _).
      rewrite Hrest in H1. cbn [fst] in H1. rewrite H1. f_equal.
      subst self'. cbn [pending chunk_size].
      rewrite slice_skipn by nia. f_equal; lia.
  - rewrite <- app_assoc, Hcat. subst self'. cbn [pending].
    apply firstn_skipn.
  - exact Hsize.
Qed.

(** The third of four calls on a file of five bytes read two at a time. *)
Lemma next_chunks_slices_witness :
  nth_error (fst (next_chunks 4 five_bytes)) 2
  = Some (Py.slice (pending five_bytes) (Z.of_nat 2 * chunk_size five_bytes)
                   ((Z.of_nat 2 + 1) * chunk_size five_bytes)) /\
  List.concat (fst (next_chunks 4 five_bytes))
    ++ pending (snd (next_chunks 4 five_bytes))
  = pending five_bytes /\
  chunk_size (snd (next_chunks 4 five_bytes)) = chunk_size five_bytes.
Proof.
  apply (next_chunks_slices 4 2 five_bytes).
  - vm_compute. discriminate.
  - lia.
Defined.

(** X24.  At the end of the file [ChunkReader.next] does not stop the
    iteration: it returns the empty chunk and leaves the reader as it is.
    On that chunk [decorate] raises [struct.error] as soon as one channel
    has a non-zero length (the channels being as [__init__] builds them,
    with offsets and scales that [float()] accepts). *)
Theorem end_of_file_raises (F : FloatOfStr) (self : IioInfo) (reader : ChunkReader) :
  Forall built (channel self) ->
  Forall calibrated (channel self) ->
  0 < bytes_needed self ->
  pending reader = [] ->
  ChunkReader_next reader = ([], reader) /\
  decorate self (fst (ChunkReader_next reader)) = Raise StructError.
Proof.
  intros Hb Hcal Hneed Hend.
  assert (Hnext : ChunkReader_next reader = ([], reader)).
  { unfold ChunkReader_next, PyStr.read. destruct reader as [p k].
    simpl in *. subst p. destruct (k <? 0); [reflexivity|].
    now rewrite firstn_nil, skipn_nil. }
  split; [exact Hnext|]. rewrite Hnext. cbn [fst].
  pose proof (sorted_perm _ IioChannel_lt (channel self)) as Hperm.
  apply Permutation_sym in Hperm.
  pose proof (Permutation_Forall Hperm Hb) as Hb'.
  pose proof (Permutation_Forall Hperm Hcal) as Hcal'.
  destruct (fields_decode [] _ 0 Hb' Hcal' ltac:(simpl; lia)) as [_ Hbad].
  rewrite decorate_layout. apply Hbad. exact Hneed.
Qed.

(** The device with one 8-bit channel at the end of its file. *)
Lemma end_of_file_raises_witness :
  ChunkReader_next {| pending := []; chunk_size := 8 |}
  = ([], {| pending := []; chunk_size := 8 |}) /\
  decorate one_u8 (fst (ChunkReader_next {| pending := []; chunk_size := 8 |}))
  = Raise StructError.
Proof.
  apply (end_of_file_raises decimal_float one_u8
           {| pending := []; chunk_size := 8 |}).
  - repeat constructor.
  - repeat constructor; eexists; reflexivity.
  - reflexivity.
  - reflexivity.
Defined.

Lemma zero_layout_values (F : FloatOfStr) (data : list byte)
    (chans : list IioChannel) (c : Z) :
  Forall (fun chan => typ_len chan = 0) chans ->
  map_result (decode_field data) (layout_from c chans)
  = Ok (map (fun chan => (name chan, PyInt 0)) chans).
Proof.
  intros Hz. revert c. induction Hz as [|chan chans Hchan _ IH]; intros c.
  - reflexivity.
  - cbn [layout_from map_result map].
    rewrite decode_field_zero by exact Hchan. cbn [bind].
    rewrite (IH (end_of chan c)). reflexivity.
Qed.

(** X25.  When every channel has length zero, [decorate] reads nothing:
    on every record, the empty one included, it returns the pair of the
    name and the integer [0] for each channel, in the order of the
    layout. *)
Theorem all_zero_width (F : FloatOfStr) (self : IioInfo) (data : list byte) :
  Forall (fun chan => typ_len chan = 0) (channel self) ->
  decorate self data
  = Ok (map (fun chan => (name chan, PyInt 0))
            (sorted IioChannel_lt (channel self))).
Proof.
  intros Hz. rewrite decorate_layout. unfold layout.
  apply zero_layout_values.
  eapply Permutation_Forall; [|exact Hz]. apply Permutation_sym, sorted_perm.
Qed.

(** A device whose only channel has 12 bits, on the empty record. *)
Lemma all_zero_width_witness :
  decorate (device [temp]) []
  = Ok (map (fun chan => (name chan, PyInt 0))
            (sorted IioChannel_lt (channel (device [temp])))).
Proof.
  apply (all_zero_width decimal_float (device [temp]) []).
  repeat constructor.
Defined.

(** ** Records made of fields *)

Lemma slice_field {A : Type} (pre field rest : list A) :
  Py.slice (pre ++ field ++ rest) (Z.of_nat (List.length pre))
    (Z.of_nat (List.length pre) + Z.of_nat (List.length field)) = field.
Proof.
  replace (Z.of_nat (List.length pre)) with (0 + Z.of_nat (List.length pre))
    at 1 by lia.
  replace (Z.of_nat (List.length pre) + Z.of_nat (List.length field))
    with (Z.of_nat (List.length field) + Z.of_nat (List.length pre)) by lia.
  rewrite <- slice_skipn by lia.
  rewrite Nat2Z.id, skipn_app, skipn_all, Nat.sub_diag. cbn [skipn app].
  rewrite slice_app by lia. rewrite slice_0 by lia.
  rewrite Nat2Z.id. apply firstn_all.
Qed.

Lemma plain_span (chan : IioChannel) (c : Z) :
  name chan <> "timestamp" ->
  start_of chan c = c /\ end_of chan c = c + typ_len chan.
Proof.
  intros Hname. unfold end_of, start_of.
  destruct (String.eqb_spec (name chan) "timestamp") as [Hn|_]; [contradiction|].
  split; [reflexivity|]. destruct (Z.eqb_spec (typ_len chan) 0); lia.
Qed.

(** A field inside a record is decoded as on its own. *)
Lemma decode_field_own (F : FloatOfStr) (pre field rest : list byte)
    (chan : IioChannel) :
  Z.of_nat (List.length field) = typ_len chan ->
  decode_field (pre ++ field ++ rest)
    (chan, Z.of_nat (List.length pre), Z.of_nat (List.length pre) + typ_len chan)
  = decode_field field (chan, 0, 0 + typ_len chan).
Proof.
  intros Hlen. unfold decode_field. rewrite <- Hlen, slice_field.
  replace (Py.slice field 0 (0 + Z.of_nat (List.length field))) with field;
    [reflexivity|].
  symmetry. pose proof (slice_field [] field []) as Hs.
  cbn [app List.length] in Hs. rewrite app_nil_r in Hs. exact Hs.
Qed.

(** [decorate] on a device with the one channel [chan]. *)
Lemma decorate_single (F : FloatOfStr) (self : IioInfo) (chan : IioChannel)
    (field : list byte) :
  name chan <> "timestamp" ->
  decorate (with_channels self [chan]) field
  = (v <- decode_field field (chan, 0, 0 + typ_len chan) ;; Ok [v]).
Proof.
  intros Hname. rewrite decorate_layout.
  change (layout (with_channels self [chan]))
    with [(chan, start_of chan 0, end_of chan 0)].
  destruct (plain_span chan 0 Hname) as [-> ->]. cbn [map_result].
  destruct (decode_field field _); reflexivity.
Qed.

Lemma packed_from (F : FloatOfStr) (self : IioInfo) (chans : list IioChannel)
    (fields : list (list byte)) (pre : list byte) :
  Forall (fun chan => name chan <> "timestamp") chans ->
  Forall2 (fun chan field => Z.of_nat (List.length field) = typ_len chan)
    chans fields ->
  map_result (decode_field (pre ++ List.concat fields))
    (layout_from (Z.of_nat (List.length pre)) chans)
  = (vals <- map_result
               (fun cf => decorate (with_channels self [fst cf]) (snd cf))
               (combine chans fields) ;;
     Ok (List.concat vals)).
Proof.
  intros Hplain Hfields. revert pre.
  induction Hfields as [|chan field chans fields Hlen _ IH]; intros pre.
  - reflexivity.
  - inversion Hplain as [|? ? Hname Hplain']; subst.
    cbn [layout_from map_result combine List.concat fst snd].
    destruct (plain_span chan (Z.of_nat (List.length pre)) Hname) as [-> ->].
    rewrite decode_field_own by exact Hlen.
    rewrite (decorate_single F self chan field Hname).
    replace (Z.of_nat (List.length pre) + typ_len chan)
      with (Z.of_nat (List.length (pre ++ field)))
      by (rewrite length_app; lia).
    rewrite (app_assoc pre field (List.concat fields)).
    rewrite (IH Hplain' (pre ++ field)).
    destruct (decode_field field _) as [v|e]; cbn [bind]; [|reflexivity].
    destruct (map_result _ (combine chans fields)) as [vals|e]; cbn [bind];
      reflexivity.
Qed.

Lemma fields_length (chans : list IioChannel) (fields : list (list byte)) :
  Forall2 (fun chan field => Z.of_nat (List.length field) = typ_len chan)
    chans fields ->
  Z.of_nat (List.length (List.concat fields)) = Py.sum (map typ_len chans).
Proof.
  induction 1 as [|chan field chans fields Hlen _ IH]; [reflexivity|].
  cbn [List.concat map]. rewrite length_app, sum_cons. lia.
Qed.

Lemma packed_values (F : FloatOfStr) (chans : list IioChannel)
    (fields : list (list byte)) (pre : list byte) :
  Forall (fun chan => name chan <> "timestamp") chans ->
  Forall2 (fun chan field => Z.of_nat (List.length field) = typ_len chan)
    chans fields ->
  map_result (decode_field (pre ++ List.concat fields))
    (layout_from (Z.of_nat (List.length pre)) chans)
  = map_result
      (fun cf => decode_field (snd cf)
                   (fst cf, 0, Z.of_nat (List.length (snd cf))))
      (combine chans fields).
Proof.
  intros Hplain Hfields. revert pre.
  induction Hfields as [|chan field chans fields Hlen _ IH]; intros pre.
  - reflexivity.
  - inversion Hplain as [|? ? Hname Hplain']; subst.
    cbn [layout_from map_result combine List.concat fst snd].
    destruct (plain_span chan (Z.of_nat (List.length pre)) Hname) as [-> ->].
    rewrite decode_field_own by exact Hlen.
    replace (Z.of_nat (List.length pre) + typ_len chan)
      with (Z.of_nat (List.length (pre ++ field)))
      by (rewrite length_app; lia).
    rewrite (app_assoc pre field (List.concat fields)).
    rewrite (IH Hplain' (pre ++ field)).
    now rewrite <- Hlen, Z.add_0_l.
Qed.

(** X10.  Without a channel named [timestamp], fields are packed back to
    back: a record made of one field for each channel, of the length of
    the channel and in the order of the layout, has as many bytes as the
    sum of the lengths; [decorate] decodes each channel from the bytes of
    its own field and from no other byte, and returns the values (or the
    first exception) that the one-channel devices return on the fields
    taken one by one. *)
Theorem fields_packed (F : FloatOfStr) (self : IioInfo)
    (fields : list (list byte)) :
  Forall (fun chan => name chan <> "timestamp") (channel self) ->
  Forall2 (fun chan field => Z.of_nat (List.length field) = typ_len chan)
    (sorted IioChannel_lt (channel self)) fields ->
  Z.of_nat (List.length (List.concat fields))
  = Py.sum (map typ_len (channel self)) /\
  decorate self (List.concat fields)
  = map_result
      (fun cf => decode_field (snd cf)
                   (fst cf, 0, Z.of_nat (List.length (snd cf))))
      (combine (sorted IioChannel_lt (channel self)) fields) /\
  decorate self (List.concat fields)
  = (vals <- map_result
               (fun cf => decorate (with_channels self [fst cf]) (snd cf))
               (combine (sorted IioChannel_lt (channel self)) fields) ;;
     Ok (List.concat vals)).
Proof.
  intros Hplain Hfields.
  assert (Hsorted : Forall (fun chan => name chan <> "timestamp")
                      (sorted IioChannel_lt (channel self))).
  { eapply Permutation_Forall; [|exact Hplain].
    apply Permutation_sym, sorted_perm. }
  split; [|split].
  - rewrite (fields_length _ _ Hfields). apply sum_sorted.
  - rewrite decorate_layout. unfold layout.
    exact (packed_values F _ fields [] Hsorted Hfields).
  - rewrite decorate_layout. unfold layout.
    exact (packed_from F self _ fields [] Hsorted Hfields).
Qed.

(** An 8-bit channel listed before a 16-bit channel of lower index, on the
    record of their two fields. *)
Lemma fields_packed_witness :
  Z.of_nat (List.length (List.concat [[x05; x00]; [x07]]))
  = Py.sum (map typ_len (channel (device [chan_2; accel_x]))) /\
  @decorate decimal_float (device [chan_2; accel_x])
    (List.concat [[x05; x00]; [x07]])
  = Ok [("accel_x", PyFloat 5); ("anglvel_z", PyFloat 7)] /\
  @decorate decimal_float (device [chan_2; accel_x])
    (List.concat [[x05; x00]; [x07]])
  = (vals <- map_result
               (fun cf =>
                  @decorate decimal_float
                    (with_channels (device [chan_2; accel_x]) [fst cf]) (snd cf))
               (combine (sorted IioChannel_lt (channel (device [chan_2; accel_x])))
                  [[x05; x00]; [x07]]) ;;
     Ok (List.concat vals)).
Proof.
  destruct (fields_packed decimal_float (device [chan_2; accel_x])
              [[x05; x00]; [x07]]) as (Hlen & Hvals & Hone).
  - repeat constructor; discriminate.
  - repeat constructor.
  - split; [exact Hlen|]. split; [|exact Hone].
    rewrite Hvals. vm_compute. reflexivity.
Defined.
